(** * The dispatcher of synnefo: message queue setup, dispatch and admin

    A shallow embedding of [src/logic/dispatcher.py].  The program is
    Python 2 written against amqplib: it connects to a RabbitMQ broker,
    declares exchanges and queues, binds queues to callbacks, and waits
    for messages; a supervisor process forks the workers and reaps them;
    three administrative commands purge queues, purge exchanges and
    drain a queue.

    The embedding is a state-and-exception monad over a [World]: the
    Python objects the program mutates (the [settings] module, the
    [Dispatcher] attributes, the global [children]), the broker, the
    inputs the environment still has to give (connection attempts,
    lines on standard input, results of [os.fork]) and the trace of
    every call the program makes to the outside. *)

From Stdlib Require Import ZArith String Ascii Bool Lia DecimalString List.
Import ListNotations.
Open Scope Z_scope.
Open Scope list_scope.

Notation "s1 +++ s2" := (String.append s1 s2)
  (at level 60, right associativity).

(** ** Python values *)

(** [str(n)] and the [%d] conversion for an integer. *)
Definition str_of_Z (z : Z) : string := NilZero.string_of_int (Z.to_int z).

Fixpoint join (sep : string) (l : list string) : string :=
  match l with
  | [] => EmptyString
  | [s] => s
  | s :: rest => s +++ sep +++ join sep rest
  end.

(** [repr] of a list of plain strings, as the [print] statement shows it
    (the names contain no quote and no escape). *)
Definition repr_list (l : list string) : string :=
  "["%string +++ join ", "%string
      (map (fun s => "'"%string +++ s +++ "'"%string) l) +++ "]"%string.

(** [x in l] for a list of strings. *)
Definition mem (x : string) (l : list string) : bool :=
  existsb (String.eqb x) l.

Inductive signum := SIGINT | SIGTERM.

Definition signo (s : signum) : Z :=
  match s with SIGINT => 2 | SIGTERM => 15 end.

(** The exceptions the program meets.  [SystemExit] and
    [KeyboardInterrupt] derive from [BaseException] only; all the
    others derive from [Exception]. *)
Inductive exn :=
| SystemExit (code : Z)
| KeyboardInterrupt
| SocketError                                   (* socket.error *)
| OSError (errno : string)
| EOFError
| AMQPConnectionException
| AMQPChannelException (amqp_reply_code : Z) (amqp_reply_text : string)
| AttributeError (attr : string)
| NameError (name : string)
| UnboundLocalError (name : string)             (* a subclass of NameError *)
| KeyError (key : nat)                          (* a dict without that key *)
| OtherError (what : string).                   (* any other Exception *)

Definition is_Exception (e : exn) : bool :=
  match e with
  | SystemExit _ | KeyboardInterrupt => false
  | _ => true
  end.

Definition is_NameError (e : exn) : bool :=
  match e with
  | NameError _ | UnboundLocalError _ => true
  | _ => false
  end.

(** ** The broker and the handles amqplib gives *)

Definition connection := nat.

Record channel := mkChannel { ch_conn : connection; ch_id : nat }.
Arguments mkChannel (ch_conn ch_id)%_nat.

Definition tag := nat.

(** A binding of the settings: (queue, exchange, routing key, handler). *)
Definition binding := (string * string * string * string)%type.

Definition b_queue (b : binding) : string := fst (fst (fst b)).
Definition b_exchange (b : binding) : string := snd (fst (fst b)).
Definition b_key (b : binding) : string := snd (fst b).
Definition b_handler (b : binding) : string := snd b.

Record consumer := mkConsumer {
  c_chan : channel; c_tag : tag; c_queue : string; c_callback : string }.

Definition channel_eqb (a b : channel) : bool :=
  Nat.eqb (ch_conn a) (ch_conn b) && Nat.eqb (ch_id a) (ch_id b).

Definition bind_eqb (a b : string * string * string) : bool :=
  String.eqb (fst (fst a)) (fst (fst b)) &&
  String.eqb (snd (fst a)) (snd (fst b)) &&
  String.eqb (snd a) (snd b).

(** The topology the broker holds: a declaration of what is there
    already changes nothing. *)
Record Broker := mkBroker {
  exchanges : list string;
  queues : list string;
  bound : list (string * string * string);      (* queue, exchange, key *)
  consumers : list consumer;
  closed : list channel;                        (* channels the broker closed *)
  closed_conns : list connection;               (* connections that were closed *)
  next_conn : nat;
  next_chan : nat;
  next_tag : nat }.

Definition declare (x : string) (l : list string) : list string :=
  if mem x l then l else l ++ [x].

Definition declare_binding (x : string * string * string)
    (l : list (string * string * string)) :=
  if existsb (bind_eqb x) l then l else l ++ [x].

Definition is_closed (c : channel) (b : Broker) : bool :=
  existsb (channel_eqb c) (closed b) ||
  existsb (Nat.eqb (ch_conn c)) (closed_conns b).

(** ** The settings module and the callbacks module

    Neither is under src/: the settings are taken as a value, the
    callbacks module as the list of the names it defines. *)
Record Settings := mkSettings {
  RABBIT_HOST : string;
  RABBIT_USERNAME : string;
  RABBIT_PASSWORD : string;
  RABBIT_VHOST : string;
  EXCHANGES : list string;
  QUEUES : list string;
  BINDINGS : list binding;
  BINDINGS_DEBUG : list binding;
  QUEUE_DEBUG : string;
  DEBUG : bool }.

Definition with_BINDINGS (l : list binding) (s : Settings) : Settings :=
  mkSettings (RABBIT_HOST s) (RABBIT_USERNAME s) (RABBIT_PASSWORD s)
    (RABBIT_VHOST s) (EXCHANGES s) (QUEUES s) l (BINDINGS_DEBUG s)
    (QUEUE_DEBUG s) (DEBUG s).

(** ** What the environment does *)

(** One attempt of [amqp.Connection(...)]. *)
Inductive attempt := Connected | Refused (e : exn).

(** What a blocking call ([chan.wait()], [os.waitpid]) ends with: it
    completes, it raises, or a signal arrives while the process is
    blocked in it. *)
Inductive blocking := Completes | Raises (e : exn) | Interrupted (s : signum).

(** The handlers of this file that [signal()] can install. *)
Inductive handler := SIG_DFL | exit_handler | parent_handler.

(** The part of the environment that no call changes. *)
Record Env := mkEnv {
  callbacks : list string;                      (* names in synnefo.logic.callbacks *)
  getpid : Z;
  queue_delete_fault : string -> option (Z * string);
  exchange_delete_fault : string -> option (Z * string);
  child_fate : Z -> blocking;                   (* what waitpid(pid) ends with *)
  closed_channel_error : exn }.                 (* raised on use of a closed channel *)

(** ** The trace *)

Inductive level := INFO | ERROR | DEBUGLVL.

Inductive event :=
| Log (l : level) (msg : string)
| Stdout (line : string)
| Stderr (text : string)
| RawInput (prompt : string)
| Sleep (seconds : Z)
| AmqpConnect (host userid password vhost : string)
| OpenChannel (c : channel)
| ExchangeDeclare (c : channel) (exchange : string)
| QueueDeclare (c : channel) (queue : string)
| QueueBind (c : channel) (queue exchange routing_key : string)
| BasicConsume (c : channel) (queue callback : string) (t : tag)
| BasicCancel (c : channel) (t : tag)
| ChanWait (c : channel)
| ConnectionClose (conn : connection)
| ChannelClose (c : channel)
| QueueDelete (c : channel) (queue : string)
| ExchangeDelete (c : channel) (exchange : string)
| DaemonOpen
| PidfAcquire (path : string)
| PidfRelease (path : string)
| Fork (result : Z)
| SignalInstall (s : signum) (h : handler)
| Kill (pid : Z) (s : signum)
| Waitpid (pid : Z)
| Reaped (pid : Z).                   (* [os.waitpid] has returned the status of [pid] *)

(** ** The world *)

Record World := mkWorld {
  env : Env;
  settings : Settings;                (* the module object; BINDINGS is a list *)
  chan : option channel;              (* Dispatcher.chan *)
  debug : bool;                       (* Dispatcher.debug *)
  clienttags : list tag;              (* Dispatcher.clienttags, a class attribute *)
  children : option (list Z);         (* the global of main, unset at first *)
  on_SIGINT : handler;
  on_SIGTERM : handler;
  broker : Broker;
  attempts : list attempt;            (* connection attempts still to come *)
  stdin : list string;                (* lines still to be read *)
  forks : list Z;                     (* results of os.fork still to come *)
  trace : list event }.

Definition set_settings (x : Settings) (w : World) : World :=
  mkWorld (env w) x (chan w) (debug w) (clienttags w) (children w)
    (on_SIGINT w) (on_SIGTERM w) (broker w) (attempts w) (stdin w) (forks w)
    (trace w).
Definition set_chan (x : option channel) (w : World) : World :=
  mkWorld (env w) (settings w) x (debug w) (clienttags w) (children w)
    (on_SIGINT w) (on_SIGTERM w) (broker w) (attempts w) (stdin w) (forks w)
    (trace w).
Definition set_debug (x : bool) (w : World) : World :=
  mkWorld (env w) (settings w) (chan w) x (clienttags w) (children w)
    (on_SIGINT w) (on_SIGTERM w) (broker w) (attempts w) (stdin w) (forks w)
    (trace w).
Definition set_clienttags (x : list tag) (w : World) : World :=
  mkWorld (env w) (settings w) (chan w) (debug w) x (children w)
    (on_SIGINT w) (on_SIGTERM w) (broker w) (attempts w) (stdin w) (forks w)
    (trace w).
Definition set_children (x : option (list Z)) (w : World) : World :=
  mkWorld (env w) (settings w) (chan w) (debug w) (clienttags w) x
    (on_SIGINT w) (on_SIGTERM w) (broker w) (attempts w) (stdin w) (forks w)
    (trace w).
Definition set_handler (s : signum) (h : handler) (w : World) : World :=
  mkWorld (env w) (settings w) (chan w) (debug w) (clienttags w) (children w)
    (match s with SIGINT => h | SIGTERM => on_SIGINT w end)
    (match s with SIGTERM => h | SIGINT => on_SIGTERM w end)
    (broker w) (attempts w) (stdin w) (forks w) (trace w).
Definition set_broker (x : Broker) (w : World) : World :=
  mkWorld (env w) (settings w) (chan w) (debug w) (clienttags w) (children w)
    (on_SIGINT w) (on_SIGTERM w) x (attempts w) (stdin w) (forks w) (trace w).
Definition set_attempts (x : list attempt) (w : World) : World :=
  mkWorld (env w) (settings w) (chan w) (debug w) (clienttags w) (children w)
    (on_SIGINT w) (on_SIGTERM w) (broker w) x (stdin w) (forks w) (trace w).
Definition set_stdin (x : list string) (w : World) : World :=
  mkWorld (env w) (settings w) (chan w) (debug w) (clienttags w) (children w)
    (on_SIGINT w) (on_SIGTERM w) (broker w) (attempts w) x (forks w) (trace w).
Definition set_forks (x : list Z) (w : World) : World :=
  mkWorld (env w) (settings w) (chan w) (debug w) (clienttags w) (children w)
    (on_SIGINT w) (on_SIGTERM w) (broker w) (attempts w) (stdin w) x (trace w).
Definition set_trace (x : list event) (w : World) : World :=
  mkWorld (env w) (settings w) (chan w) (debug w) (clienttags w) (children w)
    (on_SIGINT w) (on_SIGTERM w) (broker w) (attempts w) (stdin w) (forks w) x.

(** ** The monad *)

(** How a computation ends: it returns, it raises, it stays blocked for
    ever (the environment gives nothing more), or the process is killed
    by a signal it does not handle. *)
Inductive result (A : Type) :=
| Ret (a : A)
| Raise (e : exn)
| Blocked
| Killed (s : signum).
Arguments Ret {A} a.
Arguments Raise {A} e.
Arguments Blocked {A}.
Arguments Killed {A} s.

Definition M (A : Type) := World -> result A * World.

Definition ret {A} (a : A) : M A := fun w => (Ret a, w).
Definition raise {A} (e : exn) : M A := fun w => (Raise e, w).
Definition blocked {A} : M A := fun w => (Blocked, w).
Definition killed {A} (s : signum) : M A := fun w => (Killed s, w).

Definition bind {A B} (m : M A) (f : A -> M B) : M B :=
  fun w =>
    match m w with
    | (Ret a, w') => f a w'
    | (Raise e, w') => (Raise e, w')
    | (Blocked, w') => (Blocked, w')
    | (Killed s, w') => (Killed s, w')
    end.

Notation "x <- m ;; k" := (bind m (fun x => k))
  (at level 100, m at next level, right associativity).
Notation "m ;; k" := (bind m (fun _ => k))
  (at level 100, right associativity).

Definition gets {A} (f : World -> A) : M A := fun w => (Ret (f w), w).
Definition modify (f : World -> World) : M unit := fun w => (Ret tt, f w).
Definition emit (e : event) : M unit :=
  modify (fun w => set_trace (trace w ++ [e]) w).

(** [try: body  except <classes>: h]: [h e] is [None] when no clause
    matches [e]. *)
Definition try_except {A} (body : M A) (h : exn -> option (M A)) : M A :=
  fun w =>
    match body w with
    | (Raise e, w') =>
        match h e with
        | Some k => k w'
        | None => (Raise e, w')
        end
    | r => r
    end.

(** [try: body  finally: fin]. *)
Definition try_finally {A} (body : M A) (fin : M unit) : M A :=
  fun w =>
    match body w with
    | (Ret a, w') => (fin ;; ret a) w'
    | (Raise e, w') => (fin ;; raise e) w'
    | r => r
    end.

(** [for x in l: body]. *)
Fixpoint for_each {A} (l : list A) (body : A -> M unit) : M unit :=
  match l with
  | [] => ret tt
  | x :: rest => body x ;; for_each rest body
  end.

Definition log (l : level) (msg : string) : M unit := emit (Log l msg).
Definition print (line : string) : M unit := emit (Stdout line).

(** ** The calls of amqplib

    Every call is recorded in the trace as it is made.  A call through
    a channel the broker has closed raises the environment's
    [closed_channel_error].  Declarations, bindings and consumer
    registrations on an open channel are accepted by the broker; the
    calls that can fail are connecting, waiting, deleting, and the
    cancellation of a tag that the channel does not know. *)

Definition with_topology (ex qs : list string)
    (bd : list (string * string * string)) (b : Broker) : Broker :=
  mkBroker ex qs bd (consumers b) (closed b) (closed_conns b) (next_conn b)
    (next_chan b) (next_tag b).

Definition with_consumers (cs : list consumer) (b : Broker) : Broker :=
  mkBroker (exchanges b) (queues b) (bound b) cs (closed b) (closed_conns b)
    (next_conn b) (next_chan b) (next_tag b).

Definition with_closed (cl : list channel) (cc : list connection)
    (b : Broker) : Broker :=
  mkBroker (exchanges b) (queues b) (bound b) (consumers b) cl cc
    (next_conn b) (next_chan b) (next_tag b).

Definition with_counters (nconn nchan ntag : nat) (b : Broker) : Broker :=
  mkBroker (exchanges b) (queues b) (bound b) (consumers b) (closed b)
    (closed_conns b) nconn nchan ntag.

Definition update_broker (f : Broker -> Broker) : M unit :=
  modify (fun w => set_broker (f (broker w)) w).

Definition use_channel (c : channel) : M unit :=
  b <- gets broker ;;
  e <- gets env ;;
  if is_closed c b then raise (closed_channel_error e) else ret tt.

(** [amqp.Connection(host=..., userid=..., password=..., virtual_host=...)]. *)
Definition amqp_Connection : M connection :=
  s <- gets settings ;;
  emit (AmqpConnect (RABBIT_HOST s) (RABBIT_USERNAME s) (RABBIT_PASSWORD s)
          (RABBIT_VHOST s)) ;;
  l <- gets attempts ;;
  match l with
  | [] => blocked
  | Connected :: rest =>
      modify (set_attempts rest) ;;
      b <- gets broker ;;
      update_broker (with_counters (S (next_conn b)) (next_chan b) (next_tag b)) ;;
      ret (next_conn b)
  | Refused e :: rest =>
      modify (set_attempts rest) ;;
      raise e
  end.

(** [conn.channel()]. *)
Definition conn_channel (conn : connection) : M channel :=
  b <- gets broker ;;
  let c := mkChannel conn (next_chan b) in
  emit (OpenChannel c) ;;
  update_broker (with_counters (next_conn b) (S (next_chan b)) (next_tag b)) ;;
  ret c.

Definition exchange_declare (c : channel) (exchange : string) : M unit :=
  emit (ExchangeDeclare c exchange) ;;
  use_channel c ;;
  update_broker (fun b =>
    with_topology (declare exchange (exchanges b)) (queues b) (bound b) b).

Definition queue_declare (c : channel) (queue : string) : M unit :=
  emit (QueueDeclare c queue) ;;
  use_channel c ;;
  update_broker (fun b =>
    with_topology (exchanges b) (declare queue (queues b)) (bound b) b).

Definition queue_bind (c : channel) (queue exchange routing_key : string)
    : M unit :=
  emit (QueueBind c queue exchange routing_key) ;;
  use_channel c ;;
  update_broker (fun b =>
    with_topology (exchanges b) (queues b)
      (declare_binding (queue, exchange, routing_key) (bound b)) b).

(** [chan.basic_consume(queue=..., callback=...)]: the broker issues the
    consumer tag. *)
Definition basic_consume (c : channel) (queue callback : string) : M tag :=
  b <- gets broker ;;
  let t := next_tag b in
  emit (BasicConsume c queue callback t) ;;
  use_channel c ;;
  update_broker (fun b =>
    with_counters (next_conn b) (next_chan b) (S t)
      (with_consumers (consumers b ++ [mkConsumer c t queue callback]) b)) ;;
  ret t.

(** The consumers of channel [c] are the entries of its [callbacks]
    dictionary, each under its tag. *)
Definition tags_of (c : channel) (cs : list consumer) : list tag :=
  map c_tag (filter (fun k => channel_eqb (c_chan k) c) cs).

(** [chan.basic_cancel(tag)]: the broker confirms the cancellation of
    any tag, and on the confirmation amqplib does
    [del self.callbacks[consumer_tag]], which raises [KeyError] for a
    tag that the channel has not registered. *)
Definition basic_cancel (c : channel) (t : tag) : M unit :=
  emit (BasicCancel c t) ;;
  use_channel c ;;
  b <- gets broker ;;
  if existsb (Nat.eqb t) (tags_of c (consumers b)) then
    update_broker (fun b =>
      with_consumers
        (filter (fun k => negb (channel_eqb (c_chan k) c && Nat.eqb (c_tag k) t))
           (consumers b)) b)
  else raise (KeyError t).

(** [chan.connection]: amqplib sets the attribute to [None] when the
    channel is closed, so that [chan.connection.close()] raises
    [AttributeError] then. *)
Definition chan_connection (c : channel) (attr : string) : M connection :=
  b <- gets broker ;;
  if is_closed c b then raise (AttributeError attr) else ret (ch_conn c).

(** [conn.close()]: the channels of the connection go with it. *)
Definition connection_close (conn : connection) : M unit :=
  emit (ConnectionClose conn) ;;
  update_broker (fun b =>
    with_closed (closed b) (closed_conns b ++ [conn])
      (with_consumers
         (filter (fun k => negb (Nat.eqb (ch_conn (c_chan k)) conn))
            (consumers b)) b)).

(** [chan.close()]: returns at once on a channel that is closed. *)
Definition channel_close (c : channel) : M unit :=
  emit (ChannelClose c) ;;
  b <- gets broker ;;
  if is_closed c b then ret tt
  else
    update_broker (fun b =>
      with_closed (closed b ++ [c]) (closed_conns b)
        (with_consumers
           (filter (fun k => negb (channel_eqb (c_chan k) c)) (consumers b))
           b)).

(** A channel exception of the broker closes the channel. *)
Definition channel_exception {A} (c : channel) (code : Z) (text : string)
    : M A :=
  update_broker (fun b => with_closed (closed b ++ [c]) (closed_conns b) b) ;;
  raise (AMQPChannelException code text).

Definition queue_delete (c : channel) (queue : string) : M unit :=
  emit (QueueDelete c queue) ;;
  use_channel c ;;
  e <- gets env ;;
  match queue_delete_fault e queue with
  | Some (code, text) => channel_exception c code text
  | None =>
      update_broker (fun b =>
        with_topology (exchanges b)
          (filter (fun q => negb (String.eqb q queue)) (queues b))
          (filter (fun x => negb (String.eqb (fst (fst x)) queue)) (bound b))
          b)
  end.

Definition exchange_delete (c : channel) (exchange : string) : M unit :=
  emit (ExchangeDelete c exchange) ;;
  use_channel c ;;
  e <- gets env ;;
  match exchange_delete_fault e exchange with
  | Some (code, text) => channel_exception c code text
  | None =>
      update_broker (fun b =>
        with_topology
          (filter (fun x => negb (String.eqb x exchange)) (exchanges b))
          (queues b)
          (filter (fun x => negb (String.eqb (snd (fst x)) exchange)) (bound b))
          b)
  end.

(** ** Other calls to the outside *)

Definition sleep (seconds : Z) : M unit := emit (Sleep seconds).

(** The children whose status a wait has collected: their processes
    are gone. *)
Definition reaped (tr : list event) : list Z :=
  flat_map (fun e => match e with Reaped p => [p] | _ => [] end) tr.

(** [os.kill(pid, sig)]: there is no process to signal once the child
    has been reaped. *)
Definition os_kill (pid : Z) (s : signum) : M unit :=
  tr <- gets trace ;;
  if existsb (Z.eqb pid) (reaped tr) then raise (OSError "ESRCH")
  else emit (Kill pid s).

Definition signal (s : signum) (h : handler) : M unit :=
  emit (SignalInstall s h) ;;
  modify (set_handler s h).

(** [raw_input(prompt)]: end of input raises [EOFError]. *)
Definition raw_input (prompt : string) : M string :=
  emit (RawInput prompt) ;;
  l <- gets stdin ;;
  match l with
  | [] => raise EOFError
  | line :: rest => modify (set_stdin rest) ;; ret line
  end.

(** [getattr(callbacks, name)]. *)
Definition getattr_callbacks (name : string) : M string :=
  e <- gets env ;;
  if mem name (callbacks e) then ret name else raise (AttributeError name).

(** [os.fork()]: the result is 0 in the child and the child's pid in
    the parent; the call fails when the system gives no more. *)
Definition os_fork : M Z :=
  l <- gets forks ;;
  match l with
  | [] => raise (OSError "EAGAIN")
  | r :: rest => modify (set_forks rest) ;; emit (Fork r) ;; ret r
  end.

(** ** Signal handlers *)

(** Catch exit signal in children processes. *)
Definition _exit_handler (s : signum) : M unit :=
  e <- gets env ;;
  print (str_of_Z (getpid e) +++ ": Caught signal " +++ str_of_Z (signo s)
         +++ ", will raise SystemExit") ;;
  raise (SystemExit 0).

(** Catch exit signal in parent process and forward it to children. *)
Definition _parent_handler (s : signum) : M unit :=
  print ("Caught signal " +++ str_of_Z (signo s)
         +++ ", sending kill signal to children") ;;
  c <- gets children ;;
  match c with
  | None => raise (NameError "children")
  | Some l => for_each l (fun pid => os_kill pid SIGTERM)
  end.

(** The arrival of signal [s]: the installed handler runs.  With no
    handler installed, SIGINT raises [KeyboardInterrupt] and SIGTERM
    ends the process. *)
Definition deliver (s : signum) : M unit :=
  h <- gets (fun w => match s with SIGINT => on_SIGINT w | SIGTERM => on_SIGTERM w end) ;;
  match h with
  | exit_handler => _exit_handler s
  | parent_handler => _parent_handler s
  | SIG_DFL =>
      match s with
      | SIGINT => raise KeyboardInterrupt
      | SIGTERM => killed SIGTERM
      end
  end.

(** A blocking call and its end.  When a handler returns, Python 2
    lets the interrupted call fail with [eintr]. *)
Definition end_of_call (o : option blocking) (eintr : exn) : M unit :=
  match o with
  | None => blocked
  | Some Completes => ret tt
  | Some (Raises e) => raise e
  | Some (Interrupted s) => deliver s ;; raise eintr
  end.

(** [chan.wait()]: a delivered message is handled by its callback
    before the call returns. *)
Definition chan_wait (c : channel) (o : option blocking) : M unit :=
  emit (ChanWait c) ;;
  use_channel c ;;
  end_of_call o SocketError.

(** [os.waitpid(pid, 0)]: when the call completes, the child has
    exited and its status is collected. *)
Definition os_waitpid (pid : Z) : M unit :=
  emit (Waitpid pid) ;;
  e <- gets env ;;
  end_of_call (Some (child_fate e pid)) (OSError "EINTR") ;;
  emit (Reaped pid).

(** ** class Dispatcher *)

Module Dispatcher.

(** [self.chan], which is [None] until [_init] has set it. *)
Definition self_chan (attr : string) : M channel :=
  c <- gets chan ;;
  match c with
  | None => raise (AttributeError attr)
  | Some c => ret c
  end.

(** The loop [while conn == None] of [_init]: one round per unit of
    [fuel]; [_init] gives it one round more than the environment has
    attempts left, so that the loop ends in [amqp_Connection]. *)
Fixpoint connect (fuel : nat) : M connection :=
  match fuel with
  | O => blocked
  | S fuel' =>
      s <- gets settings ;;
      log INFO ("Attempting to connect to " +++ RABBIT_HOST s) ;;
      conn <- try_except
                (c <- amqp_Connection ;; ret (Some c))
                (fun e => match e with
                          | SocketError => Some (sleep 1 ;; ret None)
                          | _ => None
                          end) ;;
      match conn with
      | Some c => ret c
      | None => connect fuel'
      end
  end.

(** The body of [for binding in bindings]. *)
Definition bind_one (binding : binding) : M unit :=
  callback <- try_except
                (f <- getattr_callbacks (b_handler binding) ;; ret (Some f))
                (fun e => match e with
                          | AttributeError _ =>
                              Some (log ERROR ("Cannot find callback "
                                               +++ b_handler binding) ;;
                                    ret None)
                          | _ => None
                          end) ;;
  match callback with
  | None => ret tt                                         (* continue *)
  | Some callback =>
      c <- self_chan "queue_bind" ;;
      queue_bind c (b_queue binding) (b_exchange binding) (b_key binding) ;;
      t <- basic_consume c (b_queue binding) callback ;;
      log DEBUGLVL ("Binding " +++ b_exchange binding +++ "(" +++ b_key binding
                    +++ ") to queue " +++ b_queue binding +++ " with handler "
                    +++ b_handler binding) ;;
      modify (fun w => set_clienttags (clienttags w ++ [t]) w)
  end.

Definition _init : M unit :=
  log INFO "Initializing" ;;
  (* Connect to RabbitMQ *)
  l <- gets attempts ;;
  conn <- connect (S (List.length l)) ;;
  log INFO "Connection succesful, opening channel" ;;
  c <- conn_channel conn ;;
  modify (set_chan (Some c)) ;;
  (* Declare queues and exchanges *)
  s <- gets settings ;;
  for_each (EXCHANGES s) (fun exchange => exchange_declare c exchange) ;;
  for_each (QUEUES s) (fun queue => queue_declare c queue) ;;
  (* bindings = settings.BINDINGS: a second name of the same list *)
  d <- gets debug ;;
  (if d && DEBUG s then
     queue_declare c (QUEUE_DEBUG s) ;;
     (* bindings += settings.BINDINGS_DEBUG extends that list in place *)
     modify (fun w =>
       set_settings
         (with_BINDINGS (BINDINGS (settings w) ++ BINDINGS_DEBUG (settings w))
            (settings w)) w)
   else ret tt) ;;
  (* Bind queues to handler methods *)
  bindings <- gets (fun w => BINDINGS (settings w)) ;;
  for_each bindings bind_one.

Definition __init__ (dbg : bool) : M unit :=
  modify (set_debug dbg) ;;
  _init.

(** The loop [while True] of [wait], one round per element of what the
    calls of [chan.wait()] end with; when the environment has nothing
    more, the call stays blocked.  The result of a round says whether
    the loop goes on. *)
Definition wait_round (o : option blocking) : M bool :=
  try_except
    (c <- self_chan "wait" ;; chan_wait c o ;; ret true)
    (fun e => match e with
              | SystemExit _ => Some (ret false)             (* break *)
              | AMQPConnectionException =>
                  Some (log ERROR "Server went away, reconnecting..." ;;
                        _init ;; ret true)
              | SocketError =>
                  Some (log ERROR "Server went away, reconnecting..." ;;
                        _init ;; ret true)
              | _ => None
              end).

Fixpoint wait_loop (incoming : list blocking) : M unit :=
  match incoming with
  | [] => _ <- wait_round None ;; blocked
  | o :: rest =>
      again <- wait_round (Some o) ;;
      if again : bool then wait_loop rest else ret tt
  end.

Definition wait (incoming : list blocking) : M unit :=
  wait_loop incoming ;;
  tags <- gets clienttags ;;
  for_each tags (fun clienttag =>
    c <- self_chan "basic_cancel" ;; basic_cancel c clienttag) ;;
  c <- self_chan "connection" ;;
  conn <- chan_connection c "close" ;;
  connection_close conn ;;
  c <- self_chan "close" ;;
  channel_close c.

End Dispatcher.

(** ** Command line *)

(** The values [parse_arguments] returns, under the names of their
    [dest]. *)
Module Opts.
Record t := mk {
  debug : bool;
  workers : Z;
  pid_file : string;
  purge_queues : bool;
  purge_exchanges : bool;
  drain_queue : option string }.
End Opts.

(** An option as optparse recognises it on the command line. *)
Inductive option_given :=
| opt_debug                                  (* -d, --debug *)
| opt_workers (n : Z)                        (* -w N, --workers N *)
| opt_pid_file (path : string)               (* -p F, --pid-file F *)
| opt_purge_queues                           (* --purge-queues *)
| opt_purge_exchanges                        (* --purge-exchanges *)
| opt_drain_queue (queue : string).          (* --drain-queue Q *)

(** [path.endswith('/')]. *)
Fixpoint ends_with_slash (path : string) : bool :=
  match path with
  | EmptyString => false
  | String c EmptyString => Ascii.eqb c "/"
  | String _ rest => ends_with_slash rest
  end.

(** [os.path.join(a, b)] of posixpath. *)
Definition path_join (a b : string) : string :=
  if String.prefix "/" b then b
  else if String.eqb a "" || ends_with_slash a then a +++ b
  else a +++ "/" +++ b.

(** The [default] of every [add_option]; the pid file is
    [dispatcher.pid] in the directory the program starts in,
    [os.getcwd()]. *)
Definition default_options (cwd : string) : Opts.t :=
  Opts.mk false 2 (path_join cwd "dispatcher.pid") false false None.

Definition store (o : Opts.t) (g : option_given) : Opts.t :=
  match g with
  | opt_debug =>
      Opts.mk true (Opts.workers o) (Opts.pid_file o) (Opts.purge_queues o)
        (Opts.purge_exchanges o) (Opts.drain_queue o)
  | opt_workers n =>
      Opts.mk (Opts.debug o) n (Opts.pid_file o) (Opts.purge_queues o)
        (Opts.purge_exchanges o) (Opts.drain_queue o)
  | opt_pid_file path =>
      Opts.mk (Opts.debug o) (Opts.workers o) path (Opts.purge_queues o)
        (Opts.purge_exchanges o) (Opts.drain_queue o)
  | opt_purge_queues =>
      Opts.mk (Opts.debug o) (Opts.workers o) (Opts.pid_file o) true
        (Opts.purge_exchanges o) (Opts.drain_queue o)
  | opt_purge_exchanges =>
      Opts.mk (Opts.debug o) (Opts.workers o) (Opts.pid_file o)
        (Opts.purge_queues o) true (Opts.drain_queue o)
  | opt_drain_queue queue =>
      Opts.mk (Opts.debug o) (Opts.workers o) (Opts.pid_file o)
        (Opts.purge_queues o) (Opts.purge_exchanges o) (Some queue)
  end.

Definition parse_arguments (cwd : string) (args : list option_given) : Opts.t :=
  fold_left store args (default_options cwd).

(** ** Worker process *)

(** The context of the child process. *)
Definition child (cwd : string) (cmdline : list option_given)
    (incoming : list blocking) : M unit :=
  let opts := parse_arguments cwd cmdline in
  Dispatcher.__init__ (Opts.debug opts) ;;
  (* Start the event loop *)
  Dispatcher.wait incoming.

(** ** Administrative commands *)

Definition get_connection : M connection := amqp_Connection.

Definition get_user_confirmation : M bool :=
  ans <- raw_input "Are you sure (N/y):" ;;
  if String.eqb ans "" then ret false
  else if negb (mem ans ["Y"%string; "y"%string]) then ret false
  else ret true.

(** [print e.amqp_reply_code, " ", e.amqp_reply_text]. *)
Definition print_reply (code : Z) (text : string) : M unit :=
  print (str_of_Z code +++ "   " +++ text).

(** The loop [for queue in settings.QUEUES] of [purge_queues]; the
    local [chan] is carried from round to round. *)
Fixpoint delete_queues (conn : connection) (chan : channel)
    (l : list string) : M channel :=
  match l with
  | [] => ret chan
  | queue :: rest =>
      chan <- try_except
                (queue_delete chan queue ;;
                 print ("Deleting queue " +++ queue) ;;
                 ret chan)
                (fun e => match e with
                          | AMQPChannelException code text =>
                              Some (print_reply code text ;;
                                    conn_channel conn)
                          | _ => None
                          end) ;;
      delete_queues conn chan rest
  end.

(** Delete declared queues from RabbitMQ. Use with care! *)
Definition purge_queues : M unit :=
  conn <- get_connection ;;
  chan <- conn_channel conn ;;
  s <- gets settings ;;
  print ("Queues to be deleted:  " +++ repr_list (QUEUES s)) ;;
  sure <- get_user_confirmation ;;
  if negb sure then ret tt
  else
    chan <- delete_queues conn chan (QUEUES s) ;;
    conn <- chan_connection chan "close" ;;
    connection_close conn.

(** Delete declared exchanges from RabbitMQ, after removing all queues
    first. *)
Definition purge_exchanges : M unit :=
  purge_queues ;;
  conn <- get_connection ;;
  chan <- conn_channel conn ;;
  s <- gets settings ;;
  print ("Exchnages to be deleted:  " +++ repr_list (EXCHANGES s)) ;;
  sure <- get_user_confirmation ;;
  if negb sure then ret tt
  else
    for_each (EXCHANGES s) (fun exchange =>
      try_except
        (exchange_delete chan exchange)
        (fun e => match e with
                  | AMQPChannelException code text =>
                      Some (print_reply code text)
                  | _ => None
                  end)) ;;
    conn <- chan_connection chan "close" ;;
    connection_close conn.

(** The loop that looks for the exchange of [queue]: the local [exch]
    is assigned by every binding of the queue, and by no other. *)
Definition find_exch (queue : string) (l : list binding) : option string :=
  fold_left
    (fun exch binding =>
       if String.eqb (b_queue binding) queue
       then Some (b_exchange binding) else exch)
    l None.

Definition carriage_return : string := String (ascii_of_nat 13) EmptyString.

(** The loop [while True] of [drain_queue]. *)
Fixpoint drain_loop (chan : channel) (incoming : list blocking)
    (num_processed : Z) : M unit :=
  match incoming with
  | [] => chan_wait chan None ;; blocked
  | o :: rest =>
      chan_wait chan (Some o) ;;
      let num_processed := num_processed + 1 in
      emit (Stderr ("Ignored " +++ str_of_Z num_processed +++ " messages"
                    +++ carriage_return)) ;;
      drain_loop chan rest num_processed
  end.

(** Strip a (declared) queue from all outstanding messages. *)
Definition drain_queue (queue : string) (incoming : list blocking) : M unit :=
  if String.eqb queue "" then ret tt
  else
    s <- gets settings ;;
    if negb (mem queue (QUEUES s)) then
      print ("Queue " +++ queue +++ " not configured")
    else
      print ("Queue to be drained: " +++ queue) ;;
      sure <- get_user_confirmation ;;
      if negb sure then ret tt
      else
        conn <- get_connection ;;
        chan <- conn_channel conn ;;
        (* Register a temporary queue binding *)
        bindings <- gets (fun w => BINDINGS (settings w)) ;;
        match find_exch queue bindings with
        | None => raise (UnboundLocalError "exch")
        | Some exch =>
            if String.eqb exch "" then
              print ("Queue not bound to any exchange: " +++ queue)
            else
              queue_bind chan queue exch "#" ;;
              t <- basic_consume chan queue "dummy_proc" ;;
              print "Queue draining about to start, hit Ctrl+c when done" ;;
              sleep 2 ;;
              print "Queue draining starting" ;;
              signal SIGTERM exit_handler ;;
              signal SIGINT exit_handler ;;
              drain_loop chan incoming 0 ;;
              basic_cancel chan t ;;
              conn <- chan_connection chan "close" ;;
              connection_close conn
        end.

Definition debug_mode (incoming : list blocking) : M unit :=
  Dispatcher.__init__ true ;;
  signal SIGINT exit_handler ;;
  signal SIGTERM exit_handler ;;
  Dispatcher.wait incoming.

(** ** Supervisor *)

(** [children.append(pid)] on the global. *)
Definition children_append (pid : Z) : M unit :=
  c <- gets children ;;
  match c with
  | None => raise (NameError "children")
  | Some l => modify (set_children (Some (l ++ [pid])))
  end.

(** The loop [while i < opts.workers], [rounds] being the number of
    rounds left.  In the child [os.fork] gives 0: the child runs the
    worker and leaves through [sys.exit(1)]. *)
Fixpoint fork_workers (rounds : nat) (cwd : string)
    (argv : list option_given) (incoming : list blocking) : M unit :=
  match rounds with
  | O => ret tt
  | S rounds' =>
      newpid <- os_fork ;;
      (if newpid =? 0 then
         signal SIGINT exit_handler ;;
         signal SIGTERM exit_handler ;;
         child cwd argv incoming ;;
         raise (SystemExit 1)
       else
         e <- gets env ;;
         log DEBUGLVL (str_of_Z (getpid e) +++ ", forked child: "
                       +++ str_of_Z newpid) ;;
         children_append newpid) ;;
      fork_workers rounds' cwd argv incoming
  end.

(** Wait for all children processes to die, one by one. *)
Definition reap (pid_file : string) : M unit :=
  try_finally
    (c <- gets children ;;
     match c with
     | None => raise (NameError "children")
     | Some l =>
         for_each l (fun pid =>
           try_except (os_waitpid pid)
             (fun e => if is_Exception e then Some (ret tt) else None))
     end)
    (emit (PidfRelease pid_file)).

Definition main (cwd : string) (argv : list option_given)
    (incoming : list blocking) : M unit :=
  let opts := parse_arguments cwd argv in
  (* Special case for the clean up queues action *)
  if Opts.purge_queues opts then purge_queues
  (* Special case for the clean up exch action *)
  else if Opts.purge_exchanges opts then purge_exchanges
  else
    match Opts.drain_queue opts with
    | Some (String a q) => drain_queue (String a q) incoming
    | _ =>
        (* Debug mode, process messages without spawning workers *)
        if Opts.debug opts then debug_mode incoming
        else
          (* Become a daemon *)
          emit DaemonOpen ;;
          emit (PidfAcquire (Opts.pid_file opts)) ;;
          log INFO "Became a daemon" ;;
          (* Fork workers *)
          modify (set_children (Some [])) ;;
          fork_workers (Z.to_nat (Opts.workers opts)) cwd argv incoming ;;
          (* Catch signals to ensure graceful shutdown *)
          signal SIGINT parent_handler ;;
          signal SIGTERM parent_handler ;;
          reap (Opts.pid_file opts)
    end.

(** ** Initial worlds *)

Definition empty_broker : Broker := mkBroker [] [] [] [] [] [] 0 0 0.

(** An environment with the callbacks [cbs] in which no deletion is
    refused and every child exits when it is waited for. *)
Definition quiet_env (cbs : list string) : Env :=
  mkEnv cbs 4000 (fun _ => None) (fun _ => None) (fun _ => Completes)
    (AttributeError "method_writer").

(** The world in which the program starts: the class attributes of
    [Dispatcher] have their initial values, [children] is not set, no
    handler is installed, the broker holds nothing. *)
Definition start (e : Env) (s : Settings) (att : list attempt)
    (input : list string) (fk : list Z) : World :=
  mkWorld e s None false [] None SIG_DFL SIG_DFL empty_broker att input fk [].

Definition run {A} (m : M A) (w : World) : result A := fst (m w).
Definition after {A} (m : M A) (w : World) : World := snd (m w).

(** * Reading the runs *)

(** ** Reading a trace *)

Definition forked (tr : list event) : list Z :=
  flat_map (fun e => match e with Fork r => [r] | _ => [] end) tr.

Definition waited (tr : list event) : list Z :=
  flat_map (fun e => match e with Waitpid p => [p] | _ => [] end) tr.

Definition kills (tr : list event) : list (Z * signum) :=
  flat_map (fun e => match e with Kill p s => [(p, s)] | _ => [] end) tr.

Definition sleeps (tr : list event) : list Z :=
  flat_map (fun e => match e with Sleep n => [n] | _ => [] end) tr.

Definition opened (tr : list event) : list channel :=
  flat_map (fun e => match e with OpenChannel c => [c] | _ => [] end) tr.

Definition deletions (tr : list event) : list string :=
  flat_map (fun e => match e with QueueDelete _ q => [q] | _ => [] end) tr.

Definition omissions (tr : list event) : list string :=
  flat_map (fun e => match e with
                     | Log ERROR msg =>
                         if String.prefix "Cannot find callback " msg then [msg] else []
                     | _ => []
                     end) tr.

(** ** What the loops leave in the trace *)

(** One round of the connection loop. *)
Definition attempt_events (s : Settings) : list event :=
  [Log INFO ("Attempting to connect to " +++ RABBIT_HOST s);
   AmqpConnect (RABBIT_HOST s) (RABBIT_USERNAME s) (RABBIT_PASSWORD s)
     (RABBIT_VHOST s)].

Definition retry_events (s : Settings) : list event :=
  attempt_events s ++ [Sleep 1].

(** The consumers left when the tags [tags] are cancelled on [c]. *)
Definition cancelled (c : channel) (tags : list tag) (cs : list consumer)
    : list consumer :=
  fold_left
    (fun cs t =>
       filter (fun k => negb (channel_eqb (c_chan k) c && Nat.eqb (c_tag k) t))
         cs)
    tags cs.

(** The consumers the broker holds are on channels it has issued,
    under tags it has issued. *)
Definition consumers_issued (b : Broker) : bool :=
  forallb
    (fun k => Nat.ltb (ch_id (c_chan k)) (next_chan b)
              && Nat.ltb (c_tag k) (next_tag b))
    (consumers b).

(** The drain sequence as the specification words it, and as [wait]
    performs it, at the end of a trace. *)
Definition drains_channel_first (c : channel) (tags : list tag)
    (tr : list event) : Prop :=
  exists before,
    tr = before ++ map (BasicCancel c) tags
                ++ [ChannelClose c; ConnectionClose (ch_conn c)].

Definition drains_connection_first (c : channel) (tags : list tag)
    (tr : list event) : Prop :=
  exists before,
    tr = before ++ map (BasicCancel c) tags
                ++ [ConnectionClose (ch_conn c); ChannelClose c].

(** ** Sample worlds *)

(** One exchange, one queue whose handler exists. *)
Definition settings_one : Settings :=
  mkSettings "rabbit" "synnefo" "secret" "/" ["ganeti"%string] ["events"%string]
    [("events", "ganeti", "ganeti.*.event.op", "update_db")%string]
    [("debug", "ganeti", "#", "dummy_proc")%string] "debug" true.

Definition env_one : Env := quiet_env ["update_db"; "dummy_proc"]%string.

(** A worker that has come up and installed its handlers, the way
    [main] brings a child up. *)
Definition worker_up (dbg : bool) (att : list attempt) : World :=
  after (signal SIGINT exit_handler ;;
         signal SIGTERM exit_handler ;;
         Dispatcher.__init__ dbg)
    (start env_one settings_one att [] []).

(** The first channel of the first connection. *)
Definition first_channel : channel := mkChannel 0%nat 0%nat.

(** ** Registration of the bindings *)

(** The handler of the binding is a name of the callbacks module. *)
Definition resolves (cbs : list string) (b : binding) : bool :=
  mem (b_handler b) cbs.

Definition triple (b : binding) : string * string * string :=
  (b_queue b, b_exchange b, b_key b).

(** What a binding with a handler leaves in the trace, [t] being the
    tag the broker issues, and what a binding without one leaves. *)
Definition bind_events (c : channel) (t : tag) (b : binding) : list event :=
  [QueueBind c (b_queue b) (b_exchange b) (b_key b);
   BasicConsume c (b_queue b) (b_handler b) t;
   Log DEBUGLVL ("Binding " +++ b_exchange b +++ "(" +++ b_key b
                 +++ ") to queue " +++ b_queue b +++ " with handler "
                 +++ b_handler b)].

Definition omission_msg (b : binding) : string :=
  "Cannot find callback " +++ b_handler b.

Fixpoint registration (cbs : list string) (c : channel) (t : tag)
    (l : list binding) : list event :=
  match l with
  | [] => []
  | b :: rest =>
      if resolves cbs b
      then bind_events c t b ++ registration cbs c (S t) rest
      else Log ERROR (omission_msg b) :: registration cbs c t rest
  end.

(** The bindings that get a consumer, each with its tag. *)
Fixpoint registered (cbs : list string) (t : tag) (l : list binding)
    : list (binding * tag) :=
  match l with
  | [] => []
  | b :: rest =>
      if resolves cbs b
      then (b, t) :: registered cbs (S t) rest
      else registered cbs t rest
  end.

Definition consumer_of (c : channel) (bt : binding * tag) : consumer :=
  mkConsumer c (snd bt) (b_queue (fst bt)) (b_handler (fst bt)).

(** The bindings of property 2 of the specification. *)
Definition settings_known_unknown : Settings :=
  mkSettings "rabbit" "synnefo" "secret" "/" ["e1"%string]
    ["q1"; "q2"]%string
    [("q1", "e1", "rk1", "known"); ("q2", "e1", "rk2", "unknown")]%string
    [] "debug" false.

(** ** The supervisor *)

(** The options lead [main] past the administrative commands and the
    debug mode, to the daemon. *)
Definition daemon_mode (o : Opts.t) : bool :=
  negb (Opts.purge_queues o) && negb (Opts.purge_exchanges o) &&
  negb (Opts.debug o) &&
  match Opts.drain_queue o with
  | Some (String _ _) => false
  | _ => true
  end.

(** What the parent leaves in the trace for one fork. *)
Definition fork_events (me : Z) (p : Z) : list event :=
  [Fork p; Log DEBUGLVL (str_of_Z me +++ ", forked child: " +++ str_of_Z p)].

(** The children of [l] that get the signal when the children [gone]
    have been reaped: [os.kill] fails at the first child that is gone,
    and the comprehension of [_parent_handler] ends there. *)
Fixpoint signalled (gone l : list Z) : list Z :=
  match l with
  | [] => []
  | p :: rest =>
      if existsb (Z.eqb p) gone then [] else p :: signalled gone rest
  end.

(** No child of [l] is gone. *)
Definition all_alive (gone l : list Z) : bool :=
  forallb (fun p => negb (existsb (Z.eqb p) gone)) l.

(** What [_parent_handler] leaves in the trace for signal [s]. *)
Definition forward_events (s : signum) (gone l : list Z) : list event :=
  Stdout ("Caught signal " +++ str_of_Z (signo s)
          +++ ", sending kill signal to children")
  :: map (fun p => Kill p SIGTERM) (signalled gone l).

(** The wait for the child completes: the child has exited and is
    reaped. *)
Definition completes (o : blocking) : bool :=
  match o with Completes => true | _ => false end.

(** What the wait for child [p] leaves in the trace, [all] being the
    recorded children and [gone] the ones reaped before. *)
Definition wait_events (fate : Z -> blocking) (gone all : list Z) (p : Z)
    : list event :=
  Waitpid p ::
  match fate p with
  | Completes => [Reaped p]
  | Interrupted s => forward_events s gone all
  | Raises _ => []
  end.

(** The wait for a child ends without a [BaseException] that is no
    [Exception]. *)
Definition benign (o : blocking) : bool :=
  match o with
  | Raises e => is_Exception e
  | _ => true
  end.

(** The trace of the loop over the children, and the exception that
    leaves it, if one does. *)
Fixpoint reap_events (fate : Z -> blocking) (all gone l : list Z)
    : list event * option exn :=
  match l with
  | [] => ([], None)
  | p :: rest =>
      if benign (fate p)
      then
        let gone' := if completes (fate p) then gone ++ [p] else gone in
        (wait_events fate gone all p ++ fst (reap_events fate all gone' rest),
         snd (reap_events fate all gone' rest))
      else ([Waitpid p],
            match fate p with Raises e => Some e | _ => None end)
  end.

(** Three children; a SIGTERM arrives while the supervisor waits for
    the first, and the wait for the second fails. *)
Definition env_three : Env :=
  mkEnv [] 100 (fun _ => None) (fun _ => None)
    (fun p => if p =? 101 then Interrupted SIGTERM
              else if p =? 102 then Raises (OSError "ECHILD")
              else Completes)
    (AttributeError "method_writer").

Definition supervisor_three : World :=
  start env_three settings_one [] [] [101; 102; 103].

(** The supervisor of property 4 of the specification: three children
    that exit when they are told to, and a SIGTERM that arrives while
    the supervisor waits for the first. *)
Definition env_sigterm_at_first : Env :=
  mkEnv [] 100 (fun _ => None) (fun _ => None)
    (fun p => if p =? 101 then Interrupted SIGTERM else Completes)
    (AttributeError "method_writer").

(** The same children; the first has exited and is reaped when the
    SIGTERM arrives, during the wait for the second. *)
Definition env_sigterm_at_second : Env :=
  mkEnv [] 100 (fun _ => None) (fun _ => None)
    (fun p => if p =? 102 then Interrupted SIGTERM else Completes)
    (AttributeError "method_writer").

(** ** Purging *)

(** The handles the broker has issued come from its counters: what is
    closed lies below them. *)
Definition well_formed (b : Broker) : bool :=
  forallb (fun c => Nat.ltb (ch_id c) (next_chan b)) (closed b) &&
  forallb (fun k => Nat.ltb k (next_conn b)) (closed_conns b).

(** What the loop of [purge_queues] leaves in the trace: [c] is the
    channel in use and [n] the number of the next channel. *)
Fixpoint deletion_events (fault : string -> option (Z * string))
    (conn : connection) (c : channel) (n : nat) (l : list string)
    : list event :=
  match l with
  | [] => []
  | q :: rest =>
      match fault q with
      | Some (code, text) =>
          [QueueDelete c q; Stdout (str_of_Z code +++ "   " +++ text);
           OpenChannel (mkChannel conn n)]
          ++ deletion_events fault conn (mkChannel conn n) (S n) rest
      | None =>
          [QueueDelete c q; Stdout ("Deleting queue " +++ q)]
          ++ deletion_events fault conn c n rest
      end
  end.

(** The user's answer lets the command go on. *)
Definition confirms (ans : string) : bool := mem ans ["Y"; "y"]%string.

(** Two queues; the broker refuses to delete the first. *)
Definition settings_qA_qB : Settings :=
  mkSettings "rabbit" "synnefo" "secret" "/" ["eA"; "eB"]%string
    ["qA"; "qB"]%string [] [] "debug" false.

Definition env_refuses_A : Env :=
  mkEnv []  100
    (fun q => if String.eqb q "qA" then Some (406, "PRECONDITION_FAILED"%string)
              else None)
    (fun x => if String.eqb x "eA" then Some (406, "PRECONDITION_FAILED"%string)
              else None)
    (fun _ => Completes)
    (AttributeError "method_writer").

Definition broker_qA_qB : Broker :=
  mkBroker ["eA"; "eB"]%string ["qA"; "qB"]%string [] [] [] [] 0 0 0.

Definition purge_world (e : Env) (input : list string) (att : list attempt)
    : World :=
  set_broker broker_qA_qB (start e settings_qA_qB att input []).

(** The queues and the exchanges whose deletion was asked, with the
    channel the request went through. *)
Definition queue_deletes (tr : list event) : list (channel * string) :=
  flat_map (fun e => match e with QueueDelete c q => [(c, q)] | _ => [] end) tr.

Definition exchange_deletes (tr : list event) : list (channel * string) :=
  flat_map (fun e => match e with ExchangeDelete c x => [(c, x)] | _ => [] end)
    tr.

(** The environment that refuses to delete queue qA and exchange eA,
    [err] being what the use of a closed channel raises. *)
Definition env_refuses_A_closed (err : exn) : Env :=
  mkEnv [] 100 (queue_delete_fault env_refuses_A)
    (exchange_delete_fault env_refuses_A) (fun _ => Completes) err.

(** ** Draining *)

(** One queue that no binding names. *)
Definition settings_unbound : Settings :=
  mkSettings "rabbit" "synnefo" "secret" "/" ["ganeti"%string]
    ["events"%string] [] [] "debug" false.

(** ** Reconnecting *)

(** The tags the broker issued, in order. *)
Definition consumed (tr : list event) : list tag :=
  flat_map (fun e => match e with BasicConsume _ _ _ t => [t] | _ => [] end) tr.

(** The tags that were cancelled, with the channel. *)
Definition cancels (tr : list event) : list (channel * tag) :=
  flat_map (fun e => match e with BasicCancel c t => [(c, t)] | _ => [] end) tr.

(** The closes of a connection or of a channel. *)
Definition closings (tr : list event) : list event :=
  filter (fun e => match e with
                   | ConnectionClose _ | ChannelClose _ => true
                   | _ => false
                   end) tr.

(** The bindings asked of the broker, in order. *)
Definition binds (tr : list event) : list (string * string * string) :=
  flat_map (fun e => match e with
                     | QueueBind _ q x k => [(q, x, k)]
                     | _ => []
                     end) tr.

(** The events of [w'] that [w] does not have yet. *)
Definition since (w w' : World) : list event :=
  skipn (List.length (trace w)) (trace w').

(** ** Further readers *)

(** The exceptions that [wait] has an [except] clause for. *)
Definition handled_by_wait (e : exn) : bool :=
  match e with
  | SystemExit _ | AMQPConnectionException | SocketError => true
  | _ => false
  end.

(** What the round of [drain_queue]'s loop that handles message
    number [k] leaves in the trace. *)
Definition ignored_events (c : channel) (k : Z) : list event :=
  [ChanWait c;
   Stderr ("Ignored " +++ str_of_Z k +++ " messages" +++ carriage_return)].

(** The numbers [from + 1], ..., [from + n]. *)
Fixpoint counts (from : Z) (n : nat) : list Z :=
  match n with
  | O => []
  | S n' => (from + 1) :: counts (from + 1) n'
  end.

(** What [_exit_handler] prints for signal [s]. *)
Definition exit_line (pid : Z) (s : signum) : string :=
  str_of_Z pid +++ ": Caught signal " +++ str_of_Z (signo s)
  +++ ", will raise SystemExit".

(** ** Initialization *)

(** The debug queue and the debug bindings are used. *)
Definition debugging (w : World) : bool := debug w && DEBUG (settings w).

(** The bindings [_init] goes through, and the queues it declares. *)
Definition effective_bindings (w : World) : list binding :=
  if debugging w
  then BINDINGS (settings w) ++ BINDINGS_DEBUG (settings w)
  else BINDINGS (settings w).

Definition declared_queues (w : World) : list string :=
  if debugging w
  then QUEUES (settings w) ++ [QUEUE_DEBUG (settings w)]
  else QUEUES (settings w).

Definition declare_all (l acc : list string) : list string :=
  fold_left (fun acc x => declare x acc) l acc.

Definition bind_all (l : list binding) (acc : list (string * string * string))
    : list (string * string * string) :=
  fold_left (fun acc b => declare_binding (triple b) acc) l acc.

(** The channel the next [_init] opens. *)
Definition next_channel (w : World) : channel :=
  mkChannel (next_conn (broker w)) (next_chan (broker w)).

(** What [_init] leaves in the trace when [k] attempts are refused
    before one succeeds. *)
Definition init_events (w : World) (k : nat) : list event :=
  [Log INFO "Initializing"]
  ++ concat (repeat (retry_events (settings w)) k)
  ++ attempt_events (settings w)
  ++ [Log INFO "Connection succesful, opening channel";
      OpenChannel (next_channel w)]
  ++ map (ExchangeDeclare (next_channel w)) (EXCHANGES (settings w))
  ++ map (QueueDeclare (next_channel w)) (declared_queues w)
  ++ registration (callbacks (env w)) (next_channel w) (next_tag (broker w))
       (effective_bindings w).

(** The tags that the next [_init] obtains. *)
Definition new_tags (w : World) : list tag :=
  map snd (registered (callbacks (env w)) (next_tag (broker w))
             (effective_bindings w)).

(** What a worker leaves in the trace when [chan.wait()] fails on
    channel [c], it initializes again after [k] refused attempts,
    handles [n] messages and receives signal [s]. *)
Definition reconnect_events (w : World) (c : channel) (k n : nat) (s : signum)
    : list event :=
  [ChanWait c; Log ERROR "Server went away, reconnecting..."]
  ++ init_events w k
  ++ repeat (ChanWait (next_channel w)) (S n)
  ++ [Stdout (exit_line (getpid (env w)) s)].

(** ** Deleting exchanges *)

(** The broker without exchange [x] and without the bindings to it. *)
Definition remove_exchange (x : string) (b : Broker) : Broker :=
  with_topology
    (filter (fun y => negb (String.eqb y x)) (exchanges b))
    (queues b)
    (filter (fun t => negb (String.eqb (snd (fst t)) x)) (bound b))
    b.

Definition remove_exchanges (l : list string) (b : Broker) : Broker :=
  fold_left (fun b x => remove_exchange x b) l b.

(** Three exchanges and a binding to the second; no deletion is
    refused. *)
Definition settings_three_exchanges : Settings :=
  mkSettings "rabbit" "synnefo" "secret" "/" ["e1"; "e2"]%string
    ["q1"%string] [] [] "debug" false.

Definition broker_three_exchanges : Broker :=
  mkBroker ["e1"; "e2"; "e3"]%string ["q1"%string]
    [("q1", "e2", "k")%string] [] [] [] 0 0 0.

(** * Properties *)

(** ** The monad's equations *)

Lemma bind_Ret {A B} (m : M A) (f : A -> M B) w a w' :
  m w = (Ret a, w') -> bind m f w = f a w'.
Proof. intros H. unfold bind. rewrite H. reflexivity. Qed.

Lemma bind_Raise {A B} (m : M A) (f : A -> M B) w e w' :
  m w = (Raise e, w') -> bind m f w = (Raise e, w').
Proof. intros H. unfold bind. rewrite H. reflexivity. Qed.

Lemma for_each_app {A} (l1 l2 : list A) (body : A -> M unit) w w1 :
  for_each l1 body w = (Ret tt, w1) ->
  for_each (l1 ++ l2) body w = for_each l2 body w1.
Proof.
  revert w. induction l1 as [|x l1 IH]; intros w H; simpl in *.
  - inversion H. reflexivity.
  - unfold bind in *. destruct (body x w) as [[[]| | |] wx]; try discriminate.
    apply IH. exact H.
Qed.

(** Split conjunctions only: [split] on an equation would try to prove
    it by conversion. *)
Ltac conjs := repeat match goal with |- _ /\ _ => split end.

Ltac step :=
  unfold bind, gets, modify, emit, log, print, sleep, ret, raise, blocked,
    killed, try_except, try_finally, update_broker; cbn.

(** ** Connecting *)

Lemma connect_refused fuel w tl :
  attempts w = Refused SocketError :: tl ->
  Dispatcher.connect (S fuel) w =
  Dispatcher.connect fuel
    (set_trace (trace w ++ retry_events (settings w)) (set_attempts tl w)).
Proof.
  intros H. cbn [Dispatcher.connect]. unfold amqp_Connection. step.
  rewrite H. cbn. rewrite <- !app_assoc. reflexivity.
Qed.

Lemma connect_connected fuel w tl :
  attempts w = Connected :: tl ->
  Dispatcher.connect (S fuel) w =
  (Ret (next_conn (broker w)),
   set_broker
     (with_counters (S (next_conn (broker w))) (next_chan (broker w))
        (next_tag (broker w)) (broker w))
     (set_trace (trace w ++ attempt_events (settings w)) (set_attempts tl w))).
Proof.
  intros H. cbn [Dispatcher.connect]. unfold amqp_Connection. step.
  rewrite H. cbn. rewrite <- !app_assoc. reflexivity.
Qed.

Lemma connect_other fuel w tl e :
  attempts w = Refused e :: tl -> e <> SocketError ->
  Dispatcher.connect (S fuel) w =
  (Raise e, set_trace (trace w ++ attempt_events (settings w)) (set_attempts tl w)).
Proof.
  intros H Hne. cbn [Dispatcher.connect]. unfold amqp_Connection. step.
  rewrite H. cbn. rewrite <- !app_assoc.
  destruct e; try reflexivity. congruence.
Qed.

Lemma connect_nothing fuel w :
  attempts w = [] ->
  Dispatcher.connect (S fuel) w =
  (Blocked, set_trace (trace w ++ attempt_events (settings w)) w).
Proof.
  intros H. cbn [Dispatcher.connect]. unfold amqp_Connection. step.
  rewrite H. cbn. rewrite <- !app_assoc. reflexivity.
Qed.

Lemma connect_after_refusals k : forall fuel w rest,
  attempts w = repeat (Refused SocketError) k ++ rest ->
  (k <= fuel)%nat ->
  Dispatcher.connect fuel w =
  Dispatcher.connect (fuel - k)
    (set_trace (trace w ++ concat (repeat (retry_events (settings w)) k))
       (set_attempts rest w)).
Proof.
  induction k as [|k IH]; intros fuel w rest H Hk.
  - cbn in *. rewrite Nat.sub_0_r, app_nil_r. subst rest. now destruct w.
  - destruct fuel as [|fuel]; [lia|].
    cbn [repeat app] in H. rewrite (connect_refused _ _ _ H).
    rewrite (IH fuel _ rest); [|reflexivity|lia].
    cbn [concat repeat]. cbn. rewrite <- !app_assoc. reflexivity.
Qed.

Lemma connect_never_socket_error fuel : forall w,
  run (Dispatcher.connect fuel) w <> Raise SocketError.
Proof.
  unfold run. induction fuel as [|fuel IH]; intros w.
  - cbn. discriminate.
  - destruct (attempts w) as [|[|e] tl] eqn:E.
    + rewrite (connect_nothing _ _ E). cbn. discriminate.
    + rewrite (connect_connected _ _ _ E). cbn. discriminate.
    + destruct e;
        try (rewrite (connect_other _ _ _ _ E) by discriminate;
             cbn; congruence).
      rewrite (connect_refused _ _ _ E). apply IH.
Qed.

Lemma connect_returns_on_success fuel : forall w c w',
  Dispatcher.connect fuel w = (Ret c, w') ->
  exists k,
    attempts w = repeat (Refused SocketError) k ++ Connected :: attempts w' /\
    sleeps (trace w') = sleeps (trace w) ++ repeat 1 k.
Proof.
  induction fuel as [|fuel IH]; intros w c w' H.
  - cbn in H. discriminate.
  - destruct (attempts w) as [|[|e] tl] eqn:E.
    + rewrite (connect_nothing _ _ E) in H. discriminate.
    + rewrite (connect_connected _ _ _ E) in H. inversion H; subst.
      exists 0%nat. cbn. unfold sleeps. rewrite flat_map_app. cbn.
      now rewrite app_nil_r.
    + destruct e;
        try (rewrite (connect_other _ _ _ _ E) in H by discriminate;
             discriminate).
      rewrite (connect_refused _ _ _ E) in H.
      destruct (IH _ _ _ H) as [k [Ha Hs]]. cbn in Ha, Hs.
      exists (S k). split.
      * cbn. now rewrite Ha.
      * rewrite Hs. unfold sleeps. rewrite flat_map_app. cbn.
        rewrite <- app_assoc. reflexivity.
Qed.

(** C5.  The connection loop of [_init] tries again after every
    [socket.error], sleeping one second each time, for as long as the
    attempts are refused: after [k] refusals followed by a success it
    returns the connection, having slept exactly [k] times one second;
    after [k] refusals and nothing more it is in its next attempt; it
    never raises [socket.error]; and when it returns, an attempt has
    succeeded. *)
Theorem connect_retries_until_connected :
  (forall k rest w fuel,
      attempts w = repeat (Refused SocketError) k ++ Connected :: rest ->
      (k < fuel)%nat ->
      exists w',
        Dispatcher.connect fuel w = (Ret (next_conn (broker w)), w') /\
        attempts w' = rest /\
        trace w' = trace w
                   ++ concat (repeat (retry_events (settings w)) k)
                   ++ attempt_events (settings w)) /\
  (forall k w fuel,
      attempts w = repeat (Refused SocketError) k ->
      (k < fuel)%nat ->
      exists w',
        Dispatcher.connect fuel w = (Blocked, w') /\
        trace w' = trace w
                   ++ concat (repeat (retry_events (settings w)) k)
                   ++ attempt_events (settings w)) /\
  (forall fuel w, run (Dispatcher.connect fuel) w <> Raise SocketError) /\
  (forall fuel w c w',
      Dispatcher.connect fuel w = (Ret c, w') ->
      exists k,
        attempts w = repeat (Refused SocketError) k ++ Connected :: attempts w' /\
        sleeps (trace w') = sleeps (trace w) ++ repeat 1 k).
Proof.
  split; [|split; [|split]].
  - intros k rest w fuel H Hk.
    rewrite (connect_after_refusals k fuel w _ H) by lia.
    destruct (fuel - k)%nat as [|n] eqn:E; [lia|].
    rewrite (connect_connected n _ rest) by reflexivity.
    eexists. split; [reflexivity|]. cbn. split; [reflexivity|].
    now rewrite <- app_assoc.
  - intros k w fuel H Hk.
    rewrite (connect_after_refusals k fuel w []) by (rewrite ?app_nil_r; auto; lia).
    destruct (fuel - k)%nat as [|n] eqn:E; [lia|].
    rewrite connect_nothing by reflexivity.
    eexists. split; [reflexivity|]. cbn. now rewrite <- app_assoc.
  - apply connect_never_socket_error.
  - apply connect_returns_on_success.
Qed.

(** ** Leaving the wait loop *)

Lemma self_chan_some attr w c :
  chan w = Some c -> Dispatcher.self_chan attr w = (Ret c, w).
Proof. intros H. unfold Dispatcher.self_chan. step. now rewrite H. Qed.

Lemma self_chan_none attr w :
  chan w = None -> Dispatcher.self_chan attr w = (Raise (AttributeError attr), w).
Proof. intros H. unfold Dispatcher.self_chan. step. now rewrite H. Qed.

Lemma existsb_eqb_In t l : existsb (Nat.eqb t) l = true <-> In t l.
Proof.
  rewrite existsb_exists. split.
  - intros (x & Hx & E). apply Nat.eqb_eq in E. now subst.
  - intros H. exists t. split; [exact H|apply Nat.eqb_refl].
Qed.

Lemma tags_of_In c t cs :
  In t (tags_of c cs) <->
  exists k, In k cs /\ channel_eqb (c_chan k) c = true /\ c_tag k = t.
Proof.
  unfold tags_of. rewrite in_map_iff. split.
  - intros (k & E & H). apply filter_In in H. destruct H as [H1 H2].
    now exists k.
  - intros (k & H1 & H2 & E). exists k. split; [exact E|].
    apply filter_In. now split.
Qed.

(** The other tags of the channel stay when one tag is cancelled. *)
Lemma tags_of_cancel c t t' cs :
  t' <> t ->
  In t' (tags_of c cs) ->
  In t' (tags_of c
           (filter (fun k => negb (channel_eqb (c_chan k) c && Nat.eqb (c_tag k) t))
              cs)).
Proof.
  intros Hne H. apply tags_of_In in H. destruct H as (k & H1 & H2 & E).
  apply tags_of_In. exists k. split; [|now split].
  apply filter_In. split; [exact H1|].
  rewrite H2, E. cbn [andb].
  destruct (Nat.eqb_spec t' t); [contradiction|reflexivity].
Qed.

Lemma basic_cancel_known c t w :
  is_closed c (broker w) = false ->
  In t (tags_of c (consumers (broker w))) ->
  basic_cancel c t w =
  (Ret tt,
   set_broker
     (with_consumers
        (filter (fun k => negb (channel_eqb (c_chan k) c && Nat.eqb (c_tag k) t))
           (consumers (broker w))) (broker w))
     (set_trace (trace w ++ [BasicCancel c t]) w)).
Proof.
  intros Ho Hin. apply existsb_eqb_In in Hin.
  unfold basic_cancel, use_channel, bind, emit, modify, gets, update_broker.
  cbn [fst snd broker env set_trace trace]. rewrite Ho.
  unfold ret. cbn [broker set_trace]. rewrite Hin. reflexivity.
Qed.

Lemma basic_cancel_unknown c t w :
  is_closed c (broker w) = false ->
  ~ In t (tags_of c (consumers (broker w))) ->
  basic_cancel c t w =
  (Raise (KeyError t), set_trace (trace w ++ [BasicCancel c t]) w).
Proof.
  intros Ho Hin.
  assert (E : existsb (Nat.eqb t) (tags_of c (consumers (broker w))) = false).
  { destruct (existsb _ _) eqn:E; [|reflexivity].
    apply existsb_eqb_In in E. contradiction. }
  unfold basic_cancel, use_channel, bind, emit, modify, gets, update_broker.
  cbn [fst snd broker env set_trace trace]. rewrite Ho.
  unfold ret. cbn [broker set_trace]. rewrite E. reflexivity.
Qed.

Lemma chan_connection_open c attr w :
  is_closed c (broker w) = false ->
  chan_connection c attr w = (Ret (ch_conn c), w).
Proof.
  intros Ho. unfold chan_connection, bind, gets. cbn [fst snd].
  rewrite Ho. reflexivity.
Qed.

Lemma cancel_all c : forall tags w,
  chan w = Some c ->
  is_closed c (broker w) = false ->
  NoDup tags ->
  (forall t, In t tags -> In t (tags_of c (consumers (broker w)))) ->
  for_each tags
    (fun clienttag =>
       c <- Dispatcher.self_chan "basic_cancel" ;; basic_cancel c clienttag) w =
  (Ret tt,
   set_broker (with_consumers (cancelled c tags (consumers (broker w))) (broker w))
     (set_trace (trace w ++ map (BasicCancel c) tags) w)).
Proof.
  induction tags as [|t tags IH]; intros w Hc Ho Hnd Hin.
  - cbn. rewrite app_nil_r. destruct w as [? ? ? ? ? ? ? ? b ? ? ? ?].
    destruct b. reflexivity.
  - cbn [for_each].
    inversion Hnd as [|? ? Hnotin Hnd']; subst.
    erewrite bind_Ret.
    2:{ erewrite bind_Ret by (apply self_chan_some; exact Hc).
        apply basic_cancel_known; [exact Ho|]. apply Hin. now left. }
    rewrite IH; [|exact Hc|exact Ho|exact Hnd'|].
    + cbn. rewrite <- !app_assoc. reflexivity.
    + intros t' Ht'. cbn [broker set_broker consumers with_consumers].
      apply tags_of_cancel; [|apply Hin; now right].
      intros ->. contradiction.
Qed.

(** The cancellation of a tag that the channel does not know ends the
    comprehension of [wait]. *)
Lemma cancel_stops_at_unknown c t tags w :
  chan w = Some c ->
  is_closed c (broker w) = false ->
  ~ In t (tags_of c (consumers (broker w))) ->
  for_each (t :: tags)
    (fun clienttag =>
       c <- Dispatcher.self_chan "basic_cancel" ;; basic_cancel c clienttag) w =
  (Raise (KeyError t), set_trace (trace w ++ [BasicCancel c t]) w).
Proof.
  intros Hc Ho Hin. cbn [for_each]. apply bind_Raise.
  erewrite bind_Ret by (apply self_chan_some; exact Hc).
  apply basic_cancel_unknown; assumption.
Qed.

(** No consumer of a channel is left when its connection is closed. *)
Lemma no_consumer_on_closed_connection c : forall l,
  filter (fun k => channel_eqb (c_chan k) c)
    (filter (fun k => negb (Nat.eqb (ch_conn (c_chan k)) (ch_conn c))) l) = [].
Proof.
  induction l as [|k l IH]; [reflexivity|].
  cbn [filter].
  destruct (Nat.eqb_spec (ch_conn (c_chan k)) (ch_conn c)) as [E|E];
    cbn [negb]; [exact IH|].
  cbn [filter]. unfold channel_eqb at 1.
  destruct (Nat.eqb_spec (ch_conn (c_chan k)) (ch_conn c)); [contradiction|].
  cbn. exact IH.
Qed.

(** What [wait] does once its loop is left: the drain. *)
Lemma drain_after_loop c w :
  chan w = Some c ->
  is_closed c (broker w) = false ->
  NoDup (clienttags w) ->
  (forall t, In t (clienttags w) -> In t (tags_of c (consumers (broker w)))) ->
  exists w',
    (tags <- gets clienttags ;;
     for_each tags (fun clienttag =>
        c <- Dispatcher.self_chan "basic_cancel" ;; basic_cancel c clienttag) ;;
     c <- Dispatcher.self_chan "connection" ;;
     conn <- chan_connection c "close" ;;
     connection_close conn ;;
     c <- Dispatcher.self_chan "close" ;;
     channel_close c) w = (Ret tt, w') /\
    trace w' = trace w ++ map (BasicCancel c) (clienttags w)
                       ++ [ConnectionClose (ch_conn c); ChannelClose c] /\
    consumers (broker w') =
      filter (fun k => negb (Nat.eqb (ch_conn (c_chan k)) (ch_conn c)))
        (cancelled c (clienttags w) (consumers (broker w))).
Proof.
  intros Hc Ho Hnd Hin.
  rewrite (bind_Ret _ _ w (clienttags w) w) by reflexivity.
  rewrite (bind_Ret _ _ _ _ _ (cancel_all c (clienttags w) w Hc Ho Hnd Hin)).
  erewrite bind_Ret by (apply self_chan_some; exact Hc).
  unfold chan_connection, connection_close, channel_close, Dispatcher.self_chan.
  step. unfold is_closed in *. cbn. rewrite Ho. cbn. rewrite Hc. cbn.
  rewrite existsb_app. cbn. rewrite Nat.eqb_refl. cbn.
  rewrite !orb_true_r.
  eexists. split; [reflexivity|]. cbn. rewrite <- !app_assoc. cbn.
  split; reflexivity.
Qed.

(** The drain of a dispatcher whose first recorded tag is not a tag of
    its channel. *)
Lemma drain_stops_at_stale_tag c t tags w :
  chan w = Some c ->
  is_closed c (broker w) = false ->
  clienttags w = t :: tags ->
  ~ In t (tags_of c (consumers (broker w))) ->
  (tags <- gets clienttags ;;
   for_each tags (fun clienttag =>
      c <- Dispatcher.self_chan "basic_cancel" ;; basic_cancel c clienttag) ;;
   c <- Dispatcher.self_chan "connection" ;;
   conn <- chan_connection c "close" ;;
   connection_close conn ;;
   c <- Dispatcher.self_chan "close" ;;
   channel_close c) w =
  (Raise (KeyError t), set_trace (trace w ++ [BasicCancel c t]) w).
Proof.
  intros Hc Ho Hg Hin.
  rewrite (bind_Ret _ _ w (clienttags w) w) by reflexivity.
  rewrite Hg. apply bind_Raise.
  apply cancel_stops_at_unknown; assumption.
Qed.

Lemma wait_round_false o w wl :
  Dispatcher.wait_round o w = (Ret false, wl) ->
  exists c code,
    chan w = Some c /\ chan_wait c o w = (Raise (SystemExit code), wl).
Proof.
  unfold Dispatcher.wait_round, try_except.
  destruct (chan w) as [c|] eqn:Hc.
  - rewrite (bind_Ret _ _ _ _ _ (self_chan_some "wait" w c Hc)).
    unfold bind at 1.
    destruct (chan_wait c o w) as [[u|e| |s] w1] eqn:E; try discriminate.
    destruct e; try discriminate.
    + intros H. inversion H; subst. now exists c, code.
    + unfold bind.
      destruct (log _ _ _) as [[[]| | |] ?]; try discriminate.
      destruct (Dispatcher._init _) as [[[]| | |] ?]; discriminate.
    + unfold bind.
      destruct (log _ _ _) as [[[]| | |] ?]; try discriminate.
      destruct (Dispatcher._init _) as [[[]| | |] ?]; discriminate.
  - rewrite (bind_Raise _ _ _ _ _ (self_chan_none "wait" w Hc)). discriminate.
Qed.

Lemma wait_loop_left_by_SystemExit : forall incoming w wl,
  Dispatcher.wait_loop incoming w = (Ret tt, wl) ->
  exists pre o post wm c code,
    incoming = pre ++ o :: post /\
    chan wm = Some c /\
    chan_wait c (Some o) wm = (Raise (SystemExit code), wl).
Proof.
  induction incoming as [|o rest IH]; intros w wl H.
  - cbn in H. unfold bind in H.
    destruct (Dispatcher.wait_round None w) as [[?| | |] ?]; discriminate.
  - cbn in H. unfold bind in H.
    destruct (Dispatcher.wait_round (Some o) w) as [[[|]| | |] w1] eqn:E;
      try discriminate.
    + destruct (IH _ _ H) as (pre & o' & post & wm & c & code & Hi & Hc & Hw).
      exists (o :: pre), o', post, wm, c, code. subst. auto.
    + inversion H; subst.
      destruct (wait_round_false _ _ _ E) as (c & code & Hc & Hw).
      exists [], o, rest, w, c, code. auto.
Qed.

(** C1, as the code has it.  When the wait loop is left (which only
    [SystemExit] does) with the channel [c] of the dispatcher open,
    and the recorded tags are the tags outstanding on [c], each once,
    [wait] returns after it has cancelled every outstanding consumer
    tag in order, then closed the connection, then closed the channel;
    no tag is outstanding on [c] after that. *)
Theorem wait_drains_connection_then_channel :
  forall incoming w wl c,
    Dispatcher.wait_loop incoming w = (Ret tt, wl) ->
    chan wl = Some c ->
    is_closed c (broker wl) = false ->
    clienttags wl = tags_of c (consumers (broker wl)) ->
    NoDup (clienttags wl) ->
    (exists pre o post wm c0 code,
        incoming = pre ++ o :: post /\
        chan wm = Some c0 /\
        chan_wait c0 (Some o) wm = (Raise (SystemExit code), wl)) /\
    exists w',
      Dispatcher.wait incoming w = (Ret tt, w') /\
      trace w' = trace wl
                 ++ map (BasicCancel c) (tags_of c (consumers (broker wl)))
                 ++ [ConnectionClose (ch_conn c); ChannelClose c] /\
      drains_connection_first c (tags_of c (consumers (broker wl))) (trace w') /\
      tags_of c (consumers (broker w')) = [].
Proof.
  intros incoming w wl c Hl Hc Ho Hg Hnd. split.
  - eapply wait_loop_left_by_SystemExit; eauto.
  - destruct (drain_after_loop c wl Hc Ho Hnd) as (w' & Hrun & Htr & Hk).
    { intros t Ht. rewrite <- Hg. exact Ht. }
    exists w'. split.
    + unfold Dispatcher.wait. rewrite (bind_Ret _ _ _ _ _ Hl). exact Hrun.
    + rewrite <- Hg. split; [exact Htr|]. split.
      * exists (trace wl). exact Htr.
      * unfold tags_of. rewrite Hk, no_consumer_on_closed_connection.
        reflexivity.
Qed.

(** C1 at a worker with one consumer that receives SIGTERM while it
    waits. *)
Lemma wait_drains_connection_then_channel_witness :
  let w := worker_up false [Connected] in
  let wl := after (Dispatcher.wait_loop [Interrupted SIGTERM]) w in
  let c := first_channel in
  (Dispatcher.wait_loop [Interrupted SIGTERM] w = (Ret tt, wl) /\
   chan wl = Some c /\ is_closed c (broker wl) = false /\
   clienttags wl = tags_of c (consumers (broker wl)) /\
   NoDup (clienttags wl)) /\
  exists w',
    Dispatcher.wait [Interrupted SIGTERM] w = (Ret tt, w') /\
    trace w' = trace wl ++ [BasicCancel c 0%nat;
                            ConnectionClose 0%nat; ChannelClose c] /\
    tags_of c (consumers (broker w')) = [].
Proof.
  cbv zeta.
  assert (Hnd : NoDup (clienttags
                         (after (Dispatcher.wait_loop [Interrupted SIGTERM])
                            (worker_up false [Connected])))).
  { vm_compute. apply NoDup_cons; [intros []|apply NoDup_nil]. }
  split.
  - conjs; try (vm_compute; reflexivity). exact Hnd.
  - destruct (wait_drains_connection_then_channel [Interrupted SIGTERM]
                (worker_up false [Connected])
                (after (Dispatcher.wait_loop [Interrupted SIGTERM])
                   (worker_up false [Connected]))
                first_channel)
      as (_ & w' & Hrun & Htr & _ & Hk);
      [vm_compute; reflexivity ..|exact Hnd|].
    exists w'. split; [exact Hrun|]. split; [|exact Hk].
    rewrite Htr. vm_compute. reflexivity.
Defined.

(** C1 as the specification words it fails: the worker below leaves
    its loop on SIGTERM, and its trace ends with the close of the
    connection followed by the close of the channel. *)
Lemma wait_does_not_close_channel_first :
  let w := worker_up false [Connected] in
  let w' := after (Dispatcher.wait [Interrupted SIGTERM]) w in
  run (Dispatcher.wait [Interrupted SIGTERM]) w = Ret tt /\
  trace w' = trace w ++
    [ChanWait first_channel;
     Stdout "4000: Caught signal 15, will raise SystemExit";
     BasicCancel first_channel 0%nat;
     ConnectionClose 0%nat;
     ChannelClose first_channel] /\
  ~ drains_channel_first first_channel [0%nat] (trace w').
Proof.
  cbv zeta. split; [vm_compute; reflexivity|].
  split; [vm_compute; reflexivity|].
  intros [before H].
  apply (f_equal (@rev event)) in H.
  rewrite rev_app_distr in H.
  vm_compute in H. discriminate H.
Qed.

(** ** Registration *)

Lemma bind_one_resolved b w c :
  chan w = Some c ->
  is_closed c (broker w) = false ->
  resolves (callbacks (env w)) b = true ->
  Dispatcher.bind_one b w =
  (Ret tt,
   set_clienttags (clienttags w ++ [next_tag (broker w)])
     (set_trace (trace w ++ bind_events c (next_tag (broker w)) b)
        (set_broker
           (with_counters (next_conn (broker w)) (next_chan (broker w))
              (S (next_tag (broker w)))
              (with_consumers
                 (consumers (broker w)
                    ++ [consumer_of c (b, next_tag (broker w))])
                 (with_topology (exchanges (broker w)) (queues (broker w))
                    (declare_binding (triple b) (bound (broker w)))
                    (broker w))))
           w))).
Proof.
  intros Hc Ho Hr. unfold resolves in Hr.
  unfold Dispatcher.bind_one, getattr_callbacks, Dispatcher.self_chan,
    queue_bind, basic_consume, use_channel.
  step. rewrite Hr. cbn. rewrite Hc. cbn.
  unfold is_closed in *. cbn. rewrite Ho. cbn. rewrite Ho. cbn.
  rewrite <- !app_assoc. reflexivity.
Qed.

Lemma bind_one_unresolved b w :
  resolves (callbacks (env w)) b = false ->
  Dispatcher.bind_one b w =
  (Ret tt, set_trace (trace w ++ [Log ERROR (omission_msg b)]) w).
Proof.
  intros Hr. unfold resolves in Hr.
  unfold Dispatcher.bind_one, getattr_callbacks.
  step. rewrite Hr. cbn. reflexivity.
Qed.

Lemma omission_has_prefix b :
  String.prefix "Cannot find callback " (omission_msg b) = true.
Proof. unfold omission_msg. cbn. now destruct (b_handler b). Qed.

Lemma omissions_registration cbs c : forall l t,
  omissions (registration cbs c t l) =
  map omission_msg (filter (fun b => negb (resolves cbs b)) l).
Proof.
  induction l as [|b l IH]; intros t; cbn [registration filter].
  - reflexivity.
  - destruct (resolves cbs b); cbn [negb].
    + unfold omissions in *. rewrite flat_map_app, IH. reflexivity.
    + unfold omissions in *. cbn [flat_map]. rewrite IH.
      rewrite omission_has_prefix. reflexivity.
Qed.

Lemma registration_runs : forall l w c,
  chan w = Some c ->
  is_closed c (broker w) = false ->
  exists w',
    for_each l Dispatcher.bind_one w = (Ret tt, w') /\
    env w' = env w /\ chan w' = chan w /\ settings w' = settings w /\
    closed (broker w') = closed (broker w) /\
    closed_conns (broker w') = closed_conns (broker w) /\
    trace w' = trace w
               ++ registration (callbacks (env w)) c (next_tag (broker w)) l /\
    bound (broker w') =
      fold_left (fun acc b => declare_binding (triple b) acc)
        (filter (resolves (callbacks (env w))) l) (bound (broker w)) /\
    consumers (broker w') =
      consumers (broker w)
        ++ map (consumer_of c)
             (registered (callbacks (env w)) (next_tag (broker w)) l) /\
    clienttags w' =
      clienttags w
        ++ map snd (registered (callbacks (env w)) (next_tag (broker w)) l).
Proof.
  induction l as [|b l IH]; intros w c Hc Ho.
  - exists w. cbn. rewrite !app_nil_r. repeat split; reflexivity.
  - cbn [for_each registration registered filter].
    destruct (resolves (callbacks (env w)) b) eqn:Hr.
    + rewrite (bind_Ret _ _ _ _ _ (bind_one_resolved b w c Hc Ho Hr)).
      match goal with |- context [for_each l _ ?w1] =>
        destruct (IH w1 c Hc Ho)
          as (w' & Hrun & He & Hch & Hs & Hcl & Hcc & Ht & Hb & Hk & Hg)
      end.
      exists w'. rewrite Hrun. cbn in *.
      rewrite He, Hch, Hs, Hcl, Hcc, Ht, Hb, Hk, Hg.
      rewrite <- !app_assoc. repeat split; reflexivity.
    + rewrite (bind_Ret _ _ _ _ _ (bind_one_unresolved b w Hr)).
      match goal with |- context [for_each l _ ?w1] =>
        destruct (IH w1 c Hc Ho)
          as (w' & Hrun & He & Hch & Hs & Hcl & Hcc & Ht & Hb & Hk & Hg)
      end.
      exists w'. rewrite Hrun. cbn in *.
      rewrite He, Hch, Hs, Hcl, Hcc, Ht, Hb, Hk, Hg.
      rewrite <- !app_assoc. repeat split; reflexivity.
Qed.

Lemma bind_eqb_eq a b : bind_eqb a b = true <-> a = b.
Proof.
  destruct a as [[a1 a2] a3], b as [[b1 b2] b3]. unfold bind_eqb. cbn.
  rewrite !andb_true_iff, !String.eqb_eq. split.
  - intros [[-> ->] ->]. reflexivity.
  - intros H. inversion H. auto.
Qed.

Lemma declare_binding_In x y l :
  In y (declare_binding x l) <-> y = x \/ In y l.
Proof.
  unfold declare_binding. destruct (existsb (bind_eqb x) l) eqn:E.
  - split; [auto|]. intros [->|H]; [|exact H].
    apply existsb_exists in E. destruct E as (z & Hz & Hxz).
    apply bind_eqb_eq in Hxz. now subst.
  - rewrite in_app_iff. cbn. intuition congruence.
Qed.

Lemma declared_bindings_In y : forall l acc,
  In y (fold_left (fun acc b => declare_binding (triple b) acc) l acc) <->
  In y acc \/ In y (map triple l).
Proof.
  induction l as [|b l IH]; intros acc; cbn.
  - tauto.
  - rewrite IH, declare_binding_In. intuition congruence.
Qed.

Lemma registered_In cbs b : forall l t,
  In b l -> resolves cbs b = true -> exists t', In (b, t') (registered cbs t l).
Proof.
  induction l as [|x l IH]; intros t Hin Hr; [destruct Hin|].
  cbn. destruct Hin as [->|Hin].
  - rewrite Hr. exists t. now left.
  - destruct (IH (if resolves cbs x then S t else t) Hin Hr) as [t' Ht'].
    exists t'. destruct (resolves cbs x); [right|]; exact Ht'.
Qed.

(** C4.  In the loop that binds the queues, a binding whose handler is
    no name of the callbacks module is skipped with one logged error
    and every other binding is bound and consumed: the loop returns,
    the trace holds, binding by binding, either the bind and the
    consume or the error; the broker gains the bindings and consumers
    of the resolved bindings and no other.  With the two bindings of
    the specification, [_init] returns, q1 is bound and consumed, q2 is
    not bound, and one omission is logged. *)
Theorem missing_handler_skips_only_its_binding :
  (forall l w c,
      chan w = Some c ->
      is_closed c (broker w) = false ->
      exists w',
        for_each l Dispatcher.bind_one w = (Ret tt, w') /\
        trace w' = trace w
                   ++ registration (callbacks (env w)) c (next_tag (broker w)) l /\
        omissions (trace w') =
          omissions (trace w)
            ++ map omission_msg
                 (filter (fun b => negb (resolves (callbacks (env w)) b)) l) /\
        (forall b, In b l -> resolves (callbacks (env w)) b = true ->
                   In (triple b) (bound (broker w')) /\
                   exists t, In (consumer_of c (b, t)) (consumers (broker w'))) /\
        (forall x, In x (bound (broker w')) ->
                   In x (bound (broker w)) \/
                   exists b, In b l /\ resolves (callbacks (env w)) b = true /\
                             triple b = x)) /\
  (let w := start (quiet_env ["known"%string]) settings_known_unknown
              [Connected] [] [] in
   let w' := after Dispatcher._init w in
   run Dispatcher._init w = Ret tt /\
   bound (broker w') = [("q1", "e1", "rk1")%string] /\
   consumers (broker w') = [mkConsumer first_channel 0%nat "q1" "known"] /\
   omissions (trace w') = ["Cannot find callback unknown"%string]).
Proof.
  split.
  - intros l w c Hc Ho.
    destruct (registration_runs l w c Hc Ho)
      as (w' & Hrun & He & Hch & Hs & Hcl & Hcc & Ht & Hb & Hk & Hg).
    exists w'. split; [exact Hrun|]. split; [exact Ht|].
    split; [|split].
    + rewrite Ht. unfold omissions at 1. rewrite flat_map_app.
      f_equal. apply omissions_registration.
    + intros b Hin Hr. split.
      * rewrite Hb. apply declared_bindings_In. right.
        apply in_map. apply filter_In. auto.
      * destruct (registered_In _ b l (next_tag (broker w)) Hin Hr) as [t Hin'].
        exists t. rewrite Hk. apply in_or_app. right.
        now apply in_map.
    + intros x Hx. rewrite Hb in Hx. apply declared_bindings_In in Hx.
      destruct Hx as [Hx|Hx]; [now left|right].
      apply in_map_iff in Hx. destruct Hx as (b & Hb' & Hin).
      apply filter_In in Hin. exists b. tauto.
  - cbv zeta. conjs; vm_compute; reflexivity.
Qed.

(** C4 at a dispatcher whose channel is open, for the two bindings of
    the specification. *)
Lemma missing_handler_skips_only_its_binding_witness :
  let w := after (Dispatcher.__init__ false)
             (start (quiet_env ["known"%string])
                (with_BINDINGS [] settings_known_unknown) [Connected] [] []) in
  let l := BINDINGS settings_known_unknown in
  (chan w = Some first_channel /\ is_closed first_channel (broker w) = false) /\
  exists w',
    for_each l Dispatcher.bind_one w = (Ret tt, w') /\
    trace w' = trace w
               ++ registration (callbacks (env w)) first_channel
                    (next_tag (broker w)) l.
Proof.
  cbv zeta. split; [split; vm_compute; reflexivity|].
  destruct (proj1 missing_handler_skips_only_its_binding
              (BINDINGS settings_known_unknown)
              (after (Dispatcher.__init__ false)
                 (start (quiet_env ["known"%string])
                    (with_BINDINGS [] settings_known_unknown) [Connected] [] []))
              first_channel)
    as (w' & Hrun & Ht & _); [vm_compute; reflexivity ..|].
  exists w'. split; [exact Hrun|exact Ht].
Defined.

(** ** The supervisor *)

Lemma fork_workers_parent cwd argv incoming : forall pids w l rest,
  forks w = pids ++ rest ->
  Forall (fun p => p <> 0) pids ->
  children w = Some l ->
  fork_workers (List.length pids) cwd argv incoming w =
  (Ret tt,
   set_children (Some (l ++ pids))
     (set_trace (trace w ++ flat_map (fork_events (getpid (env w))) pids)
        (set_forks rest w))).
Proof.
  induction pids as [|p pids IH]; intros w l rest Hf Hnz Hc.
  - cbn in *. rewrite !app_nil_r. subst rest. rewrite <- Hc.
    destruct w; reflexivity.
  - inversion Hnz as [|? ? Hp Hnz']; subst.
    cbn [List.length fork_workers]. unfold os_fork, children_append.
    step. rewrite Hf. cbn.
    destruct (p =? 0) eqn:E; [apply Z.eqb_eq in E; contradiction|].
    cbn. rewrite Hc. cbn.
    rewrite (IH _ (l ++ [p]) rest); [|reflexivity|exact Hnz'|reflexivity].
    cbn. rewrite <- !app_assoc. reflexivity.
Qed.

Lemma waited_app a b : waited (a ++ b) = waited a ++ waited b.
Proof. apply flat_map_app. Qed.

Lemma forked_app a b : forked (a ++ b) = forked a ++ forked b.
Proof. apply flat_map_app. Qed.

Lemma kills_app a b : kills (a ++ b) = kills a ++ kills b.
Proof. apply flat_map_app. Qed.

Lemma reaped_app a b : reaped (a ++ b) = reaped a ++ reaped b.
Proof. apply flat_map_app. Qed.

Lemma existsb_Zeqb_In p l : existsb (Z.eqb p) l = true <-> In p l.
Proof.
  rewrite existsb_exists. split.
  - intros (x & Hx & E). apply Z.eqb_eq in E. now subst.
  - intros H. exists p. split; [exact H|apply Z.eqb_refl].
Qed.

Lemma os_kill_alive p s w :
  existsb (Z.eqb p) (reaped (trace w)) = false ->
  os_kill p s w = (Ret tt, set_trace (trace w ++ [Kill p s]) w).
Proof.
  intros E. unfold os_kill, bind, gets. cbn [fst snd]. rewrite E. reflexivity.
Qed.

Lemma os_kill_gone p s w :
  existsb (Z.eqb p) (reaped (trace w)) = true ->
  os_kill p s w = (Raise (OSError "ESRCH"), w).
Proof.
  intros E. unfold os_kill, bind, gets. cbn [fst snd]. rewrite E. reflexivity.
Qed.

Lemma kill_all s : forall l w,
  for_each l (fun pid => os_kill pid s) w =
  (if all_alive (reaped (trace w)) l then Ret tt else Raise (OSError "ESRCH"),
   set_trace
     (trace w ++ map (fun p => Kill p s) (signalled (reaped (trace w)) l)) w).
Proof.
  induction l as [|p l IH]; intros w.
  - cbn. rewrite app_nil_r. destruct w; reflexivity.
  - cbn [for_each]. unfold all_alive. cbn [forallb signalled].
    destruct (existsb (Z.eqb p) (reaped (trace w))) eqn:E.
    + rewrite (bind_Raise _ _ _ _ _ (os_kill_gone p s w E)).
      cbn. rewrite app_nil_r. destruct w; reflexivity.
    + rewrite (bind_Ret _ _ _ _ _ (os_kill_alive p s w E)).
      rewrite IH. cbn [trace set_trace]. rewrite reaped_app.
      cbn [reaped flat_map app]. rewrite app_nil_r. cbn [negb andb map].
      unfold all_alive. rewrite <- app_assoc. cbn [app].
      destruct (forallb _ l); destruct w; reflexivity.
Qed.

Lemma parent_handler_forwards s l w :
  children w = Some l ->
  _parent_handler s w =
  (if all_alive (reaped (trace w)) l then Ret tt else Raise (OSError "ESRCH"),
   set_trace (trace w ++ forward_events s (reaped (trace w)) l) w).
Proof.
  intros Hc. unfold _parent_handler.
  unfold print at 1. erewrite bind_Ret by reflexivity.
  erewrite bind_Ret by reflexivity. cbn [children set_trace]. rewrite Hc.
  rewrite kill_all. cbn [trace set_trace]. rewrite reaped_app.
  cbn [reaped flat_map app]. rewrite app_nil_r.
  unfold forward_events. rewrite <- app_assoc. cbn [app].
  destruct (all_alive _ l); destruct w; reflexivity.
Qed.

Lemma deliver_to_parent s l w :
  on_SIGINT w = parent_handler ->
  on_SIGTERM w = parent_handler ->
  children w = Some l ->
  deliver s w =
  (if all_alive (reaped (trace w)) l then Ret tt else Raise (OSError "ESRCH"),
   set_trace (trace w ++ forward_events s (reaped (trace w)) l) w).
Proof.
  intros Hi Ht Hc. unfold deliver, gets, bind.
  destruct s; [rewrite Hi|rewrite Ht]; now apply parent_handler_forwards.
Qed.

Lemma reap_child p all w :
  on_SIGINT w = parent_handler ->
  on_SIGTERM w = parent_handler ->
  children w = Some all ->
  try_except (os_waitpid p)
    (fun e => if is_Exception e then Some (ret tt) else None) w =
  (if benign (child_fate (env w) p) then Ret tt
   else match child_fate (env w) p with
        | Raises e => Raise e
        | _ => Ret tt
        end,
   set_trace
     (trace w ++ if benign (child_fate (env w) p)
                 then wait_events (child_fate (env w)) (reaped (trace w)) all p
                 else [Waitpid p]) w).
Proof.
  intros Hi Ht Hc. unfold wait_events, os_waitpid, end_of_call.
  unfold try_except, bind at 1, emit at 1, modify, bind at 1, gets.
  cbn [fst snd env set_trace].
  destruct (child_fate (env w) p) as [|e|s] eqn:E.
  - unfold bind, ret, emit, modify. cbn. rewrite <- !app_assoc. reflexivity.
  - unfold bind, raise. cbn. destruct e; reflexivity.
  - unfold bind at 1. unfold bind at 1.
    rewrite (deliver_to_parent s all) by assumption.
    cbn [trace set_trace]. rewrite reaped_app. cbn [reaped flat_map app].
    rewrite app_nil_r.
    destruct (all_alive (reaped (trace w)) all); cbn;
      rewrite <- !app_assoc; reflexivity.
Qed.

Lemma reaped_forward s gone l : reaped (forward_events s gone l) = [].
Proof.
  unfold forward_events. cbn. induction (signalled gone l); cbn; auto.
Qed.

Lemma waited_forward s gone l : waited (forward_events s gone l) = [].
Proof.
  unfold forward_events. cbn. induction (signalled gone l); cbn; auto.
Qed.

Lemma forked_forward s gone l : forked (forward_events s gone l) = [].
Proof.
  unfold forward_events. cbn. induction (signalled gone l); cbn; auto.
Qed.

Lemma kills_forward s gone l :
  kills (forward_events s gone l)
  = map (fun q => (q, SIGTERM)) (signalled gone l).
Proof.
  unfold forward_events. cbn. induction (signalled gone l); cbn; congruence.
Qed.

Lemma signalled_alive gone : forall l,
  (forall p, In p l -> ~ In p gone) -> signalled gone l = l.
Proof.
  induction l as [|p l IH]; intros H; [reflexivity|].
  cbn [signalled].
  destruct (existsb (Z.eqb p) gone) eqn:E.
  - apply existsb_Zeqb_In in E. exfalso. apply (H p); [now left|exact E].
  - rewrite IH; [reflexivity|]. intros q Hq. apply H. now right.
Qed.

Lemma all_alive_true gone : forall l,
  (forall p, In p l -> ~ In p gone) -> all_alive gone l = true.
Proof.
  intros l H. unfold all_alive. apply forallb_forall. intros p Hp.
  destruct (existsb (Z.eqb p) gone) eqn:E; [|reflexivity].
  apply existsb_Zeqb_In in E. exfalso. exact (H p Hp E).
Qed.

Lemma signalled_until_gone gone q post : forall pre,
  (forall p, In p pre -> ~ In p gone) ->
  In q gone ->
  signalled gone (pre ++ q :: post) = pre /\
  all_alive gone (pre ++ q :: post) = false.
Proof.
  induction pre as [|p pre IH]; intros H Hq.
  - apply existsb_Zeqb_In in Hq. unfold all_alive. cbn. rewrite Hq.
    split; reflexivity.
  - assert (E : existsb (Z.eqb p) gone = false).
    { destruct (existsb (Z.eqb p) gone) eqn:E; [|reflexivity].
      apply existsb_Zeqb_In in E. exfalso. apply (H p); [now left|exact E]. }
    destruct IH as [IH1 IH2]; [intros r Hr; apply H; now right|exact Hq|].
    unfold all_alive in *. cbn [app signalled forallb]. rewrite E, IH1, IH2.
    split; reflexivity.
Qed.

Lemma wait_events_read fate gone all p :
  waited (wait_events fate gone all p) = [p] /\
  forked (wait_events fate gone all p) = [] /\
  reaped (wait_events fate gone all p)
    = (if completes (fate p) then [p] else []).
Proof.
  unfold wait_events. destruct (fate p) as [|e|s]; try (now conjs).
  change (Waitpid p :: forward_events s gone all)
    with ([Waitpid p] ++ forward_events s gone all).
  rewrite waited_app, forked_app, reaped_app.
  rewrite waited_forward, forked_forward, reaped_forward. now conjs.
Qed.

Lemma reap_loop all : forall l w,
  on_SIGINT w = parent_handler ->
  on_SIGTERM w = parent_handler ->
  children w = Some all ->
  for_each l
    (fun pid =>
       try_except (os_waitpid pid)
         (fun e => if is_Exception e then Some (ret tt) else None)) w =
  (match snd (reap_events (child_fate (env w)) all (reaped (trace w)) l) with
   | None => Ret tt
   | Some e => Raise e
   end,
   set_trace
     (trace w ++ fst (reap_events (child_fate (env w)) all (reaped (trace w)) l))
     w).
Proof.
  induction l as [|p l IH]; intros w Hi Ht Hc.
  - cbn. rewrite app_nil_r. destruct w; reflexivity.
  - cbn [for_each reap_events]. unfold bind.
    rewrite (reap_child p all w Hi Ht Hc).
    destruct (benign (child_fate (env w) p)) eqn:B.
    + rewrite IH by assumption. cbn [env trace set_trace fst snd].
      rewrite reaped_app.
      rewrite (proj2 (proj2 (wait_events_read _ _ _ _))).
      destruct (completes (child_fate (env w) p));
        rewrite ?app_nil_r, <- !app_assoc; reflexivity.
    + cbn. destruct (child_fate (env w) p) as [|e|s]; try discriminate.
      reflexivity.
Qed.

(** What the loop over the children leaves when no wait ends in an
    exception that is no [Exception]. *)
Lemma reap_events_benign fate all : forall l gone,
  (forall p, In p l -> benign (fate p) = true) ->
  snd (reap_events fate all gone l) = None /\
  waited (fst (reap_events fate all gone l)) = l /\
  forked (fst (reap_events fate all gone l)) = [] /\
  reaped (fst (reap_events fate all gone l))
    = filter (fun p => completes (fate p)) l.
Proof.
  induction l as [|p l IH]; intros gone H; [now conjs|].
  cbn [reap_events filter]. rewrite (H p) by now left.
  cbn [fst snd].
  destruct (IH (if completes (fate p) then gone ++ [p] else gone))
    as (I1 & I2 & I3 & I4); [intros q Hq; apply H; now right|].
  destruct (wait_events_read fate gone all p) as (W1 & W2 & W3).
  rewrite waited_app, forked_app, reaped_app, W1, W2, W3, I1, I2, I3, I4.
  conjs; try reflexivity.
  destruct (completes (fate p)); reflexivity.
Qed.

Lemma fork_events_read me : forall l,
  forked (flat_map (fork_events me) l) = l /\
  waited (flat_map (fork_events me) l) = [] /\
  kills (flat_map (fork_events me) l) = [] /\
  reaped (flat_map (fork_events me) l) = [].
Proof.
  induction l as [|p l (IH1 & IH2 & IH3 & IH4)]; [repeat split|].
  cbn. unfold forked, waited, kills, reaped in *. cbn.
  now rewrite IH1, IH2, IH3, IH4.
Qed.

Lemma reap_runs f all w :
  on_SIGINT w = parent_handler ->
  on_SIGTERM w = parent_handler ->
  children w = Some all ->
  reap f w =
  (match snd (reap_events (child_fate (env w)) all (reaped (trace w)) all) with
   | None => Ret tt
   | Some e => Raise e
   end,
   set_trace
     (trace w ++ fst (reap_events (child_fate (env w)) all (reaped (trace w)) all)
              ++ [PidfRelease f]) w).
Proof.
  intros Hi Ht Hc. unfold reap, try_finally.
  unfold bind at 1. unfold gets at 1. rewrite Hc.
  rewrite (reap_loop all) by assumption.
  destruct (snd (reap_events (child_fate (env w)) all (reaped (trace w)) all));
    step; rewrite <- !app_assoc; reflexivity.
Qed.

Lemma main_daemon cwd argv incoming w pids rest :
  daemon_mode (parse_arguments cwd argv) = true ->
  forks w = pids ++ rest ->
  List.length pids = Z.to_nat (Opts.workers (parse_arguments cwd argv)) ->
  Forall (fun p => p <> 0) pids ->
  exists w',
    main cwd argv incoming w =
      (match snd (reap_events (child_fate (env w)) pids (reaped (trace w)) pids)
       with
       | None => Ret tt
       | Some e => Raise e
       end, w') /\
    children w' = Some pids /\
    on_SIGINT w' = parent_handler /\ on_SIGTERM w' = parent_handler /\
    trace w' =
      trace w
        ++ [DaemonOpen; PidfAcquire (Opts.pid_file (parse_arguments cwd argv));
            Log INFO "Became a daemon"]
        ++ flat_map (fork_events (getpid (env w))) pids
        ++ [SignalInstall SIGINT parent_handler;
            SignalInstall SIGTERM parent_handler]
        ++ fst (reap_events (child_fate (env w)) pids (reaped (trace w)) pids)
        ++ [PidfRelease (Opts.pid_file (parse_arguments cwd argv))].
Proof.
  intros Hd Hf Hn Hnz. unfold main.
  remember (parse_arguments cwd argv) as opts eqn:Ho. clear Ho.
  unfold daemon_mode in Hd.
  destruct (Opts.purge_queues opts); [discriminate|].
  destruct (Opts.purge_exchanges opts); [discriminate|].
  destruct (Opts.debug opts); [discriminate|]. cbn in Hd.
  rewrite <- Hn.
  assert (Hrun : exists w',
    (emit DaemonOpen;;
     emit (PidfAcquire (Opts.pid_file opts));;
     log INFO "Became a daemon";;
     modify (set_children (Some []));;
     fork_workers (List.length pids) cwd argv incoming;;
     signal SIGINT parent_handler;;
     signal SIGTERM parent_handler;; reap (Opts.pid_file opts)) w =
    (match snd (reap_events (child_fate (env w)) pids (reaped (trace w)) pids)
     with
     | None => Ret tt
     | Some e => Raise e
     end, w') /\
    children w' = Some pids /\
    on_SIGINT w' = parent_handler /\ on_SIGTERM w' = parent_handler /\
    trace w' =
      trace w
        ++ [DaemonOpen; PidfAcquire (Opts.pid_file opts);
            Log INFO "Became a daemon"]
        ++ flat_map (fork_events (getpid (env w))) pids
        ++ [SignalInstall SIGINT parent_handler;
            SignalInstall SIGTERM parent_handler]
        ++ fst (reap_events (child_fate (env w)) pids (reaped (trace w)) pids)
        ++ [PidfRelease (Opts.pid_file opts)]).
  { unfold bind, emit, log, modify, signal.
    cbn -[reap fork_workers].
    erewrite (fork_workers_parent cwd argv incoming pids _ [] rest);
      [|exact Hf|exact Hnz|reflexivity].
    cbn -[reap]. rewrite (reap_runs _ pids) by reflexivity.
    cbn [env trace set_trace set_handler set_children set_forks].
    rewrite !reaped_app.
    rewrite (proj2 (proj2 (proj2 (fork_events_read (getpid (env w)) pids)))).
    cbn [reaped flat_map app]. rewrite !app_nil_r.
    eexists. split; [reflexivity|]. cbn.
    rewrite <- !app_assoc. cbn. conjs; reflexivity. }
  destruct (Opts.drain_queue opts) as [[|a q]|]; try discriminate; exact Hrun.
Qed.

(** C6 on the code.  With no option given the number of workers is 2,
    and in daemon mode [main] forks the children [os.fork] gives it,
    as many as [--workers] says, and records them in order.  The
    divergence is in what follows.  [_parent_handler] sends SIGTERM
    once to every recorded child only as long as none of them has been
    reaped: at the first child that is gone [os.kill] raises [OSError]
    and the children recorded after it get no signal.  And [main]
    calls [os.waitpid] once for every child and never again: a wait
    that a signal interrupts is given up, so that [main] releases the
    lock and returns having reaped the children whose wait completed
    and no other; a child whose wait was interrupted has not been
    reaped then. *)
Theorem supervisor_leaves_interrupted_child_unreaped :
  (forall cwd, Opts.workers (parse_arguments cwd []) = 2) /\
  (forall s l w,
      on_SIGINT w = parent_handler ->
      on_SIGTERM w = parent_handler ->
      children w = Some l ->
      (forall p, In p l -> ~ In p (reaped (trace w))) ->
      exists w',
        deliver s w = (Ret tt, w') /\
        kills (trace w') = kills (trace w) ++ map (fun p => (p, SIGTERM)) l) /\
  (forall s pre q post w,
      on_SIGINT w = parent_handler ->
      on_SIGTERM w = parent_handler ->
      children w = Some (pre ++ q :: post) ->
      (forall p, In p pre -> ~ In p (reaped (trace w))) ->
      In q (reaped (trace w)) ->
      exists w',
        deliver s w = (Raise (OSError "ESRCH"), w') /\
        kills (trace w') = kills (trace w) ++ map (fun p => (p, SIGTERM)) pre) /\
  (forall cwd argv incoming w pids rest,
      daemon_mode (parse_arguments cwd argv) = true ->
      forks w = pids ++ rest ->
      List.length pids = Z.to_nat (Opts.workers (parse_arguments cwd argv)) ->
      Forall (fun p => p <> 0) pids ->
      (forall p, In p pids -> benign (child_fate (env w) p) = true) ->
      exists w' before,
        main cwd argv incoming w = (Ret tt, w') /\
        children w' = Some pids /\
        forked (trace w') = forked (trace w) ++ pids /\
        trace w' = before
                   ++ [PidfRelease (Opts.pid_file (parse_arguments cwd argv))] /\
        waited before = waited (trace w) ++ pids /\
        reaped (trace w') =
          reaped (trace w)
            ++ filter (fun p => completes (child_fate (env w) p)) pids /\
        (forall p s,
            child_fate (env w) p = Interrupted s ->
            ~ In p (reaped (trace w)) ->
            ~ In p (reaped (trace w')))).
Proof.
  split; [reflexivity|]. split; [|split].
  - intros s l w Hi Ht Hc Ha.
    rewrite (deliver_to_parent s l w Hi Ht Hc).
    rewrite (all_alive_true _ _ Ha).
    eexists. split; [reflexivity|]. cbn [trace set_trace].
    rewrite kills_app, kills_forward, (signalled_alive _ _ Ha). reflexivity.
  - intros s pre q post w Hi Ht Hc Ha Hq.
    rewrite (deliver_to_parent s _ w Hi Ht Hc).
    destruct (signalled_until_gone (reaped (trace w)) q post pre Ha Hq)
      as [S1 S2].
    rewrite S2. eexists. split; [reflexivity|]. cbn [trace set_trace].
    rewrite kills_app, kills_forward, S1. reflexivity.
  - intros cwd argv incoming w pids rest Hd Hf Hn Hnz Hb.
    destruct (main_daemon cwd argv incoming w pids rest Hd Hf Hn Hnz)
      as (w' & Hrun & Hc & _ & _ & Htr).
    destruct (reap_events_benign (child_fate (env w)) pids pids
                (reaped (trace w)) Hb) as (R1 & R2 & R3 & R4).
    rewrite R1 in Hrun.
    destruct (fork_events_read (getpid (env w)) pids) as (F1 & F2 & _ & F4).
    assert (Hr : reaped (trace w') =
                 reaped (trace w)
                   ++ filter (fun p => completes (child_fate (env w) p)) pids).
    { rewrite Htr, !reaped_app, F4, R4. cbn. now rewrite !app_nil_r. }
    exists w'. eexists. split; [exact Hrun|].
    split; [exact Hc|]. split; [|split; [|split; [|split]]].
    + rewrite Htr, !forked_app, F1, R3. cbn. now rewrite !app_nil_r.
    + rewrite Htr. rewrite !app_assoc. reflexivity.
    + rewrite !waited_app, F2, R2. cbn. now rewrite !app_nil_r.
    + exact Hr.
    + intros p s Hp Hnot Hin. rewrite Hr in Hin.
      apply in_app_or in Hin. destruct Hin as [Hin|Hin]; [exact (Hnot Hin)|].
      apply filter_In in Hin. destruct Hin as [_ Hin].
      rewrite Hp in Hin. discriminate.
Qed.

(** C6 at the supervisor of property 4 of the specification: children
    101, 102 and 103, and a SIGTERM while it waits for the first.  The
    signal reaches the three children, the supervisor waits for 102
    and 103, releases the lock and returns: 101 has not been
    reaped. *)
Lemma supervisor_leaves_interrupted_child_unreaped_witness :
  let w := start env_sigterm_at_first settings_one [] [] [101; 102; 103] in
  let argv := [opt_workers 3] in
  (daemon_mode (parse_arguments "/srv" argv) = true /\
   forks w = [101; 102; 103] ++ [] /\
   List.length [101; 102; 103]
     = Z.to_nat (Opts.workers (parse_arguments "/srv" argv)) /\
   Forall (fun p => p <> 0) [101; 102; 103] /\
   (forall p, In p [101; 102; 103] -> benign (child_fate (env w) p) = true) /\
   child_fate (env w) 101 = Interrupted SIGTERM /\
   ~ In 101 (reaped (trace w))) /\
  exists w' before,
    main "/srv" argv [] w = (Ret tt, w') /\
    children w' = Some [101; 102; 103] /\
    kills (trace w') = [(101, SIGTERM); (102, SIGTERM); (103, SIGTERM)] /\
    trace w' = before ++ [PidfRelease "/srv/dispatcher.pid"] /\
    waited before = [101; 102; 103] /\
    reaped (trace w') = [102; 103] /\
    ~ In 101 (reaped (trace w')).
Proof.
  cbv zeta.
  assert (Hnz : Forall (fun p => p <> 0) [101; 102; 103])
    by (repeat constructor; discriminate).
  assert (Hb : forall p, In p [101; 102; 103] ->
                 benign (child_fate
                           (env (start env_sigterm_at_first settings_one [] []
                                   [101; 102; 103])) p) = true)
    by (intros p [<-|[<-|[<-|[]]]]; reflexivity).
  assert (Hnot : ~ In 101 (reaped (trace (start env_sigterm_at_first
                                            settings_one [] []
                                            [101; 102; 103]))))
    by (intros []).
  split; [conjs; try (vm_compute; reflexivity); assumption|].
  destruct (proj2 (proj2 (proj2 supervisor_leaves_interrupted_child_unreaped))
              "/srv"%string [opt_workers 3] []
              (start env_sigterm_at_first settings_one [] [] [101; 102; 103])
              [101; 102; 103] [] eq_refl eq_refl eq_refl Hnz Hb)
    as (w' & before & Hrun & Hc & _ & Htr & Hw & Hr & Hno).
  exists w', before. conjs; try assumption.
  - apply (f_equal snd) in Hrun. cbn [snd] in Hrun. rewrite <- Hrun.
    vm_compute. reflexivity.
  - exact (Hno 101 SIGTERM eq_refl Hnot).
Defined.

Lemma reap_events_leave fate all : forall l gone e,
  snd (reap_events fate all gone l) = Some e -> is_Exception e = false.
Proof.
  induction l as [|p l IH]; intros gone e H; [discriminate|].
  cbn [reap_events] in H. destruct (benign (fate p)) eqn:B.
  - eapply IH. exact H.
  - cbn in H. destruct (fate p) as [|e'|s]; try discriminate.
    inversion H; subst. exact B.
Qed.

(** C7.  In daemon mode, whatever the waits for the children end with,
    [main] ends by returning or by an exception that is no [Exception];
    either way the lock file acquired before the forks is released, and
    the release is the last thing it does.  When every wait that fails
    fails with an [Exception], [main] returns and every recorded child
    has been waited for. *)
Theorem reaping_is_best_effort_and_releases_lock :
  forall cwd argv incoming w pids rest,
    daemon_mode (parse_arguments cwd argv) = true ->
    forks w = pids ++ rest ->
    List.length pids = Z.to_nat (Opts.workers (parse_arguments cwd argv)) ->
    Forall (fun p => p <> 0) pids ->
    exists r w' during,
      main cwd argv incoming w = (r, w') /\
      trace w' =
        trace w
          ++ [DaemonOpen; PidfAcquire (Opts.pid_file (parse_arguments cwd argv));
              Log INFO "Became a daemon"]
          ++ flat_map (fork_events (getpid (env w))) pids
          ++ [SignalInstall SIGINT parent_handler;
              SignalInstall SIGTERM parent_handler]
          ++ during
          ++ [PidfRelease (Opts.pid_file (parse_arguments cwd argv))] /\
      (r = Ret tt \/ exists e, r = Raise e /\ is_Exception e = false) /\
      ((forall p, In p pids -> benign (child_fate (env w) p) = true) ->
       r = Ret tt /\ waited during = pids).
Proof.
  intros cwd argv incoming w pids rest Hd Hf Hn Hnz.
  destruct (main_daemon cwd argv incoming w pids rest Hd Hf Hn Hnz)
    as (w' & Hrun & _ & _ & _ & Htr).
  eexists.
  exists w', (fst (reap_events (child_fate (env w)) pids (reaped (trace w)) pids)).
  split; [exact Hrun|]. split; [exact Htr|]. split.
  - destruct (snd (reap_events (child_fate (env w)) pids (reaped (trace w)) pids))
      as [e|] eqn:E.
    + right. exists e. split; [reflexivity|].
      eapply reap_events_leave; eauto.
    + now left.
  - intros Hb.
    destruct (reap_events_benign (child_fate (env w)) pids pids
                (reaped (trace w)) Hb) as (R1 & R2 & _).
    rewrite R1. split; [reflexivity|exact R2].
Qed.

(** C7 at the supervisor of three children whose wait for the second
    fails with [OSError]. *)
Lemma reaping_is_best_effort_and_releases_lock_witness :
  let w := supervisor_three in
  let argv := [opt_workers 3] in
  (daemon_mode (parse_arguments "/srv" argv) = true /\
   forks w = [101; 102; 103] ++ [] /\
   List.length [101; 102; 103]
     = Z.to_nat (Opts.workers (parse_arguments "/srv" argv)) /\
   Forall (fun p => p <> 0) [101; 102; 103]) /\
  child_fate (env w) 102 = Raises (OSError "ECHILD") /\
  exists r w' during,
    main "/srv" argv [] w = (r, w') /\
    trace w' =
      trace w
        ++ [DaemonOpen; PidfAcquire "/srv/dispatcher.pid";
            Log INFO "Became a daemon"]
        ++ flat_map (fork_events 100) [101; 102; 103]
        ++ [SignalInstall SIGINT parent_handler;
            SignalInstall SIGTERM parent_handler]
        ++ during
        ++ [PidfRelease "/srv/dispatcher.pid"].
Proof.
  cbv zeta.
  assert (Hnz : Forall (fun p => p <> 0) [101; 102; 103])
    by (repeat constructor; discriminate).
  split; [conjs; try (vm_compute; reflexivity); assumption|].
  split; [reflexivity|].
  destruct (reaping_is_best_effort_and_releases_lock
              "/srv"%string [opt_workers 3] [] supervisor_three
              [101; 102; 103] [] eq_refl eq_refl eq_refl Hnz)
    as (r & w' & during & Hrun & Htr & _).
  exists r, w', during. split; assumption.
Defined.

(** The same children when 101 has exited before the SIGTERM arrives,
    during the wait for 102: [os.kill] fails for 101, which is reaped,
    and no child gets the signal. *)
Example signal_after_a_reap_reaches_no_child :
  let w := start env_sigterm_at_second settings_one [] [] [101; 102; 103] in
  let w' := after (main "/srv" [opt_workers 3] []) w in
  run (main "/srv" [opt_workers 3] []) w = Ret tt /\
  kills (trace w') = [] /\
  waited (trace w') = [101; 102; 103] /\
  reaped (trace w') = [101; 103].
Proof.
  cbv zeta. conjs; vm_compute; reflexivity.
Qed.

(** ** Purging the queues *)

Lemma fresh_channel_open conn n cl :
  (forall k, In k cl -> (ch_id k < n)%nat) ->
  existsb (channel_eqb (mkChannel conn n)) cl = false.
Proof.
  intros H. destruct (existsb _ cl) eqn:E; [|reflexivity].
  apply existsb_exists in E. destruct E as (k & Hk & He).
  unfold channel_eqb in He. apply andb_true_iff in He.
  destruct He as [_ He]. apply Nat.eqb_eq in He. cbn in He.
  specialize (H k Hk). lia.
Qed.

Lemma deletions_app a b : deletions (a ++ b) = deletions a ++ deletions b.
Proof. apply flat_map_app. Qed.

Lemma deletions_deletion_events fault conn : forall l c n,
  deletions (deletion_events fault conn c n l) = l.
Proof.
  induction l as [|q l IH]; intros c n; [reflexivity|].
  cbn [deletion_events]. destruct (fault q) as [[code text]|];
    unfold deletions in *; rewrite flat_map_app; cbn; now rewrite IH.
Qed.

Lemma delete_queues_runs conn : forall l w c,
  ch_conn c = conn ->
  (ch_id c < next_chan (broker w))%nat ->
  existsb (channel_eqb c) (closed (broker w)) = false ->
  existsb (Nat.eqb conn) (closed_conns (broker w)) = false ->
  (forall k, In k (closed (broker w)) ->
             (ch_id k < next_chan (broker w))%nat) ->
  exists w' c',
    delete_queues conn c l w = (Ret c', w') /\
    ch_conn c' = conn /\
    existsb (channel_eqb c') (closed (broker w')) = false /\
    closed_conns (broker w') = closed_conns (broker w) /\
    env w' = env w /\
    trace w' = trace w
               ++ deletion_events (queue_delete_fault (env w)) conn c
                    (next_chan (broker w)) l /\
    exchanges (broker w') = exchanges (broker w) /\
    (forall q, In q (queues (broker w')) <->
               In q (queues (broker w)) /\
               ~ (In q l /\ queue_delete_fault (env w) q = None)).
Proof.
  induction l as [|q l IH]; intros w c Hconn Hid Hcl Hcc Hbelow.
  - exists w, c. cbn. rewrite app_nil_r. repeat split; auto; tauto.
  - cbn [delete_queues deletion_events].
    unfold queue_delete, use_channel, channel_exception, is_closed,
      print_reply, conn_channel.
    step. rewrite <- Hconn in Hcc. rewrite Hcl, Hcc. cbn.
    destruct (queue_delete_fault (env w) q) as [[code text]|] eqn:F; cbn.
    + match goal with |- context [delete_queues conn ?c1 l ?w1] =>
        destruct (IH w1 c1)
          as (w' & c' & Hrun & Hc' & Hop & Hccs & He & Ht & Hx & Hq)
      end.
      * reflexivity.
      * cbn. lia.
      * cbn. rewrite existsb_app. cbn.
        rewrite (fresh_channel_open conn _ _ Hbelow).
        unfold channel_eqb. cbn.
        destruct (Nat.eqb_spec (next_chan (broker w)) (ch_id c)); [lia|].
        now rewrite andb_false_r.
      * cbn. now rewrite <- Hconn.
      * cbn. intros k Hk. apply in_app_or in Hk.
        destruct Hk as [Hk|[<-|[]]]; [specialize (Hbelow k Hk)|]; lia.
      * exists w', c'. rewrite Hrun. cbn in *.
        split; [reflexivity|]. split; [exact Hc'|]. split; [exact Hop|].
        split; [exact Hccs|]. split; [exact He|].
        split; [rewrite Ht, <- !app_assoc; reflexivity|].
        split; [exact Hx|].
        intros x. rewrite Hq. split.
        -- intros [Hin Hno]. split; [exact Hin|].
           intros [[<-|Hin'] Hf]; [congruence|tauto].
        -- intros [Hin Hno]. split; [exact Hin|]. tauto.
    + match goal with |- context [delete_queues conn ?c1 l ?w1] =>
        destruct (IH w1 c1)
          as (w' & c' & Hrun & Hc' & Hop & Hccs & He & Ht & Hx & Hq)
      end; try assumption.
      * cbn. now rewrite <- Hconn.
      * exists w', c'. rewrite Hrun. cbn in *.
        split; [reflexivity|]. split; [exact Hc'|]. split; [exact Hop|].
        split; [exact Hccs|]. split; [exact He|].
        split; [rewrite Ht, <- !app_assoc; reflexivity|].
        split; [exact Hx|].
        intros x. rewrite Hq, filter_In, negb_true_iff, String.eqb_neq.
        split.
        -- intros [[Hin Hne] Hno]. split; [exact Hin|].
           intros [[<-|Hin'] Hf]; [congruence|tauto].
        -- intros [Hin Hno]. split; [split; [exact Hin|]|].
           ++ intros ->. apply Hno. split; [now left|exact F].
           ++ intros [Hin' Hf]. apply Hno. split; [now right|exact Hf].
Qed.

Lemma get_user_confirmation_runs w ans more :
  stdin w = ans :: more ->
  get_user_confirmation w =
  (Ret (confirms ans),
   set_stdin more (set_trace (trace w ++ [RawInput "Are you sure (N/y):"]) w)).
Proof.
  intros H. unfold get_user_confirmation, raw_input. step. rewrite H. cbn.
  unfold confirms. destruct (String.eqb_spec ans "") as [->|_].
  - reflexivity.
  - cbn. destruct (ans =? "Y")%string, (ans =? "y")%string; reflexivity.
Qed.

Lemma amqp_Connection_connected w rest :
  attempts w = Connected :: rest ->
  amqp_Connection w =
  (Ret (next_conn (broker w)),
   set_broker
     (with_counters (S (next_conn (broker w))) (next_chan (broker w))
        (next_tag (broker w)) (broker w))
     (set_attempts rest
        (set_trace
           (trace w ++ [AmqpConnect (RABBIT_HOST (settings w))
                          (RABBIT_USERNAME (settings w))
                          (RABBIT_PASSWORD (settings w))
                          (RABBIT_VHOST (settings w))]) w))).
Proof.
  intros H. unfold amqp_Connection. step. rewrite H. reflexivity.
Qed.

Lemma conn_channel_runs conn w :
  conn_channel conn w =
  (Ret (mkChannel conn (next_chan (broker w))),
   set_broker
     (with_counters (next_conn (broker w)) (S (next_chan (broker w)))
        (next_tag (broker w)) (broker w))
     (set_trace
        (trace w ++ [OpenChannel (mkChannel conn (next_chan (broker w)))]) w)).
Proof. reflexivity. Qed.

Lemma well_formed_below b :
  well_formed b = true ->
  (forall k, In k (closed b) -> (ch_id k < next_chan b)%nat) /\
  existsb (Nat.eqb (next_conn b)) (closed_conns b) = false.
Proof.
  unfold well_formed. intros H. apply andb_true_iff in H.
  destruct H as [H1 H2]. split.
  - intros k Hk. rewrite forallb_forall in H1. apply Nat.ltb_lt. now apply H1.
  - destruct (existsb (Nat.eqb (next_conn b)) (closed_conns b)) eqn:E;
      [|reflexivity].
    apply existsb_exists in E. destruct E as (k & Hk & He).
    apply Nat.eqb_eq in He. rewrite forallb_forall in H2.
    specialize (H2 k Hk). apply Nat.ltb_lt in H2. lia.
Qed.

(** C8.  When the user confirms, [purge_queues] attempts the deletion
    of every configured queue, once and in order.  A deletion the
    broker refuses with a channel exception leaves the reply code and
    text on standard output and is followed by the opening of a new
    channel, on which the remaining queues are deleted; the queues
    whose deletion is not refused are gone from the broker, the others
    stay. *)
Theorem purge_queues_isolates_failures :
  forall w ans more rest,
    attempts w = Connected :: rest ->
    stdin w = ans :: more ->
    confirms ans = true ->
    well_formed (broker w) = true ->
    exists w',
      purge_queues w = (Ret tt, w') /\
      trace w' =
        trace w
          ++ [AmqpConnect (RABBIT_HOST (settings w)) (RABBIT_USERNAME (settings w))
                (RABBIT_PASSWORD (settings w)) (RABBIT_VHOST (settings w));
              OpenChannel (mkChannel (next_conn (broker w)) (next_chan (broker w)));
              Stdout ("Queues to be deleted:  "
                      +++ repr_list (QUEUES (settings w)));
              RawInput "Are you sure (N/y):"]
          ++ deletion_events (queue_delete_fault (env w)) (next_conn (broker w))
               (mkChannel (next_conn (broker w)) (next_chan (broker w)))
               (S (next_chan (broker w))) (QUEUES (settings w))
          ++ [ConnectionClose (next_conn (broker w))] /\
      deletions (trace w') = deletions (trace w) ++ QUEUES (settings w) /\
      (forall q, In q (queues (broker w')) <->
                 In q (queues (broker w)) /\
                 ~ (In q (QUEUES (settings w)) /\
                    queue_delete_fault (env w) q = None)).
Proof.
  intros w ans more rest Ha Hs Hy Hwf.
  destruct (well_formed_below _ Hwf) as [Hbelow Hcc].
  unfold purge_queues, get_connection.
  rewrite (bind_Ret _ _ _ _ _ (amqp_Connection_connected w rest Ha)).
  rewrite (bind_Ret _ _ _ _ _ (conn_channel_runs _ _)).
  erewrite (bind_Ret (gets settings)) by reflexivity.
  erewrite (bind_Ret (print _)) by reflexivity.
  erewrite (bind_Ret get_user_confirmation) by
    (apply get_user_confirmation_runs; exact Hs).
  rewrite Hy. cbn [negb].
  unfold bind at 1.
  match goal with |- context [delete_queues ?conn ?c ?l ?w1] =>
    destruct (delete_queues_runs conn l w1 c)
      as (w' & c' & Hrun & Hc' & Hop & Hccs & He & Ht & Hx & Hq)
  end.
  - reflexivity.
  - cbn. lia.
  - cbn. apply fresh_channel_open. exact Hbelow.
  - cbn. exact Hcc.
  - cbn. intros k Hk. specialize (Hbelow k Hk). lia.
  - rewrite Hrun.
    assert (Hopen : is_closed c' (broker w') = false).
    { unfold is_closed. rewrite Hop, Hc', Hccs. cbn. exact Hcc. }
    unfold chan_connection, connection_close. step. rewrite Hopen. cbn.
    eexists. split; [rewrite Hc'; reflexivity|].
    match goal with |- trace ?wf = ?rhs /\ _ =>
      assert (Htr : trace wf = rhs)
        by (cbn in *; rewrite Ht; cbn; rewrite <- !app_assoc; reflexivity)
    end.
    split; [exact Htr|]. split.
    + rewrite Htr, deletions_app. f_equal.
      pose proof (deletions_deletion_events (queue_delete_fault (env w))
                    (next_conn (broker w)) (QUEUES (settings w))) as D.
      unfold deletions in *. cbn -[deletion_events].
      rewrite flat_map_app, D. cbn. now rewrite app_nil_r.
    + cbn in *. exact Hq.
Qed.

(** C8 at the two queues of property 7 of the specification: the
    broker refuses to delete qA, and qB is deleted on a new channel. *)
Lemma purge_queues_isolates_failures_witness :
  let w := purge_world env_refuses_A ["y"%string] [Connected] in
  (attempts w = Connected :: [] /\ stdin w = "y"%string :: [] /\
   confirms "y" = true /\ well_formed (broker w) = true) /\
  exists w',
    purge_queues w = (Ret tt, w') /\
    trace w' =
      [AmqpConnect "rabbit" "synnefo" "secret" "/";
       OpenChannel first_channel;
       Stdout "Queues to be deleted:  ['qA', 'qB']";
       RawInput "Are you sure (N/y):";
       QueueDelete first_channel "qA";
       Stdout "406   PRECONDITION_FAILED";
       OpenChannel (mkChannel 0 1);
       QueueDelete (mkChannel 0 1) "qB";
       Stdout "Deleting queue qB";
       ConnectionClose 0%nat] /\
    deletions (trace w') = ["qA"; "qB"]%string.
Proof.
  cbv zeta. split; [conjs; reflexivity|].
  destruct (purge_queues_isolates_failures
              (purge_world env_refuses_A ["y"%string] [Connected])
              "y"%string [] [] eq_refl eq_refl eq_refl eq_refl)
    as (w' & Hrun & Htr & Hd & _).
  exists w'. conjs; assumption.
Defined.

(** C9 on the code.  With the exchanges eA and eB, of which the broker
    refuses to delete eA, [purge_exchanges] opens no channel after the
    refusal: the deletion of eB is asked on the channel the broker has
    closed, and eB stays, whatever the use of a closed channel raises.
    The command ends with that exception; were it an
    [AMQPChannelException], which the loop swallows, it would end with
    the [AttributeError] of [chan.connection.close()], the channel
    being closed.  In the same run [purge_queues] has opened a new
    channel after the refusal of qA and deleted qB. *)
Theorem purge_exchanges_keeps_closed_channel :
  forall err,
    let w := purge_world (env_refuses_A_closed err)
               ["y"; "y"]%string [Connected; Connected] in
    let w' := after purge_exchanges w in
    queue_deletes (trace w') =
      [(first_channel, "qA"%string); (mkChannel 0 1, "qB"%string)] /\
    exchange_deletes (trace w') =
      [(mkChannel 1 2, "eA"%string); (mkChannel 1 2, "eB"%string)] /\
    opened (trace w') = [first_channel; mkChannel 0 1; mkChannel 1 2] /\
    queues (broker w') = ["qA"%string] /\
    exchanges (broker w') = ["eA"; "eB"]%string /\
    run purge_exchanges w =
      match err with
      | AMQPChannelException _ _ => Raise (AttributeError "close")
      | _ => Raise err
      end.
Proof.
  intros err. cbv zeta. destruct err; conjs; vm_compute; reflexivity.
Qed.

(** ** Draining a queue *)

Lemma find_exch_unbound queue : forall l acc,
  (forall b, In b l -> b_queue b <> queue) ->
  fold_left
    (fun exch binding =>
       if String.eqb (b_queue binding) queue
       then Some (b_exchange binding) else exch) l acc = acc.
Proof.
  induction l as [|b l IH]; intros acc H; [reflexivity|].
  cbn [fold_left].
  destruct (String.eqb_spec (b_queue b) queue) as [E|_].
  - exfalso. apply (H b); [now left|exact E].
  - apply IH. intros b' Hb'. apply H. now right.
Qed.

(** C10, as the code has it.  For a queue that is configured and that
    no binding names, [drain_queue] raises [UnboundLocalError], a
    [NameError], once the user has confirmed and the connection and
    its channel are open, and the message that the queue is not bound
    is never printed; when the user does not confirm it returns before
    it connects. *)
Theorem drain_queue_unbound_raises_NameError :
  forall queue incoming w ans more,
    queue <> EmptyString ->
    mem queue (QUEUES (settings w)) = true ->
    (forall b, In b (BINDINGS (settings w)) -> b_queue b <> queue) ->
    stdin w = ans :: more ->
    (confirms ans = false ->
     exists w',
       drain_queue queue incoming w = (Ret tt, w') /\
       trace w' = trace w ++ [Stdout ("Queue to be drained: " +++ queue);
                              RawInput "Are you sure (N/y):"]) /\
    (confirms ans = true ->
     forall rest, attempts w = Connected :: rest ->
     exists w',
       drain_queue queue incoming w = (Raise (UnboundLocalError "exch"), w') /\
       is_NameError (UnboundLocalError "exch") = true /\
       trace w' =
         trace w
           ++ [Stdout ("Queue to be drained: " +++ queue);
               RawInput "Are you sure (N/y):";
               AmqpConnect (RABBIT_HOST (settings w))
                 (RABBIT_USERNAME (settings w)) (RABBIT_PASSWORD (settings w))
                 (RABBIT_VHOST (settings w));
               OpenChannel
                 (mkChannel (next_conn (broker w)) (next_chan (broker w)))]).
Proof.
  intros queue incoming w ans more Hq Hm Hb Hs.
  assert (Hne : String.eqb queue "" = false) by now apply String.eqb_neq.
  assert (Hhead :
    drain_queue queue incoming w =
    (sure <- get_user_confirmation ;;
     if negb sure then ret tt
     else
       conn <- get_connection ;;
       chan <- conn_channel conn ;;
       bindings <- gets (fun w => BINDINGS (settings w)) ;;
       match find_exch queue bindings with
       | None => raise (UnboundLocalError "exch")
       | Some exch =>
           if String.eqb exch "" then
             print ("Queue not bound to any exchange: " +++ queue)
           else
             queue_bind chan queue exch "#" ;;
             t <- basic_consume chan queue "dummy_proc" ;;
             print "Queue draining about to start, hit Ctrl+c when done" ;;
             sleep 2 ;;
             print "Queue draining starting" ;;
             signal SIGTERM exit_handler ;;
             signal SIGINT exit_handler ;;
             drain_loop chan incoming 0 ;;
             basic_cancel chan t ;;
             conn <- chan_connection chan "close" ;;
             connection_close conn
       end)
      (set_trace (trace w ++ [Stdout ("Queue to be drained: " +++ queue)]) w)).
  { unfold drain_queue. rewrite Hne.
    erewrite (bind_Ret (gets settings)) by reflexivity.
    rewrite Hm. cbn [negb].
    erewrite (bind_Ret (print _)) by reflexivity. reflexivity. }
  rewrite Hhead. clear Hhead.
  erewrite (bind_Ret get_user_confirmation) by
    (apply get_user_confirmation_runs; exact Hs).
  split.
  - intros Hn. rewrite Hn. cbn [negb].
    eexists. split; [reflexivity|]. cbn. now rewrite <- !app_assoc.
  - intros Hy rest Ha. rewrite Hy. cbn [negb]. unfold get_connection.
    erewrite (bind_Ret amqp_Connection) by
      (apply amqp_Connection_connected with (rest := rest); exact Ha).
    rewrite (bind_Ret _ _ _ _ _ (conn_channel_runs _ _)).
    erewrite (bind_Ret (gets _)) by reflexivity.
    cbn [settings set_broker set_attempts set_trace set_stdin].
    unfold find_exch. rewrite (find_exch_unbound queue _ None Hb).
    eexists. split; [reflexivity|]. split; [reflexivity|].
    cbn. now rewrite <- !app_assoc.
Qed.

(** C10 at a configured queue that no binding names, the user
    answering [y]. *)
Lemma drain_queue_unbound_raises_NameError_witness :
  let w := start env_one settings_unbound [Connected] ["y"%string] [] in
  ("events"%string <> EmptyString /\
   mem "events" (QUEUES (settings w)) = true /\
   (forall b, In b (BINDINGS (settings w)) -> b_queue b <> "events"%string) /\
   stdin w = "y"%string :: [] /\ confirms "y" = true /\
   attempts w = Connected :: []) /\
  exists w',
    drain_queue "events" [] w = (Raise (UnboundLocalError "exch"), w') /\
    is_NameError (UnboundLocalError "exch") = true.
Proof.
  cbv zeta.
  assert (Hq : "events"%string <> EmptyString) by discriminate.
  assert (Hb : forall b, In b (BINDINGS settings_unbound) ->
                         b_queue b <> "events"%string) by (intros b []).
  split; [conjs; try reflexivity; assumption|].
  destruct (proj2 (drain_queue_unbound_raises_NameError "events"%string []
              (start env_one settings_unbound [Connected] ["y"%string] [])
              "y"%string [] Hq eq_refl Hb eq_refl) eq_refl [] eq_refl)
    as (w' & Hrun & Hn & _).
  exists w'. split; assumption.
Defined.

(** C10 as it is worded fails: the queue below is configured and no
    binding names it, the user answers [n], and [drain_queue] returns
    without an exception. *)
Lemma drain_queue_unbound_declined_returns :
  let w := start env_one settings_unbound [Connected] ["n"%string] [] in
  mem "events" (QUEUES (settings w)) = true /\
  find_exch "events" (BINDINGS (settings w)) = None /\
  run (drain_queue "events" []) w = Ret tt /\
  ~ (exists e, run (drain_queue "events" []) w = Raise e /\
               is_NameError e = true).
Proof.
  cbv zeta. split; [reflexivity|]. split; [reflexivity|].
  assert (H : run (drain_queue "events" [])
                (start env_one settings_unbound [Connected] ["n"%string] [])
              = Ret tt) by (vm_compute; reflexivity).
  split; [exact H|]. intros (e & He & _). rewrite H in He. discriminate.
Qed.

(** ** Reconnecting *)

(** C2 on the code.  A worker with one consumer, tag 0, meets a
    [socket.error] while it waits: it logs, initializes again and
    stays in its loop; the registration on the new channel obtains tag
    1 only, and the recorded tags are then 0 and 1.  When SIGTERM
    arrives next, [wait] asks the second channel to cancel tag 0,
    which the first channel got: the second channel does not know it,
    and the drain ends there with [KeyError].  Tag 1 is not cancelled,
    its consumer stays, and neither the connection nor the channel is
    closed.  The same holds after an [AMQPConnectionException]. *)
Theorem reconnect_keeps_old_tags :
  let w := worker_up false [Connected; Connected] in
  let again e := Dispatcher.wait_round (Some (Raises e)) in
  let shutdown e := Dispatcher.wait [Raises e; Interrupted SIGTERM] in
  Forall
    (fun e =>
       run (again e) w = Ret true /\
       In (Log ERROR "Server went away, reconnecting...")
          (since w (after (again e) w)) /\
       chan w = Some first_channel /\
       chan (after (again e) w) = Some (mkChannel 1 1) /\
       clienttags w = [0%nat] /\
       consumed (since w (after (again e) w)) = [1%nat] /\
       clienttags (after (again e) w) = [0%nat; 1%nat] /\
       run (shutdown e) w = Raise (KeyError 0%nat) /\
       cancels (trace (after (shutdown e) w)) = [(mkChannel 1 1, 0%nat)] /\
       tags_of (mkChannel 1 1) (consumers (broker (after (shutdown e) w)))
         = [1%nat] /\
       closings (trace (after (shutdown e) w)) = [] /\
       is_closed (mkChannel 1 1) (broker (after (shutdown e) w)) = false)
    [SocketError; AMQPConnectionException].
Proof.
  cbv zeta.
  apply Forall_cons; [|apply Forall_cons; [|apply Forall_nil]];
    conjs; vm_compute; try reflexivity; auto 10.
Qed.

(** ** Initializing twice *)

(** C3 on the code.  In debug mode, with one binding and one debug
    binding, the first [_init] leaves both in [settings.BINDINGS]; the
    second one, run right after it, appends the debug binding again,
    binds it twice and registers three consumers where the first run
    registered two.  The exchanges, queues and bindings the broker
    holds are the same after both runs. *)
Theorem second_init_repeats_debug_bindings :
  let w0 := start env_one settings_one [Connected; Connected] [] [] in
  let w1 := after (Dispatcher.__init__ true) w0 in
  let w2 := after Dispatcher._init w1 in
  let b := ("events", "ganeti", "ganeti.*.event.op", "update_db")%string in
  let d := ("debug", "ganeti", "#", "dummy_proc")%string in
  run (Dispatcher.__init__ true) w0 = Ret tt /\
  run Dispatcher._init w1 = Ret tt /\
  BINDINGS (settings w0) = [b] /\
  BINDINGS (settings w1) = [b; d] /\
  BINDINGS (settings w2) = [b; d; d] /\
  binds (since w0 w1) = [triple b; triple d] /\
  binds (since w1 w2) = [triple b; triple d; triple d] /\
  consumed (since w0 w1) = [0; 1]%nat /\
  consumed (since w1 w2) = [2; 3; 4]%nat /\
  exchanges (broker w2) = exchanges (broker w1) /\
  queues (broker w2) = queues (broker w1) /\
  bound (broker w2) = bound (broker w1).
Proof.
  cbv zeta. conjs; vm_compute; reflexivity.
Qed.

(** C5 at three refusals followed by a success. *)
Lemma connect_retries_until_connected_witness :
  let w := start env_one settings_one
             (repeat (Refused SocketError) 3 ++ Connected :: []) [] [] in
  (attempts w = repeat (Refused SocketError) 3 ++ Connected :: [] /\
   (3 < 5)%nat) /\
  exists w',
    Dispatcher.connect 5 w = (Ret (next_conn (broker w)), w') /\
    attempts w' = [] /\
    sleeps (trace w') = [1; 1; 1].
Proof.
  cbv zeta. split; [split; [reflexivity|lia]|].
  destruct (proj1 connect_retries_until_connected 3%nat []
              (start env_one settings_one
                 (repeat (Refused SocketError) 3 ++ Connected :: []) [] [])
              5%nat eq_refl)
    as (w' & Hrun & Ha & Ht); [lia|].
  exists w'. split; [exact Hrun|]. split; [exact Ha|].
  rewrite Ht. reflexivity.
Defined.

(** * Further properties of the code *)

(** ** The confirmation prompt *)

(** [get_user_confirmation] accepts the answers [Y] and [y] and no
    other: an empty line, [yes] or anything else declines; at the end
    of the input [raw_input] raises [EOFError]. *)
Theorem confirmation_accepts_only_Y_and_y :
  (forall w ans more,
      stdin w = ans :: more ->
      exists w',
        get_user_confirmation w =
          (Ret (String.eqb ans "Y" || String.eqb ans "y"), w') /\
        stdin w' = more /\
        trace w' = trace w ++ [RawInput "Are you sure (N/y):"]) /\
  (forall w,
      stdin w = [] ->
      run get_user_confirmation w = Raise EOFError) /\
  (forall ans, confirms ans = true <-> ans = "Y"%string \/ ans = "y"%string).
Proof.
  split; [|split].
  - intros w ans more H. rewrite (get_user_confirmation_runs w ans more H).
    eexists. split.
    + unfold confirms. cbn. rewrite orb_false_r. reflexivity.
    + split; reflexivity.
  - intros w H. unfold run, get_user_confirmation, raw_input. step.
    rewrite H. reflexivity.
  - intros ans. unfold confirms. cbn.
    rewrite orb_false_r, orb_true_iff, !String.eqb_eq. tauto.
Qed.

Lemma confirmation_accepts_only_Y_and_y_witness :
  let w := start env_one settings_one [] ["yes"%string] [] in
  stdin w = "yes"%string :: [] /\
  exists w',
    get_user_confirmation w = (Ret false, w') /\ stdin w' = [].
Proof.
  cbv zeta. split; [reflexivity|].
  destruct (proj1 confirmation_accepts_only_Y_and_y
              (start env_one settings_one [] ["yes"%string] [])
              "yes"%string [] eq_refl) as (w' & Hrun & Hs & _).
  exists w'. split; assumption.
Defined.

(** ** Declining a purge *)

(** When the user declines, [purge_queues] asks the broker for no
    deletion and leaves its topology as it is; the connection it has
    opened before the prompt is not closed. *)
Theorem purge_queues_declined_deletes_nothing :
  forall w ans more rest,
    attempts w = Connected :: rest ->
    stdin w = ans :: more ->
    confirms ans = false ->
    exists w',
      purge_queues w = (Ret tt, w') /\
      trace w' =
        trace w
          ++ [AmqpConnect (RABBIT_HOST (settings w)) (RABBIT_USERNAME (settings w))
                (RABBIT_PASSWORD (settings w)) (RABBIT_VHOST (settings w));
              OpenChannel (mkChannel (next_conn (broker w)) (next_chan (broker w)));
              Stdout ("Queues to be deleted:  "
                      +++ repr_list (QUEUES (settings w)));
              RawInput "Are you sure (N/y):"] /\
      exchanges (broker w') = exchanges (broker w) /\
      queues (broker w') = queues (broker w) /\
      bound (broker w') = bound (broker w) /\
      closed_conns (broker w') = closed_conns (broker w).
Proof.
  intros w ans more rest Ha Hs Hn.
  unfold purge_queues, get_connection.
  rewrite (bind_Ret _ _ _ _ _ (amqp_Connection_connected w rest Ha)).
  rewrite (bind_Ret _ _ _ _ _ (conn_channel_runs _ _)).
  erewrite (bind_Ret (gets settings)) by reflexivity.
  erewrite (bind_Ret (print _)) by reflexivity.
  erewrite (bind_Ret get_user_confirmation) by
    (apply get_user_confirmation_runs; exact Hs).
  rewrite Hn. cbn [negb].
  eexists. split; [reflexivity|]. cbn. rewrite <- !app_assoc.
  conjs; reflexivity.
Qed.

Lemma purge_queues_declined_deletes_nothing_witness :
  let w := purge_world env_refuses_A [EmptyString] [Connected] in
  (attempts w = Connected :: [] /\ stdin w = EmptyString :: [] /\
   confirms EmptyString = false) /\
  exists w',
    purge_queues w = (Ret tt, w') /\
    queues (broker w') = ["qA"; "qB"]%string /\
    closed_conns (broker w') = [].
Proof.
  cbv zeta. split; [conjs; reflexivity|].
  destruct (purge_queues_declined_deletes_nothing
              (purge_world env_refuses_A [EmptyString] [Connected])
              EmptyString [] [] eq_refl eq_refl eq_refl)
    as (w' & Hrun & _ & _ & Hq & _ & Hc).
  exists w'. conjs; assumption.
Defined.

(** ** Draining: the early returns *)

(** [drain_queue] returns at once for an empty name; for a name that
    is not among the configured queues it prints that the queue is
    not configured and returns, without a prompt and without a
    connection. *)
Theorem drain_queue_rejects_unconfigured :
  (forall incoming w, drain_queue EmptyString incoming w = (Ret tt, w)) /\
  (forall queue incoming w,
      queue <> EmptyString ->
      mem queue (QUEUES (settings w)) = false ->
      drain_queue queue incoming w =
      (Ret tt,
       set_trace
         (trace w ++ [Stdout ("Queue " +++ queue +++ " not configured")]) w)).
Proof.
  split.
  - reflexivity.
  - intros queue incoming w Hq Hm. unfold drain_queue.
    apply String.eqb_neq in Hq. rewrite Hq.
    erewrite (bind_Ret (gets settings)) by reflexivity.
    rewrite Hm. reflexivity.
Qed.

Lemma drain_queue_rejects_unconfigured_witness :
  let w := start env_one settings_one [Connected] ["y"%string] [] in
  ("other"%string <> EmptyString /\
   mem "other" (QUEUES (settings w)) = false) /\
  drain_queue "other" [] w =
  (Ret tt, set_trace [Stdout "Queue other not configured"] w).
Proof.
  cbv zeta. split; [split; [discriminate|reflexivity]|].
  apply (proj2 drain_queue_rejects_unconfigured "other"%string []
           (start env_one settings_one [Connected] ["y"%string] [])).
  - discriminate.
  - reflexivity.
Defined.

(** ** The wait loop *)

Lemma chan_wait_open c o w :
  is_closed c (broker w) = false ->
  chan_wait c o w =
  end_of_call o SocketError (set_trace (trace w ++ [ChanWait c]) w).
Proof.
  intros Ho. unfold chan_wait, use_channel. step. rewrite Ho. reflexivity.
Qed.

Lemma deliver_to_exit s w :
  on_SIGINT w = exit_handler ->
  on_SIGTERM w = exit_handler ->
  deliver s w =
  (Raise (SystemExit 0),
   set_trace (trace w ++ [Stdout (exit_line (getpid (env w)) s)]) w).
Proof.
  intros Hi Ht. unfold deliver, gets, bind.
  destruct s; [rewrite Hi|rewrite Ht]; reflexivity.
Qed.

Lemma wait_round_message c w :
  chan w = Some c ->
  is_closed c (broker w) = false ->
  Dispatcher.wait_round (Some Completes) w =
  (Ret true, set_trace (trace w ++ [ChanWait c]) w).
Proof.
  intros Hc Ho. unfold Dispatcher.wait_round, try_except.
  rewrite (bind_Ret _ _ _ _ _ (self_chan_some "wait" w c Hc)).
  unfold bind. rewrite (chan_wait_open c _ w Ho). reflexivity.
Qed.

Lemma wait_round_signal c s w :
  chan w = Some c ->
  is_closed c (broker w) = false ->
  on_SIGINT w = exit_handler ->
  on_SIGTERM w = exit_handler ->
  Dispatcher.wait_round (Some (Interrupted s)) w =
  (Ret false,
   set_trace
     (trace w ++ [ChanWait c; Stdout (exit_line (getpid (env w)) s)]) w).
Proof.
  intros Hc Ho Hi Ht. unfold Dispatcher.wait_round, try_except.
  rewrite (bind_Ret _ _ _ _ _ (self_chan_some "wait" w c Hc)).
  unfold bind. rewrite (chan_wait_open c _ w Ho).
  unfold end_of_call, bind.
  rewrite deliver_to_exit by assumption.
  cbn. rewrite <- !app_assoc. reflexivity.
Qed.

Lemma wait_round_unhandled c e w :
  chan w = Some c ->
  is_closed c (broker w) = false ->
  handled_by_wait e = false ->
  Dispatcher.wait_round (Some (Raises e)) w =
  (Raise e, set_trace (trace w ++ [ChanWait c]) w).
Proof.
  intros Hc Ho He. unfold Dispatcher.wait_round, try_except.
  rewrite (bind_Ret _ _ _ _ _ (self_chan_some "wait" w c Hc)).
  unfold bind. rewrite (chan_wait_open c _ w Ho).
  destruct e; try discriminate; reflexivity.
Qed.

Lemma wait_loop_messages c : forall n w tail,
  chan w = Some c ->
  is_closed c (broker w) = false ->
  Dispatcher.wait_loop (repeat Completes n ++ tail) w =
  Dispatcher.wait_loop tail
    (set_trace (trace w ++ repeat (ChanWait c) n) w).
Proof.
  induction n as [|n IH]; intros w tail Hc Ho.
  - cbn. rewrite app_nil_r. now destruct w.
  - cbn [repeat app Dispatcher.wait_loop].
    rewrite (bind_Ret _ _ _ _ _ (wait_round_message c w Hc Ho)).
    rewrite IH by assumption. cbn. rewrite <- !app_assoc. reflexivity.
Qed.

Lemma wait_loop_until_signal c n s rest w :
  chan w = Some c ->
  is_closed c (broker w) = false ->
  on_SIGINT w = exit_handler ->
  on_SIGTERM w = exit_handler ->
  Dispatcher.wait_loop (repeat Completes n ++ Interrupted s :: rest) w =
  (Ret tt,
   set_trace
     (trace w ++ repeat (ChanWait c) (S n)
              ++ [Stdout (exit_line (getpid (env w)) s)]) w).
Proof.
  intros Hc Ho Hi Ht.
  rewrite (wait_loop_messages c n w _ Hc Ho).
  cbn [Dispatcher.wait_loop].
  erewrite bind_Ret by (apply (wait_round_signal c s); assumption).
  cbn. rewrite <- !app_assoc.
  replace (repeat (ChanWait c) n ++ [ChanWait c; Stdout (exit_line (getpid (env w)) s)])
    with (ChanWait c :: repeat (ChanWait c) n ++ [Stdout (exit_line (getpid (env w)) s)]);
    [reflexivity|].
  clear. induction n; cbn; [reflexivity|]. now rewrite <- IHn.
Qed.

Lemma wait_until_signal_runs :
  forall n s rest w c,
    chan w = Some c ->
    is_closed c (broker w) = false ->
    on_SIGINT w = exit_handler ->
    on_SIGTERM w = exit_handler ->
    NoDup (clienttags w) ->
    (forall t, In t (clienttags w) ->
               In t (tags_of c (consumers (broker w)))) ->
    exists w',
      Dispatcher.wait (repeat Completes n ++ Interrupted s :: rest) w
        = (Ret tt, w') /\
      trace w' =
        trace w
          ++ repeat (ChanWait c) (S n)
          ++ [Stdout (exit_line (getpid (env w)) s)]
          ++ map (BasicCancel c) (clienttags w)
          ++ [ConnectionClose (ch_conn c); ChannelClose c] /\
      filter (fun k => channel_eqb (c_chan k) c) (consumers (broker w')) = [].
Proof.
  intros n s rest w c Hc Ho Hi Ht Hnd Hin.
  unfold Dispatcher.wait.
  rewrite (bind_Ret _ _ _ _ _ (wait_loop_until_signal c n s rest w Hc Ho Hi Ht)).
  match goal with |- context [?m ?w1 = _] =>
    destruct (drain_after_loop c w1 Hc Ho Hnd Hin) as (w' & Hrun & Htr & Hk)
  end.
  exists w'. split; [exact Hrun|]. split.
  - rewrite Htr. cbn [trace set_trace clienttags].
    rewrite <- !app_assoc. reflexivity.
  - rewrite Hk. apply no_consumer_on_closed_connection.
Qed.

(** A worker that has its channel open and [_exit_handler] installed,
    and whose recorded tags are tags of consumers of that channel,
    each recorded once, handles the messages one after the other and,
    when SIGINT or SIGTERM arrives, prints the signal, cancels its
    consumers, closes the connection and the channel and returns; what
    the broker would have delivered after the signal is not waited
    for. *)
Theorem wait_handles_messages_until_signal :
  forall n s rest w c,
    chan w = Some c ->
    is_closed c (broker w) = false ->
    on_SIGINT w = exit_handler ->
    on_SIGTERM w = exit_handler ->
    NoDup (clienttags w) ->
    (forall t, In t (clienttags w) ->
               In t (tags_of c (consumers (broker w)))) ->
    exists w',
      Dispatcher.wait (repeat Completes n ++ Interrupted s :: rest) w
        = (Ret tt, w') /\
      trace w' =
        trace w
          ++ repeat (ChanWait c) (S n)
          ++ [Stdout (exit_line (getpid (env w)) s)]
          ++ map (BasicCancel c) (clienttags w)
          ++ [ConnectionClose (ch_conn c); ChannelClose c] /\
      filter (fun k => channel_eqb (c_chan k) c) (consumers (broker w')) = [].
Proof. exact wait_until_signal_runs. Qed.

Lemma wait_handles_messages_until_signal_witness :
  let w := worker_up false [Connected] in
  (chan w = Some first_channel /\ is_closed first_channel (broker w) = false /\
   on_SIGINT w = exit_handler /\ on_SIGTERM w = exit_handler /\
   NoDup (clienttags w) /\
   (forall t, In t (clienttags w) ->
              In t (tags_of first_channel (consumers (broker w))))) /\
  exists w',
    Dispatcher.wait (repeat Completes 2 ++ Interrupted SIGINT :: [Completes]) w
      = (Ret tt, w') /\
    consumers (broker w') = [].
Proof.
  cbv zeta.
  assert (Hnd : NoDup (clienttags (worker_up false [Connected]))).
  { vm_compute. apply NoDup_cons; [intros []|apply NoDup_nil]. }
  assert (Hin : forall t, In t (clienttags (worker_up false [Connected])) ->
                  In t (tags_of first_channel
                          (consumers (broker (worker_up false [Connected]))))).
  { assert (Hg : clienttags (worker_up false [Connected]) = [0%nat])
      by (vm_compute; reflexivity).
    assert (Hk : tags_of first_channel
                   (consumers (broker (worker_up false [Connected])))
                 = [0%nat]) by (vm_compute; reflexivity).
    intros t Ht. rewrite Hg in Ht. rewrite Hk. exact Ht. }
  split; [conjs; try (vm_compute; reflexivity); assumption|].
  destruct (wait_handles_messages_until_signal 2 SIGINT [Completes]
              (worker_up false [Connected]) first_channel)
    as (w' & Hrun & _ & _); [vm_compute; reflexivity ..|exact Hnd|exact Hin|].
  exists w'. split; [exact Hrun|].
  apply (f_equal snd) in Hrun. cbn [snd] in Hrun. subst w'.
  vm_compute. reflexivity.
Defined.

(** An exception of [chan.wait()] other than [SystemExit],
    [AMQPConnectionException] and [socket.error] (an exception of a
    callback, an [AMQPChannelException], [KeyboardInterrupt]) leaves
    [wait] as it is: no consumer is cancelled and nothing is closed. *)
Theorem wait_lets_other_exceptions_through :
  forall n e rest w c,
    chan w = Some c ->
    is_closed c (broker w) = false ->
    handled_by_wait e = false ->
    Dispatcher.wait (repeat Completes n ++ Raises e :: rest) w =
    (Raise e, set_trace (trace w ++ repeat (ChanWait c) (S n)) w).
Proof.
  intros n e rest w c Hc Ho He. unfold Dispatcher.wait.
  apply bind_Raise.
  rewrite (wait_loop_messages c n w _ Hc Ho).
  cbn [Dispatcher.wait_loop]. apply bind_Raise.
  erewrite wait_round_unhandled by (cbn; eassumption).
  cbn. rewrite <- !app_assoc.
  replace (repeat (ChanWait c) n ++ [ChanWait c])
    with (ChanWait c :: repeat (ChanWait c) n); [reflexivity|].
  clear. induction n; cbn; [reflexivity|]. now rewrite <- IHn.
Qed.

Lemma wait_lets_other_exceptions_through_witness :
  let w := worker_up false [Connected] in
  (chan w = Some first_channel /\ is_closed first_channel (broker w) = false /\
   handled_by_wait (AMQPChannelException 404 "NOT_FOUND") = false) /\
  Dispatcher.wait (repeat Completes 1 ++ [Raises (AMQPChannelException 404 "NOT_FOUND")]) w =
  (Raise (AMQPChannelException 404 "NOT_FOUND"),
   set_trace (trace w ++ repeat (ChanWait first_channel) 2) w).
Proof.
  cbv zeta. split; [conjs; vm_compute; reflexivity|].
  apply (wait_lets_other_exceptions_through 1
           (AMQPChannelException 404 "NOT_FOUND") []
           (worker_up false [Connected]) first_channel);
    vm_compute; reflexivity.
Defined.

(** ** Draining a bound queue *)

Lemma find_exch_snoc queue l b :
  find_exch queue (l ++ [b]) =
  if String.eqb (b_queue b) queue then Some (b_exchange b)
  else find_exch queue l.
Proof. unfold find_exch. rewrite fold_left_app. reflexivity. Qed.

(** The exchange [drain_queue] binds the queue to is the exchange of
    the last configured binding that names the queue; the variable
    stays unassigned exactly when no binding names it. *)
Theorem find_exch_takes_last_binding :
  (forall queue l1 b l2,
      b_queue b = queue ->
      (forall x, In x l2 -> b_queue x <> queue) ->
      find_exch queue (l1 ++ b :: l2) = Some (b_exchange b)) /\
  (forall queue l,
      find_exch queue l = None <-> forall b, In b l -> b_queue b <> queue).
Proof.
  split.
  - intros queue l1 b l2 Hb Hl2. unfold find_exch.
    rewrite fold_left_app. cbn [fold_left].
    rewrite (proj2 (String.eqb_eq _ _) Hb).
    apply find_exch_unbound. exact Hl2.
  - intros queue l. split.
    + induction l as [|b l IH] using rev_ind; intros H x Hx; [destruct Hx|].
      rewrite find_exch_snoc in H.
      destruct (String.eqb_spec (b_queue b) queue) as [E|E]; [discriminate|].
      apply in_app_or in Hx. destruct Hx as [Hx|[<-|[]]].
      * now apply IH.
      * exact E.
    + intros H. unfold find_exch. now apply find_exch_unbound.
Qed.

Lemma find_exch_takes_last_binding_witness :
  let l1 := [("events", "ganeti", "a", "h")%string] in
  let b := ("events", "other", "b", "h")%string in
  let l2 := [("debug", "ganeti", "#", "h")%string] in
  (b_queue b = "events"%string /\
   (forall x, In x l2 -> b_queue x <> "events"%string)) /\
  find_exch "events" (l1 ++ b :: l2) = Some "other"%string.
Proof.
  cbv zeta.
  assert (H : forall x, In x [("debug", "ganeti", "#", "h")%string] ->
                        b_queue x <> "events"%string)
    by (intros x [<-|[]]; discriminate).
  split; [split; [reflexivity|exact H]|].
  apply (proj1 find_exch_takes_last_binding "events"%string
           [("events", "ganeti", "a", "h")%string]
           ("events", "other", "b", "h")%string
           [("debug", "ganeti", "#", "h")%string] eq_refl H).
Defined.

Lemma drain_loop_messages c : forall n k w tail,
  is_closed c (broker w) = false ->
  drain_loop c (repeat Completes n ++ tail) k w =
  drain_loop c tail (k + Z.of_nat n)
    (set_trace (trace w ++ flat_map (ignored_events c) (counts k n)) w).
Proof.
  induction n as [|n IH]; intros k w tail Ho.
  - cbn. rewrite app_nil_r, Z.add_0_r. now destruct w.
  - cbn [repeat app drain_loop counts flat_map].
    erewrite bind_Ret by (rewrite (chan_wait_open c _ w Ho); reflexivity).
    erewrite bind_Ret by reflexivity.
    rewrite IH by exact Ho. cbn.
    rewrite <- !app_assoc. cbn.
    replace (k + 1 + Z.of_nat n) with (k + Z.pos (Pos.of_succ_nat n)) by lia.
    reflexivity.
Qed.

Lemma drain_loop_never_returns c : forall incoming k w,
  run (drain_loop c incoming k) w <> Ret tt.
Proof.
  unfold run. induction incoming as [|o rest IH]; intros k w.
  - cbn [drain_loop]. unfold bind.
    destruct (chan_wait c None w) as [[[]| | |] ?]; cbn; discriminate.
  - cbn [drain_loop]. unfold bind at 1.
    destruct (chan_wait c (Some o) w) as [[[]| | |] w1];
      try (cbn; discriminate).
    erewrite bind_Ret by reflexivity. apply IH.
Qed.

Lemma queue_bind_open c q x k w :
  is_closed c (broker w) = false ->
  queue_bind c q x k w =
  (Ret tt,
   set_broker
     (with_topology (exchanges (broker w)) (queues (broker w))
        (declare_binding (q, x, k) (bound (broker w))) (broker w))
     (set_trace (trace w ++ [QueueBind c q x k]) w)).
Proof.
  intros Ho. unfold queue_bind, use_channel. step. rewrite Ho. reflexivity.
Qed.

Lemma basic_consume_open c q f w :
  is_closed c (broker w) = false ->
  basic_consume c q f w =
  (Ret (next_tag (broker w)),
   set_broker
     (with_counters (next_conn (broker w)) (next_chan (broker w))
        (S (next_tag (broker w)))
        (with_consumers
           (consumers (broker w)
              ++ [mkConsumer c (next_tag (broker w)) q f]) (broker w)))
     (set_trace (trace w ++ [BasicConsume c q f (next_tag (broker w))]) w)).
Proof.
  intros Ho. unfold basic_consume, use_channel. step. rewrite Ho. reflexivity.
Qed.

Lemma new_channel_open b :
  well_formed b = true ->
  is_closed (mkChannel (next_conn b) (next_chan b)) b = false.
Proof.
  intros H. destruct (well_formed_below b H) as [Hb Hc].
  unfold is_closed. rewrite (fresh_channel_open _ _ _ Hb). exact Hc.
Qed.

(** Bring a world built by nested updates back to one record. *)
Ltac flatten :=
  cbn [set_settings set_chan set_debug set_clienttags set_children
       set_handler set_broker set_attempts set_stdin set_forks set_trace
       env settings chan debug clienttags children on_SIGINT on_SIGTERM
       broker attempts stdin forks trace
       with_topology with_consumers with_closed with_counters
       exchanges queues bound consumers closed closed_conns
       next_conn next_chan next_tag].

Ltac run_head tac := erewrite bind_Ret by tac; flatten.

(** For a configured queue that a binding names, once the user has
    confirmed, [drain_queue] binds the queue to its exchange under the
    key [#], registers [dummy_proc] as its consumer and installs
    [_exit_handler]; it then counts the messages on standard error, one
    line per message, until SIGINT or SIGTERM ends it with
    [SystemExit].  The loop never returns, so the consumer is never
    cancelled and the connection never closed. *)
Theorem drain_queue_discards_until_signal :
  (forall c incoming k w, run (drain_loop c incoming k) w <> Ret tt) /\
  (forall queue exch n s rest w ans more att,
      queue <> EmptyString ->
      mem queue (QUEUES (settings w)) = true ->
      find_exch queue (BINDINGS (settings w)) = Some exch ->
      exch <> EmptyString ->
      stdin w = ans :: more ->
      confirms ans = true ->
      attempts w = Connected :: att ->
      well_formed (broker w) = true ->
      exists w',
        drain_queue queue (repeat Completes n ++ Interrupted s :: rest) w
          = (Raise (SystemExit 0), w') /\
        trace w' =
          trace w
            ++ [Stdout ("Queue to be drained: " +++ queue);
                RawInput "Are you sure (N/y):";
                AmqpConnect (RABBIT_HOST (settings w))
                  (RABBIT_USERNAME (settings w)) (RABBIT_PASSWORD (settings w))
                  (RABBIT_VHOST (settings w));
                OpenChannel
                  (mkChannel (next_conn (broker w)) (next_chan (broker w)));
                QueueBind
                  (mkChannel (next_conn (broker w)) (next_chan (broker w)))
                  queue exch "#";
                BasicConsume
                  (mkChannel (next_conn (broker w)) (next_chan (broker w)))
                  queue "dummy_proc" (next_tag (broker w));
                Stdout "Queue draining about to start, hit Ctrl+c when done";
                Sleep 2;
                Stdout "Queue draining starting";
                SignalInstall SIGTERM exit_handler;
                SignalInstall SIGINT exit_handler]
            ++ flat_map
                 (ignored_events
                    (mkChannel (next_conn (broker w)) (next_chan (broker w))))
                 (counts 0 n)
            ++ [ChanWait
                  (mkChannel (next_conn (broker w)) (next_chan (broker w)));
                Stdout (exit_line (getpid (env w)) s)] /\
        In (queue, exch, "#"%string) (bound (broker w')) /\
        In (mkConsumer
              (mkChannel (next_conn (broker w)) (next_chan (broker w)))
              (next_tag (broker w)) queue "dummy_proc")
           (consumers (broker w')) /\
        closed_conns (broker w') = closed_conns (broker w)).
Proof.
  split; [apply drain_loop_never_returns|].
  intros queue exch n s rest w ans more att Hq Hm Hf Hx Hs Hy Ha Hwf.
  pose proof (new_channel_open _ Hwf) as Ho.
  apply String.eqb_neq in Hq. apply String.eqb_neq in Hx.
  eexists. split.
  - unfold drain_queue. rewrite Hq.
    run_head reflexivity.
    rewrite Hm. cbn [negb].
    unfold print at 1. run_head reflexivity.
    run_head ltac:(apply get_user_confirmation_runs; exact Hs).
    rewrite Hy. cbn [negb]. unfold get_connection.
    run_head ltac:(apply amqp_Connection_connected with (rest := att);
                   exact Ha).
    run_head ltac:(apply conn_channel_runs).
    run_head reflexivity.
    rewrite Hf, Hx.
    run_head ltac:(apply queue_bind_open; exact Ho).
    run_head ltac:(apply basic_consume_open; exact Ho).
    unfold print at 1. run_head reflexivity.
    unfold sleep at 1. run_head reflexivity.
    unfold print at 1. run_head reflexivity.
    run_head reflexivity.
    run_head reflexivity.
    apply bind_Raise.
    rewrite drain_loop_messages by exact Ho. flatten.
    cbn [drain_loop]. apply bind_Raise.
    rewrite chan_wait_open by exact Ho. flatten.
    unfold end_of_call. apply bind_Raise.
    rewrite deliver_to_exit by reflexivity. flatten.
    reflexivity.
  - flatten. rewrite <- !app_assoc. split; [reflexivity|].
    split; [|split; [|reflexivity]].
    + apply declare_binding_In. now left.
    + apply in_or_app. right. now left.
Qed.

Lemma drain_queue_discards_until_signal_witness :
  let w := start env_one settings_one [Connected] ["Y"%string] [] in
  ("events"%string <> EmptyString /\
   mem "events" (QUEUES (settings w)) = true /\
   find_exch "events" (BINDINGS (settings w)) = Some "ganeti"%string /\
   "ganeti"%string <> EmptyString /\
   stdin w = "Y"%string :: [] /\ confirms "Y" = true /\
   attempts w = Connected :: [] /\ well_formed (broker w) = true) /\
  exists w',
    drain_queue "events" (repeat Completes 2 ++ Interrupted SIGINT :: []) w
      = (Raise (SystemExit 0), w') /\
    In ("events", "ganeti", "#")%string (bound (broker w')).
Proof.
  cbv zeta.
  assert (H1 : "events"%string <> EmptyString) by discriminate.
  assert (H2 : "ganeti"%string <> EmptyString) by discriminate.
  split; [conjs; try reflexivity; assumption|].
  destruct (proj2 drain_queue_discards_until_signal "events"%string
              "ganeti"%string 2%nat SIGINT []
              (start env_one settings_one [Connected] ["Y"%string] [])
              "Y"%string [] [] H1 eq_refl eq_refl H2 eq_refl eq_refl eq_refl
              eq_refl)
    as (w' & Hrun & _ & Hb & _).
  exists w'. split; assumption.
Defined.

(** ** Initialization *)

Lemma exchange_declare_all c : forall l w,
  is_closed c (broker w) = false ->
  for_each l (fun exchange => exchange_declare c exchange) w =
  (Ret tt,
   set_broker
     (with_topology (declare_all l (exchanges (broker w))) (queues (broker w))
        (bound (broker w)) (broker w))
     (set_trace (trace w ++ map (ExchangeDeclare c) l) w)).
Proof.
  induction l as [|x l IH]; intros w Ho.
  - cbn. rewrite app_nil_r. destruct w as [? ? ? ? ? ? ? ? b ? ? ? ?].
    now destruct b.
  - cbn [for_each]. unfold exchange_declare at 1, use_channel.
    step. rewrite Ho. cbn. rewrite IH by exact Ho. flatten. cbn.
    rewrite <- !app_assoc. reflexivity.
Qed.

Lemma queue_declare_all c : forall l w,
  is_closed c (broker w) = false ->
  for_each l (fun queue => queue_declare c queue) w =
  (Ret tt,
   set_broker
     (with_topology (exchanges (broker w)) (declare_all l (queues (broker w)))
        (bound (broker w)) (broker w))
     (set_trace (trace w ++ map (QueueDeclare c) l) w)).
Proof.
  induction l as [|x l IH]; intros w Ho.
  - cbn. rewrite app_nil_r. destruct w as [? ? ? ? ? ? ? ? b ? ? ? ?].
    now destruct b.
  - cbn [for_each]. unfold queue_declare at 1, use_channel.
    step. rewrite Ho. cbn. rewrite IH by exact Ho. flatten. cbn.
    rewrite <- !app_assoc. reflexivity.
Qed.

Lemma registration_world c : forall l w,
  chan w = Some c ->
  is_closed c (broker w) = false ->
  for_each l Dispatcher.bind_one w =
  (Ret tt,
   set_clienttags
     (clienttags w
        ++ map snd (registered (callbacks (env w)) (next_tag (broker w)) l))
     (set_trace
        (trace w
           ++ registration (callbacks (env w)) c (next_tag (broker w)) l)
        (set_broker
           (with_counters (next_conn (broker w)) (next_chan (broker w))
              (next_tag (broker w)
                 + List.length
                     (registered (callbacks (env w)) (next_tag (broker w)) l))%nat
              (with_consumers
                 (consumers (broker w)
                    ++ map (consumer_of c)
                         (registered (callbacks (env w))
                            (next_tag (broker w)) l))
                 (with_topology (exchanges (broker w)) (queues (broker w))
                    (bind_all (filter (resolves (callbacks (env w))) l)
                       (bound (broker w)))
                    (broker w))))
           w))).
Proof.
  induction l as [|b l IH]; intros w Hc Ho.
  - cbn. rewrite !app_nil_r, Nat.add_0_r.
    destruct w as [? ? ? ? ? ? ? ? br ? ? ? ?]. now destruct br.
  - cbn [for_each registration registered filter].
    destruct (resolves (callbacks (env w)) b) eqn:Hr.
    + rewrite (bind_Ret _ _ _ _ _ (bind_one_resolved b w c Hc Ho Hr)).
      rewrite IH; [|exact Hc|exact Ho]. flatten.
      cbn [map snd List.length bind_all fold_left].
      rewrite <- !app_assoc, Nat.add_succ_r. reflexivity.
    + rewrite (bind_Ret _ _ _ _ _ (bind_one_unresolved b w Hr)).
      rewrite IH; [|exact Hc|exact Ho]. flatten.
      rewrite <- !app_assoc. reflexivity.
Qed.

Lemma connect_succeeds k rest w :
  attempts w = repeat (Refused SocketError) k ++ Connected :: rest ->
  Dispatcher.connect (S (List.length (attempts w))) w =
  (Ret (next_conn (broker w)),
   set_broker
     (with_counters (S (next_conn (broker w))) (next_chan (broker w))
        (next_tag (broker w)) (broker w))
     (set_trace
        (trace w ++ concat (repeat (retry_events (settings w)) k)
                 ++ attempt_events (settings w))
        (set_attempts rest w))).
Proof.
  intros H.
  rewrite (connect_after_refusals k _ w _ H)
    by (rewrite H, length_app, repeat_length; lia).
  rewrite H, length_app, repeat_length. cbn [List.length].
  replace (S (k + S (List.length rest)) - k)%nat
    with (S (S (List.length rest))) by lia.
  rewrite (connect_connected _ _ rest) by reflexivity.
  flatten. rewrite <- !app_assoc. reflexivity.
Qed.

Lemma queue_declare_open c q w :
  is_closed c (broker w) = false ->
  queue_declare c q w =
  (Ret tt,
   set_broker
     (with_topology (exchanges (broker w)) (declare q (queues (broker w)))
        (bound (broker w)) (broker w))
     (set_trace (trace w ++ [QueueDeclare c q]) w)).
Proof.
  intros Ho. unfold queue_declare, use_channel. step. rewrite Ho. reflexivity.
Qed.

Lemma well_formed_grows b b' :
  well_formed b = true ->
  closed b' = closed b ->
  closed_conns b' = closed_conns b ->
  (next_chan b <= next_chan b')%nat ->
  (next_conn b <= next_conn b')%nat ->
  well_formed b' = true.
Proof.
  unfold well_formed. intros H Hc Hcc Hn Hm.
  apply andb_true_iff in H. destruct H as [H1 H2].
  rewrite Hc, Hcc. apply andb_true_iff. split.
  - rewrite forallb_forall in *. intros x Hx. specialize (H1 x Hx).
    apply Nat.ltb_lt in H1. apply Nat.ltb_lt. lia.
  - rewrite forallb_forall in *. intros x Hx. specialize (H2 x Hx).
    apply Nat.ltb_lt in H2. apply Nat.ltb_lt. lia.
Qed.

Lemma init_runs :
  forall k rest w,
    attempts w = repeat (Refused SocketError) k ++ Connected :: rest ->
    well_formed (broker w) = true ->
    exists w',
      Dispatcher._init w = (Ret tt, w') /\
      chan w' = Some (next_channel w) /\
      attempts w' = rest /\
      trace w' = trace w ++ init_events w k /\
      BINDINGS (settings w') = effective_bindings w /\
      exchanges (broker w') =
        declare_all (EXCHANGES (settings w)) (exchanges (broker w)) /\
      queues (broker w') =
        declare_all (declared_queues w) (queues (broker w)) /\
      bound (broker w') =
        bind_all (filter (resolves (callbacks (env w))) (effective_bindings w))
          (bound (broker w)) /\
      consumers (broker w') =
        consumers (broker w)
          ++ map (consumer_of (next_channel w))
               (registered (callbacks (env w)) (next_tag (broker w))
                  (effective_bindings w)) /\
      clienttags w' =
        clienttags w
          ++ map snd (registered (callbacks (env w)) (next_tag (broker w))
                        (effective_bindings w)) /\
      well_formed (broker w') = true /\
      is_closed (next_channel w) (broker w') = false /\
      env w' = env w /\ debug w' = debug w /\
      on_SIGINT w' = on_SIGINT w /\ on_SIGTERM w' = on_SIGTERM w /\
      settings w' = with_BINDINGS (effective_bindings w) (settings w) /\
      closed_conns (broker w') = closed_conns (broker w) /\
      stdin w' = stdin w /\ forks w' = forks w /\ children w' = children w /\
      next_tag (broker w') =
        (next_tag (broker w)
           + List.length (registered (callbacks (env w)) (next_tag (broker w))
                            (effective_bindings w)))%nat.
Proof.
  intros k rest w Ha Hwf.
  pose proof (new_channel_open _ Hwf) as Ho. fold (next_channel w) in Ho.
  unfold Dispatcher._init.
  unfold log at 1. run_head reflexivity.
  run_head reflexivity.
  run_head ltac:(exact (connect_succeeds k rest
                          (set_trace (trace w ++ [Log INFO "Initializing"]) w)
                          Ha)).
  unfold log at 1. run_head reflexivity.
  run_head ltac:(apply conn_channel_runs).
  fold (next_channel w).
  run_head reflexivity.
  run_head reflexivity.
  run_head ltac:(apply exchange_declare_all; exact Ho).
  run_head ltac:(apply queue_declare_all; exact Ho).
  run_head reflexivity.
  unfold init_events, effective_bindings, declared_queues, debugging.
  destruct (debug w && DEBUG (settings w)) eqn:D.
  - run_head ltac:(erewrite bind_Ret by (apply queue_declare_open; exact Ho);
                   reflexivity).
    run_head reflexivity.
    rewrite (registration_world (next_channel w)); [|reflexivity|exact Ho].
    flatten. eexists. split; [reflexivity|]. flatten.
    unfold declare_all. rewrite fold_left_app, map_app. cbn [fold_left map].
    rewrite <- !app_assoc. cbn [app].
    conjs; try reflexivity.
    + eapply well_formed_grows; [exact Hwf|reflexivity|reflexivity|cbn; lia ..].
    + exact Ho.
  - run_head reflexivity.
    run_head reflexivity.
    rewrite (registration_world (next_channel w)); [|reflexivity|exact Ho].
    flatten. eexists. split; [reflexivity|]. flatten.
    rewrite <- !app_assoc. cbn [app].
    conjs; try reflexivity.
    + eapply well_formed_grows; [exact Hwf|reflexivity|reflexivity|cbn; lia ..].
    + exact Ho.
    + now destruct (settings w).
Qed.

(** [_init] returns as soon as an attempt to connect succeeds.  It
    opens one new channel and makes it the channel of the dispatcher;
    it declares every configured exchange and queue and, when both
    [self.debug] and [settings.DEBUG] hold, the debug queue; it binds
    and consumes every binding whose handler exists, the debug
    bindings after the configured ones; it appends the tags it got to
    the recorded ones.  What the broker held before is still there.
    [settings.BINDINGS] is extended by the debug bindings in debug
    mode and is left alone otherwise. *)
Theorem init_declares_and_registers :
  forall k rest w,
    attempts w = repeat (Refused SocketError) k ++ Connected :: rest ->
    well_formed (broker w) = true ->
    exists w',
      Dispatcher._init w = (Ret tt, w') /\
      chan w' = Some (next_channel w) /\
      attempts w' = rest /\
      trace w' = trace w ++ init_events w k /\
      BINDINGS (settings w') = effective_bindings w /\
      exchanges (broker w') =
        declare_all (EXCHANGES (settings w)) (exchanges (broker w)) /\
      queues (broker w') =
        declare_all (declared_queues w) (queues (broker w)) /\
      bound (broker w') =
        bind_all (filter (resolves (callbacks (env w))) (effective_bindings w))
          (bound (broker w)) /\
      consumers (broker w') =
        consumers (broker w)
          ++ map (consumer_of (next_channel w))
               (registered (callbacks (env w)) (next_tag (broker w))
                  (effective_bindings w)) /\
      clienttags w' =
        clienttags w
          ++ map snd (registered (callbacks (env w)) (next_tag (broker w))
                        (effective_bindings w)) /\
      well_formed (broker w') = true /\
      is_closed (next_channel w) (broker w') = false.
Proof.
  intros k rest w Ha Hwf.
  destruct (init_runs k rest w Ha Hwf)
    as (w' & H1 & H2 & H3 & H4 & H5 & H6 & H7 & H8 & H9 & H10 & H11 & H12 & _).
  exists w'. conjs; assumption.
Qed.

Lemma init_declares_and_registers_witness :
  let w := set_debug true
             (start env_one settings_one
                [Refused SocketError; Connected] [] []) in
  (attempts w = repeat (Refused SocketError) 1 ++ Connected :: [] /\
   well_formed (broker w) = true) /\
  exists w',
    Dispatcher._init w = (Ret tt, w') /\
    chan w' = Some first_channel /\
    queues (broker w') = ["events"; "debug"]%string /\
    clienttags w' = [0; 1]%nat.
Proof.
  cbv zeta. split; [split; reflexivity|].
  destruct (init_declares_and_registers 1
              [] (set_debug true
                    (start env_one settings_one
                       [Refused SocketError; Connected] [] []))
              eq_refl eq_refl)
    as (w' & Hrun & Hc & _ & _ & _ & _ & Hq & _ & _ & Ht & _).
  exists w'. conjs; assumption.
Defined.

(** ** Initializing again *)

Lemma declare_absorbed x acc : In x acc -> declare x acc = acc.
Proof.
  intros H. unfold declare.
  assert (E : mem x acc = true).
  { unfold mem. apply existsb_exists. exists x. split; [exact H|].
    apply String.eqb_refl. }
  now rewrite E.
Qed.

Lemma declare_In x y acc : In y (declare x acc) <-> y = x \/ In y acc.
Proof.
  unfold declare. destruct (mem x acc) eqn:E.
  - split; [auto|]. intros [->|H]; [|exact H].
    unfold mem in E. apply existsb_exists in E. destruct E as (z & Hz & Hxz).
    apply String.eqb_eq in Hxz. now subst.
  - rewrite in_app_iff. cbn. intuition congruence.
Qed.

Lemma declare_all_In y : forall l acc,
  In y (declare_all l acc) <-> In y acc \/ In y l.
Proof.
  unfold declare_all. induction l as [|x l IH]; intros acc; cbn.
  - tauto.
  - rewrite IH, declare_In. intuition congruence.
Qed.

Lemma declare_all_absorbed : forall l acc,
  (forall x, In x l -> In x acc) -> declare_all l acc = acc.
Proof.
  unfold declare_all. induction l as [|x l IH]; intros acc H; [reflexivity|].
  cbn. rewrite declare_absorbed by (apply H; now left).
  apply IH. intros y Hy. apply H. now right.
Qed.

Lemma declare_binding_absorbed x acc :
  In x acc -> declare_binding x acc = acc.
Proof.
  intros H. unfold declare_binding.
  assert (E : existsb (bind_eqb x) acc = true).
  { apply existsb_exists. exists x. split; [exact H|]. now apply bind_eqb_eq. }
  now rewrite E.
Qed.

Lemma bind_all_absorbed : forall l acc,
  (forall b, In b l -> In (triple b) acc) -> bind_all l acc = acc.
Proof.
  unfold bind_all. induction l as [|b l IH]; intros acc H; [reflexivity|].
  cbn. rewrite declare_binding_absorbed by (apply H; now left).
  apply IH. intros y Hy. apply H. now right.
Qed.

(** Running [_init] a second time, in debug mode or not, leaves the
    exchanges, the queues and the bindings that the broker holds as
    the first run left them. *)
Theorem reinit_leaves_topology_unchanged :
  forall k1 k2 rest w,
    attempts w = repeat (Refused SocketError) k1 ++ Connected ::
                 repeat (Refused SocketError) k2 ++ Connected :: rest ->
    well_formed (broker w) = true ->
    exists w1 w2,
      Dispatcher._init w = (Ret tt, w1) /\
      Dispatcher._init w1 = (Ret tt, w2) /\
      exchanges (broker w2) = exchanges (broker w1) /\
      queues (broker w2) = queues (broker w1) /\
      bound (broker w2) = bound (broker w1).
Proof.
  intros k1 k2 rest w Ha Hwf.
  destruct (init_runs k1 _ w Ha Hwf)
    as (w1 & Hr1 & _ & Ha1 & _ & Hb1 & Hx1 & Hq1 & Hbd1 & _ & _ & Hwf1 & _
        & He1 & Hd1 & _ & _ & Hs1 & _).
  destruct (init_runs k2 rest w1 Ha1 Hwf1)
    as (w2 & Hr2 & _ & _ & _ & _ & Hx2 & Hq2 & Hbd2 & _).
  exists w1, w2. split; [exact Hr1|]. split; [exact Hr2|].
  assert (Hdbg : debugging w1 = debugging w).
  { unfold debugging. rewrite Hd1, Hs1. reflexivity. }
  split; [|split].
  - rewrite Hx2. apply declare_all_absorbed. intros x Hx.
    rewrite Hx1. apply declare_all_In. right.
    rewrite Hs1 in Hx. exact Hx.
  - rewrite Hq2. apply declare_all_absorbed. intros x Hx.
    rewrite Hq1. apply declare_all_In. right.
    unfold declared_queues in *. rewrite Hdbg, Hs1 in Hx. exact Hx.
  - rewrite Hbd2. apply bind_all_absorbed. intros b Hb.
    apply filter_In in Hb. destruct Hb as [Hin Hres].
    rewrite He1 in Hres.
    rewrite Hbd1. apply declared_bindings_In. right. apply in_map.
    apply filter_In. split; [|exact Hres].
    unfold effective_bindings in Hin. rewrite Hdbg, Hs1 in Hin.
    cbn [BINDINGS BINDINGS_DEBUG with_BINDINGS] in Hin.
    destruct (debugging w) eqn:D.
    + unfold effective_bindings in *. rewrite D in *.
      apply in_app_or in Hin. destruct Hin as [Hin|Hin]; [exact Hin|].
      apply in_or_app. now right.
    + exact Hin.
Qed.

Lemma reinit_leaves_topology_unchanged_witness :
  let w := set_debug true
             (start env_one settings_one [Connected; Connected] [] []) in
  (attempts w = repeat (Refused SocketError) 0 ++ Connected ::
                repeat (Refused SocketError) 0 ++ Connected :: [] /\
   well_formed (broker w) = true) /\
  exists w1 w2,
    Dispatcher._init w = (Ret tt, w1) /\
    Dispatcher._init w1 = (Ret tt, w2) /\
    bound (broker w2) = bound (broker w1).
Proof.
  cbv zeta. split; [split; reflexivity|].
  destruct (reinit_leaves_topology_unchanged 0 0 []
              (set_debug true
                 (start env_one settings_one [Connected; Connected] [] []))
              eq_refl eq_refl)
    as (w1 & w2 & H1 & H2 & _ & _ & H3).
  exists w1, w2. conjs; assumption.
Defined.

(** ** The tags of a registration *)

Lemma registered_tags_ge cbs : forall l t x,
  In x (map snd (registered cbs t l)) -> (t <= x)%nat.
Proof.
  induction l as [|b l IH]; intros t x H; [destruct H|].
  cbn [registered] in H. destruct (resolves cbs b).
  - cbn in H. destruct H as [<-|H]; [lia|]. apply IH in H. lia.
  - now apply IH.
Qed.

Lemma registered_tags_NoDup cbs : forall l t,
  NoDup (map snd (registered cbs t l)).
Proof.
  induction l as [|b l IH]; intros t; cbn [registered]; [constructor|].
  destruct (resolves cbs b); [|apply IH].
  cbn. constructor; [|apply IH].
  intros H. apply registered_tags_ge in H. lia.
Qed.

Lemma tags_of_app c a b : tags_of c (a ++ b) = tags_of c a ++ tags_of c b.
Proof. unfold tags_of. now rewrite filter_app, map_app. Qed.

Lemma channel_eqb_refl c : channel_eqb c c = true.
Proof. unfold channel_eqb. now rewrite !Nat.eqb_refl. Qed.

Lemma tags_of_registered c l : tags_of c (map (consumer_of c) l) = map snd l.
Proof.
  unfold tags_of. induction l as [|x l IH]; cbn; [reflexivity|].
  rewrite channel_eqb_refl. cbn. now rewrite IH.
Qed.

(** No consumer is on a channel that the broker has yet to issue. *)
Lemma tags_of_next_channel b conn :
  consumers_issued b = true ->
  tags_of (mkChannel conn (next_chan b)) (consumers b) = [].
Proof.
  unfold consumers_issued, tags_of. generalize (consumers b) as l.
  induction l as [|k l IH]; intros H; [reflexivity|].
  cbn [forallb] in H. apply andb_true_iff in H. destruct H as [Hk Hl].
  apply andb_true_iff in Hk. destruct Hk as [Hk _]. apply Nat.ltb_lt in Hk.
  cbn [filter]. unfold channel_eqb at 1. cbn [ch_id ch_conn].
  destruct (Nat.eqb_spec (ch_id (c_chan k)) (next_chan b)); [lia|].
  rewrite andb_false_r. now apply IH.
Qed.

(** The tags of the channel that [_init] has opened are the tags of
    its registration. *)
Lemma tags_of_new_channel w cs l :
  consumers_issued (broker w) = true ->
  cs = consumers (broker w) ++ map (consumer_of (next_channel w)) l ->
  tags_of (next_channel w) cs = map snd l.
Proof.
  intros Hi ->. rewrite tags_of_app, tags_of_registered.
  unfold next_channel at 1. now rewrite tags_of_next_channel.
Qed.

(** ** Reconnecting *)

Lemma wait_goes_on o l w w1 :
  Dispatcher.wait_round (Some o) w = (Ret true, w1) ->
  Dispatcher.wait (o :: l) w = Dispatcher.wait l w1.
Proof.
  intros H. unfold Dispatcher.wait. cbn [Dispatcher.wait_loop].
  unfold bind at 1 3. unfold bind at 1. rewrite H. reflexivity.
Qed.

Lemma wait_round_reconnects e k rest w c :
  e = SocketError \/ e = AMQPConnectionException ->
  chan w = Some c ->
  is_closed c (broker w) = false ->
  attempts w = repeat (Refused SocketError) k ++ Connected :: rest ->
  well_formed (broker w) = true ->
  exists w',
    Dispatcher.wait_round (Some (Raises e)) w = (Ret true, w') /\
    chan w' = Some (next_channel w) /\
    is_closed (next_channel w) (broker w') = false /\
    attempts w' = rest /\
    trace w' = trace w
               ++ [ChanWait c; Log ERROR "Server went away, reconnecting..."]
               ++ init_events w k /\
    clienttags w' =
      clienttags w
        ++ map snd (registered (callbacks (env w)) (next_tag (broker w))
                      (effective_bindings w)) /\
    closed_conns (broker w') = closed_conns (broker w) /\
    env w' = env w /\
    on_SIGINT w' = on_SIGINT w /\ on_SIGTERM w' = on_SIGTERM w /\
    consumers (broker w') =
      consumers (broker w)
        ++ map (consumer_of (next_channel w))
             (registered (callbacks (env w)) (next_tag (broker w))
                (effective_bindings w)).
Proof.
  intros He Hc Ho Ha Hwf.
  destruct (init_runs k rest
              (set_trace
                 (trace w ++ [ChanWait c;
                              Log ERROR "Server went away, reconnecting..."]) w)
              Ha Hwf)
    as (w' & Hrun & Hch & Ha' & Ht & _ & _ & _ & _ & Hk & Hg & _ & Ho'
        & He' & _ & Hi & Hm & _ & Hcc & _).
  exists w'. split.
  - unfold Dispatcher.wait_round, try_except.
    rewrite (bind_Ret _ _ _ _ _ (self_chan_some "wait" w c Hc)).
    unfold bind at 1. rewrite (chan_wait_open c _ w Ho).
    cbn [end_of_call raise].
    destruct He as [-> | ->].
    + unfold log at 1. erewrite bind_Ret by reflexivity. flatten.
      rewrite <- app_assoc. cbn [app].
      erewrite bind_Ret by exact Hrun. reflexivity.
    + unfold log at 1. erewrite bind_Ret by reflexivity. flatten.
      rewrite <- app_assoc. cbn [app].
      erewrite bind_Ret by exact Hrun. reflexivity.
  - conjs; try assumption.
    rewrite Ht. cbn [trace set_trace]. rewrite <- !app_assoc. reflexivity.
Qed.

(** When [chan.wait()] raises [socket.error] or
    [AMQPConnectionException], the worker logs it, initializes again
    (a new connection and channel, the declarations, the
    registrations) and goes on waiting on the new channel; the tags of
    the new registrations are added to the recorded ones, and the old
    connection is not closed.  When a signal ends the loop later, the
    drain begins with the tags recorded before the reconnect, which
    the new channel does not know.  If there is one, [wait] ends with
    [KeyError] at the first of them: no consumer is cancelled and
    nothing is closed.  If there is none, every new tag is cancelled
    and the connection and the channel are closed. *)
Theorem wait_reconnects_after_connection_error :
  forall e n s k rest tail w c,
    e = SocketError \/ e = AMQPConnectionException ->
    chan w = Some c ->
    is_closed c (broker w) = false ->
    on_SIGINT w = exit_handler ->
    on_SIGTERM w = exit_handler ->
    attempts w = repeat (Refused SocketError) k ++ Connected :: rest ->
    well_formed (broker w) = true ->
    consumers_issued (broker w) = true ->
    (forall t, In t (clienttags w) -> (t < next_tag (broker w))%nat) ->
    exists r w',
      Dispatcher.wait
        (Raises e :: repeat Completes n ++ Interrupted s :: tail) w
        = (r, w') /\
      match clienttags w with
      | t :: _ =>
          r = Raise (KeyError t) /\
          trace w' =
            trace w ++ reconnect_events w c k n s
                    ++ [BasicCancel (next_channel w) t] /\
          tags_of (next_channel w) (consumers (broker w')) = new_tags w /\
          is_closed (next_channel w) (broker w') = false
      | [] =>
          r = Ret tt /\
          trace w' =
            trace w ++ reconnect_events w c k n s
                    ++ map (BasicCancel (next_channel w)) (new_tags w)
                    ++ [ConnectionClose (ch_conn (next_channel w));
                        ChannelClose (next_channel w)] /\
          tags_of (next_channel w) (consumers (broker w')) = []
      end.
Proof.
  intros e n s k rest tail w c He Hc Ho Hi Ht Ha Hwf Hci Hold.
  destruct (wait_round_reconnects e k rest w c He Hc Ho Ha Hwf)
    as (w1 & Hr & Hc1 & Ho1 & _ & Ht1 & Hg1 & _ & He1 & Hi1 & Ht1' & Hk1).
  rewrite (wait_goes_on _ _ _ _ Hr).
  assert (Hi2 : on_SIGINT w1 = exit_handler) by now rewrite Hi1.
  assert (Ht2 : on_SIGTERM w1 = exit_handler) by now rewrite Ht1'.
  pose proof (tags_of_new_channel w _ _ Hci Hk1) as Htags.
  fold (new_tags w) in Htags, Hg1.
  destruct (clienttags w) as [|t tags] eqn:Hg.
  - cbn [app] in Hg1.
    destruct (wait_until_signal_runs n s tail w1 (next_channel w)
                Hc1 Ho1 Hi2 Ht2) as (w' & Hrun & Htr & Hno).
    + rewrite Hg1. apply registered_tags_NoDup.
    + intros t Hin. rewrite Htags, <- Hg1. exact Hin.
    + exists (Ret tt), w'. split; [exact Hrun|]. split; [reflexivity|].
      split.
      * rewrite Htr, Ht1, Hg1, He1. unfold reconnect_events.
        rewrite <- !app_assoc. reflexivity.
      * unfold tags_of. now rewrite Hno.
  - unfold Dispatcher.wait.
    rewrite (bind_Ret _ _ _ _ _
               (wait_loop_until_signal (next_channel w) n s tail w1
                  Hc1 Ho1 Hi2 Ht2)).
    erewrite drain_stops_at_stale_tag with (t := t) (c := next_channel w);
      [|exact Hc1|exact Ho1|cbn [clienttags set_trace]; rewrite Hg1; reflexivity|].
    + eexists. eexists. split; [reflexivity|]. split; [reflexivity|].
      split; [|split].
      * cbn [trace set_trace]. rewrite Ht1, He1. unfold reconnect_events.
        rewrite <- !app_assoc. reflexivity.
      * cbn [broker set_trace]. exact Htags.
      * cbn [broker set_trace]. exact Ho1.
    + cbn [broker set_trace]. rewrite Htags. intros Hin.
      apply registered_tags_ge in Hin.
      specialize (Hold t (or_introl eq_refl)). lia.
Qed.

Lemma wait_reconnects_after_connection_error_witness :
  let w := worker_up false [Connected; Refused SocketError; Connected] in
  (SocketError = SocketError \/ SocketError = AMQPConnectionException) /\
  (chan w = Some first_channel /\ is_closed first_channel (broker w) = false /\
   on_SIGINT w = exit_handler /\ on_SIGTERM w = exit_handler /\
   attempts w = repeat (Refused SocketError) 1 ++ Connected :: [] /\
   well_formed (broker w) = true /\
   consumers_issued (broker w) = true /\
   (forall t, In t (clienttags w) -> (t < next_tag (broker w))%nat)) /\
  exists w',
    Dispatcher.wait
      (Raises SocketError :: repeat Completes 1 ++ Interrupted SIGTERM :: []) w
      = (Raise (KeyError 0%nat), w') /\
    tags_of (mkChannel 1 1) (consumers (broker w')) = [1%nat] /\
    is_closed (mkChannel 1 1) (broker w') = false.
Proof.
  cbv zeta.
  assert (Hg : clienttags
                 (worker_up false [Connected; Refused SocketError; Connected])
               = [0%nat]) by (vm_compute; reflexivity).
  assert (Hn : next_channel
                 (worker_up false [Connected; Refused SocketError; Connected])
               = mkChannel 1 1) by (vm_compute; reflexivity).
  assert (Hnt : new_tags
                  (worker_up false [Connected; Refused SocketError; Connected])
                = [1%nat]) by (vm_compute; reflexivity).
  assert (Hold : forall t,
            In t (clienttags
                    (worker_up false [Connected; Refused SocketError; Connected])) ->
            (t < next_tag
                   (broker
                      (worker_up false
                         [Connected; Refused SocketError; Connected])))%nat).
  { intros t Ht. rewrite Hg in Ht. destruct Ht as [<-|[]]. vm_compute. lia. }
  split; [now left|].
  split; [conjs; try (vm_compute; reflexivity); exact Hold|].
  destruct (wait_reconnects_after_connection_error SocketError 1 SIGTERM 1
              [] [] (worker_up false
                       [Connected; Refused SocketError; Connected])
              first_channel (or_introl eq_refl))
    as (r & w' & Hrun & Hm); [vm_compute; reflexivity ..|exact Hold|].
  rewrite Hg, Hn, Hnt in Hm.
  destruct Hm as (-> & _ & Hk & Ho).
  exists w'. split; [exact Hrun|]. split; [exact Hk|exact Ho].
Defined.

(** ** The forked worker *)

Lemma never_returns_left {A B} (m : M A) (k : A -> M B) :
  (forall w a, fst (m w) <> Ret a) ->
  forall w b, fst (bind m k w) <> Ret b.
Proof.
  intros H w b. unfold bind. specialize (H w).
  destruct (m w) as [[a|e| |s] w1]; cbn in *; try discriminate.
  exfalso. now apply (H a).
Qed.

Lemma never_returns_right {A B} (m : M A) (k : A -> M B) :
  (forall a w b, fst (k a w) <> Ret b) ->
  forall w b, fst (bind m k w) <> Ret b.
Proof.
  intros H w b. unfold bind.
  destruct (m w) as [[a|e| |s] w1]; cbn; try discriminate. apply H.
Qed.

Lemma os_fork_gives r rest w :
  forks w = r :: rest ->
  os_fork w = (Ret r, set_trace (trace w ++ [Fork r]) (set_forks rest w)).
Proof. intros H. unfold os_fork. step. rewrite H. reflexivity. Qed.

Lemma os_fork_fails w :
  forks w = [] -> os_fork w = (Raise (OSError "EAGAIN"), w).
Proof. intros H. unfold os_fork. step. rewrite H. reflexivity. Qed.

Lemma child_never_forks_on rounds cwd argv incoming w rest :
  forks w = 0 :: rest ->
  run (fork_workers (S rounds) cwd argv incoming) w <> Ret tt.
Proof.
  intros H. unfold run. cbn [fork_workers].
  rewrite (bind_Ret _ _ _ _ _ (os_fork_gives 0 rest w H)).
  change (0 =? 0) with true. cbv beta iota.
  apply never_returns_left. intros w1 [].
  apply never_returns_right. intros _ w2 [].
  apply never_returns_right. intros _ w3 [].
  apply never_returns_right. intros _ w4 []. cbn. discriminate.
Qed.

(** The events of a worker that comes up after [k] refused attempts,
    handles [n] messages and is ended by signal [s], [w] being the
    world in which it initializes. *)
Lemma worker_runs dbg k rest n s tail w :
  on_SIGINT w = exit_handler ->
  on_SIGTERM w = exit_handler ->
  attempts w = repeat (Refused SocketError) k ++ Connected :: rest ->
  well_formed (broker w) = true ->
  clienttags w = [] ->
  consumers_issued (broker w) = true ->
  exists w',
    (Dispatcher.__init__ dbg ;;
     Dispatcher.wait (repeat Completes n ++ Interrupted s :: tail)) w
      = (Ret tt, w') /\
    trace w' =
      trace w
        ++ init_events (set_debug dbg w) k
        ++ repeat (ChanWait (next_channel w)) (S n)
        ++ [Stdout (exit_line (getpid (env w)) s)]
        ++ map (BasicCancel (next_channel w))
             (map snd (registered (callbacks (env w)) (next_tag (broker w))
                         (effective_bindings (set_debug dbg w))))
        ++ [ConnectionClose (ch_conn (next_channel w));
            ChannelClose (next_channel w)].
Proof.
  intros Hi Ht Ha Hwf Hnil Hci.
  destruct (init_runs k rest (set_debug dbg w) Ha Hwf)
    as (w1 & Hrun & Hch & _ & Htr & _ & _ & _ & _ & Hk & Hg & _ & Ho
        & He & _ & Hi1 & Ht1 & _).
  cbn [clienttags set_debug] in Hg. rewrite Hnil in Hg. cbn [app] in Hg.
  pose proof (tags_of_new_channel (set_debug dbg w) _ _ Hci Hk) as Htags.
  destruct (wait_until_signal_runs n s tail w1 (next_channel w) Hch Ho)
    as (w' & Hrun' & Htr' & _).
  - rewrite Hi1. exact Hi.
  - rewrite Ht1. exact Ht.
  - rewrite Hg. apply registered_tags_NoDup.
  - intros t Hin. rewrite Hg in Hin.
    change (next_channel w) with (next_channel (set_debug dbg w)).
    rewrite Htags. exact Hin.
  - exists w'. split.
    + unfold Dispatcher.__init__.
      erewrite bind_Ret by (erewrite bind_Ret by reflexivity; exact Hrun).
      exact Hrun'.
    + rewrite Htr', Htr, Hg, He. cbn [trace set_debug clienttags env].
      rewrite <- !app_assoc. reflexivity.
Qed.

(** In the child of [os.fork], [main] never goes on to fork or to
    reap: the call of [fork_workers] that got 0 from [os.fork] does
    not return.  A worker forked by the daemon, which has recorded no
    tag when it forks, that comes up, handles
    its messages and is ended by SIGINT or SIGTERM leaves through
    [sys.exit(1)]: its exit status is 1 also after an orderly
    shutdown, and it neither waits for a child nor releases the lock
    file. *)
Theorem forked_worker_exits_with_status_1 :
  (forall rounds cwd argv incoming w rest,
      forks w = 0 :: rest ->
      run (fork_workers (S rounds) cwd argv incoming) w <> Ret tt) /\
  (forall cwd argv k att n s tail w rest,
      daemon_mode (parse_arguments cwd argv) = true ->
      0 < Opts.workers (parse_arguments cwd argv) ->
      forks w = 0 :: rest ->
      attempts w = repeat (Refused SocketError) k ++ Connected :: att ->
      well_formed (broker w) = true ->
      clienttags w = [] ->
      consumers_issued (broker w) = true ->
      exists w',
        main cwd argv (repeat Completes n ++ Interrupted s :: tail) w
          = (Raise (SystemExit 1), w') /\
        trace w' =
          trace w
            ++ [DaemonOpen;
                PidfAcquire (Opts.pid_file (parse_arguments cwd argv));
                Log INFO "Became a daemon";
                Fork 0;
                SignalInstall SIGINT exit_handler;
                SignalInstall SIGTERM exit_handler]
            ++ init_events (set_debug false w) k
            ++ repeat (ChanWait (next_channel w)) (S n)
            ++ [Stdout (exit_line (getpid (env w)) s)]
            ++ map (BasicCancel (next_channel w))
                 (map snd (registered (callbacks (env w))
                             (next_tag (broker w))
                             (effective_bindings (set_debug false w))))
            ++ [ConnectionClose (ch_conn (next_channel w));
                ChannelClose (next_channel w)]).
Proof.
  split; [apply child_never_forks_on|].
  intros cwd argv k att n s tail w rest Hd Hw Hf Ha Hwf Hnil Hci.
  unfold main.
  remember (repeat Completes n ++ Interrupted s :: tail) as incoming.
  assert (Hdbg : Opts.debug (parse_arguments cwd argv) = false).
  { unfold daemon_mode in Hd.
    destruct (Opts.debug (parse_arguments cwd argv)); [|reflexivity].
    rewrite !andb_false_r in Hd. discriminate. }
  assert (Hchild : forall w0, child cwd argv incoming w0 =
            (Dispatcher.__init__ false ;; Dispatcher.wait incoming) w0).
  { intros w0. unfold child. rewrite Hdbg. reflexivity. }
  remember (parse_arguments cwd argv) as opts eqn:Ho. clear Ho.
  unfold daemon_mode in Hd.
  destruct (Opts.purge_queues opts); [discriminate|].
  destruct (Opts.purge_exchanges opts); [discriminate|].
  rewrite Hdbg in *. cbn in Hd.
  destruct (Z.to_nat (Opts.workers opts)) as [|m] eqn:Hn; [lia|].
  assert (Hrun : exists w',
    (emit DaemonOpen;;
     emit (PidfAcquire (Opts.pid_file opts));;
     log INFO "Became a daemon";;
     modify (set_children (Some []));;
     fork_workers (S m) cwd argv incoming;;
     signal SIGINT parent_handler;;
     signal SIGTERM parent_handler;; reap (Opts.pid_file opts)) w =
    (Raise (SystemExit 1), w') /\
    trace w' =
      trace w
        ++ [DaemonOpen; PidfAcquire (Opts.pid_file opts);
            Log INFO "Became a daemon"; Fork 0;
            SignalInstall SIGINT exit_handler;
            SignalInstall SIGTERM exit_handler]
        ++ init_events (set_debug false w) k
        ++ repeat (ChanWait (next_channel w)) (S n)
        ++ [Stdout (exit_line (getpid (env w)) s)]
        ++ map (BasicCancel (next_channel w))
             (map snd (registered (callbacks (env w))
                         (next_tag (broker w))
                         (effective_bindings (set_debug false w))))
        ++ [ConnectionClose (ch_conn (next_channel w));
            ChannelClose (next_channel w)]).
  { destruct (worker_runs false k att n s tail
                (set_handler SIGTERM exit_handler
                   (set_handler SIGINT exit_handler
                      (set_forks rest
                         (set_children (Some [])
                            (set_trace
                               (trace w
                                  ++ [DaemonOpen;
                                      PidfAcquire (Opts.pid_file opts);
                                      Log INFO "Became a daemon"; Fork 0;
                                      SignalInstall SIGINT exit_handler;
                                      SignalInstall SIGTERM exit_handler])
                               w))))))
      as (w' & Hr & Htr);
      [reflexivity|reflexivity|exact Ha|exact Hwf|exact Hnil|exact Hci|].
    exists w'. split.
    - run_head reflexivity. run_head reflexivity.
      unfold log at 1. run_head reflexivity. run_head reflexivity.
      apply bind_Raise. cbn [fork_workers].
      run_head ltac:(apply os_fork_gives with (rest := rest); exact Hf).
      change (0 =? 0) with true. cbv beta iota.
      apply bind_Raise.
      run_head reflexivity. run_head reflexivity.
      rewrite <- !app_assoc. cbn [app].
      erewrite bind_Ret by (rewrite Hchild, Heqincoming; exact Hr).
      reflexivity.
    - rewrite Htr. flatten. rewrite <- !app_assoc. reflexivity. }
  destruct (Opts.drain_queue opts) as [[|a q]|]; try discriminate; exact Hrun.
Qed.

Lemma forked_worker_exits_with_status_1_witness :
  let w := start env_one settings_one [Connected] [] [0] in
  (daemon_mode (parse_arguments "/srv" []) = true /\
   0 < Opts.workers (parse_arguments "/srv" []) /\
   forks w = 0 :: [] /\
   attempts w = repeat (Refused SocketError) 0 ++ Connected :: [] /\
   well_formed (broker w) = true /\
   clienttags w = [] /\
   consumers_issued (broker w) = true) /\
  exists w',
    main "/srv" [] (repeat Completes 1 ++ Interrupted SIGTERM :: []) w
      = (Raise (SystemExit 1), w').
Proof.
  cbv zeta. split; [conjs; reflexivity|].
  destruct (proj2 forked_worker_exits_with_status_1 "/srv"%string [] 0%nat
              [] 1%nat SIGTERM []
              (start env_one settings_one [Connected] [] [0]) []
              eq_refl eq_refl eq_refl eq_refl eq_refl eq_refl eq_refl)
    as (w' & Hrun & _).
  exists w'. exact Hrun.
Defined.

(** ** A fork that fails *)

Lemma fork_workers_fails cwd argv incoming : forall pids rounds w l,
  forks w = pids ->
  Forall (fun p => p <> 0) pids ->
  children w = Some l ->
  (List.length pids < rounds)%nat ->
  fork_workers rounds cwd argv incoming w =
  (Raise (OSError "EAGAIN"),
   set_children (Some (l ++ pids))
     (set_trace (trace w ++ flat_map (fork_events (getpid (env w))) pids)
        (set_forks [] w))).
Proof.
  induction pids as [|p pids IH]; intros rounds w l Hf Hnz Hc Hlt.
  - destruct rounds as [|r]; [cbn in Hlt; lia|].
    cbn [fork_workers]. apply bind_Raise.
    rewrite (os_fork_fails w Hf). cbn. rewrite !app_nil_r.
    destruct w; cbn in *; subst; reflexivity.
  - destruct rounds as [|r]; [cbn in Hlt; lia|].
    inversion Hnz as [|? ? Hp Hnz']; subst.
    cbn [fork_workers].
    run_head ltac:(apply os_fork_gives with (rest := pids); exact Hf).
    destruct (p =? 0) eqn:E; [apply Z.eqb_eq in E; contradiction|].
    cbv beta iota.
    erewrite bind_Ret.
    2:{ run_head reflexivity. unfold log at 1. run_head reflexivity.
        unfold children_append. run_head reflexivity. rewrite Hc.
        reflexivity. }
    flatten.
    rewrite (IH r _ (l ++ [p])); [|reflexivity|exact Hnz'|reflexivity|].
    + flatten. rewrite <- !app_assoc. reflexivity.
    + cbn in Hlt. lia.
Qed.

(** When [os.fork] fails before all the workers are forked, [main]
    ends with the [OSError]: the fork loop is outside the [try], so
    the lock file stays acquired, the handlers of the parent are not
    installed, and the children forked so far are neither signalled
    nor waited for. *)
Theorem fork_failure_leaves_lock_held :
  forall cwd argv incoming w pids,
    daemon_mode (parse_arguments cwd argv) = true ->
    forks w = pids ->
    Forall (fun p => p <> 0) pids ->
    (List.length pids < Z.to_nat (Opts.workers (parse_arguments cwd argv)))%nat ->
    exists w',
      main cwd argv incoming w = (Raise (OSError "EAGAIN"), w') /\
      trace w' =
        trace w
          ++ [DaemonOpen; PidfAcquire (Opts.pid_file (parse_arguments cwd argv));
              Log INFO "Became a daemon"]
          ++ flat_map (fork_events (getpid (env w))) pids /\
      children w' = Some pids /\
      on_SIGINT w' = on_SIGINT w /\ on_SIGTERM w' = on_SIGTERM w.
Proof.
  intros cwd argv incoming w pids Hd Hf Hnz Hlt. unfold main.
  remember (parse_arguments cwd argv) as opts eqn:Ho. clear Ho.
  unfold daemon_mode in Hd.
  destruct (Opts.purge_queues opts); [discriminate|].
  destruct (Opts.purge_exchanges opts); [discriminate|].
  destruct (Opts.debug opts); [discriminate|]. cbn in Hd.
  assert (Hrun : exists w',
    (emit DaemonOpen;;
     emit (PidfAcquire (Opts.pid_file opts));;
     log INFO "Became a daemon";;
     modify (set_children (Some []));;
     fork_workers (Z.to_nat (Opts.workers opts)) cwd argv incoming;;
     signal SIGINT parent_handler;;
     signal SIGTERM parent_handler;; reap (Opts.pid_file opts)) w =
    (Raise (OSError "EAGAIN"), w') /\
    trace w' =
      trace w
        ++ [DaemonOpen; PidfAcquire (Opts.pid_file opts);
            Log INFO "Became a daemon"]
        ++ flat_map (fork_events (getpid (env w))) pids /\
    children w' = Some pids /\
    on_SIGINT w' = on_SIGINT w /\ on_SIGTERM w' = on_SIGTERM w).
  { eexists. split.
    - run_head reflexivity. run_head reflexivity.
      unfold log at 1. run_head reflexivity. run_head reflexivity.
      apply bind_Raise.
      apply (fork_workers_fails cwd argv incoming pids _ _ []);
        [exact Hf|exact Hnz|reflexivity|exact Hlt].
    - flatten. rewrite <- !app_assoc. conjs; reflexivity. }
  destruct (Opts.drain_queue opts) as [[|a q]|]; try discriminate; exact Hrun.
Qed.

Lemma fork_failure_leaves_lock_held_witness :
  let w := start env_one settings_one [] [] [101] in
  (daemon_mode (parse_arguments "/srv" []) = true /\
   forks w = [101] /\
   Forall (fun p => p <> 0) [101] /\
   (List.length [101] < Z.to_nat (Opts.workers (parse_arguments "/srv" [])))%nat) /\
  exists w',
    main "/srv" [] [] w = (Raise (OSError "EAGAIN"), w') /\
    children w' = Some [101].
Proof.
  cbv zeta.
  assert (Hnz : Forall (fun p => p <> 0) [101])
    by (repeat constructor; discriminate).
  assert (Hlt : (List.length [101] <
                 Z.to_nat (Opts.workers (parse_arguments "/srv" [])))%nat)
    by (cbn; lia).
  split; [conjs; try reflexivity; assumption|].
  destruct (fork_failure_leaves_lock_held "/srv"%string [] []
              (start env_one settings_one [] [] [101]) [101]
              eq_refl eq_refl Hnz Hlt)
    as (w' & Hrun & _ & Hc & _).
  exists w'. split; assumption.
Defined.

(** ** Debug mode *)

(** From a process that has recorded no tag, as at its start,
    [debug_mode] initializes a dispatcher with [debug] set, installs
    [_exit_handler] only after the initialization has returned, and
    then waits in the foreground: it handles the messages until SIGINT
    or SIGTERM arrives and then drains and returns.  It neither forks
    nor becomes a daemon. *)
Theorem debug_mode_runs_in_foreground :
  forall k rest n s tail w,
    attempts w = repeat (Refused SocketError) k ++ Connected :: rest ->
    well_formed (broker w) = true ->
    clienttags w = [] ->
    consumers_issued (broker w) = true ->
    exists w',
      debug_mode (repeat Completes n ++ Interrupted s :: tail) w
        = (Ret tt, w') /\
      trace w' =
        trace w
          ++ init_events (set_debug true w) k
          ++ [SignalInstall SIGINT exit_handler;
              SignalInstall SIGTERM exit_handler]
          ++ repeat (ChanWait (next_channel w)) (S n)
          ++ [Stdout (exit_line (getpid (env w)) s)]
          ++ map (BasicCancel (next_channel w))
               (map snd (registered (callbacks (env w))
                           (next_tag (broker w))
                           (effective_bindings (set_debug true w))))
          ++ [ConnectionClose (ch_conn (next_channel w));
              ChannelClose (next_channel w)].
Proof.
  intros k rest n s tail w Ha Hwf Hnil Hci.
  destruct (init_runs k rest (set_debug true w) Ha Hwf)
    as (w1 & Hrun & Hch & _ & Htr & _ & _ & _ & _ & Hk & Hg & _ & Ho
        & He & _).
  cbn [clienttags set_debug] in Hg. rewrite Hnil in Hg. cbn [app] in Hg.
  pose proof (tags_of_new_channel (set_debug true w) _ _ Hci Hk) as Htags.
  destruct (wait_until_signal_runs n s tail
              (set_handler SIGTERM exit_handler
                 (set_handler SIGINT exit_handler
                    (set_trace
                       (trace w1 ++ [SignalInstall SIGINT exit_handler;
                                     SignalInstall SIGTERM exit_handler]) w1)))
              (next_channel w) Hch Ho eq_refl eq_refl)
    as (w' & Hrun' & Htr' & _).
  { cbn [clienttags set_handler set_trace]. rewrite Hg.
    apply registered_tags_NoDup. }
  { cbn [clienttags broker set_handler set_trace]. intros t Hin.
    rewrite Hg in Hin.
    change (next_channel w) with (next_channel (set_debug true w)).
    rewrite Htags. exact Hin. }
  exists w'. split.
  - unfold debug_mode, Dispatcher.__init__.
    erewrite bind_Ret by (erewrite bind_Ret by reflexivity; exact Hrun).
    run_head reflexivity. run_head reflexivity.
    rewrite <- !app_assoc. cbn [app]. exact Hrun'.
  - rewrite Htr'. flatten. rewrite Htr, Hg, He.
    cbn [trace set_debug clienttags env]. rewrite <- !app_assoc. reflexivity.
Qed.

Lemma debug_mode_runs_in_foreground_witness :
  let w := start env_one settings_one [Connected] [] [] in
  (attempts w = repeat (Refused SocketError) 0 ++ Connected :: [] /\
   well_formed (broker w) = true /\
   clienttags w = [] /\
   consumers_issued (broker w) = true) /\
  exists w',
    debug_mode (repeat Completes 1 ++ Interrupted SIGINT :: []) w
      = (Ret tt, w').
Proof.
  cbv zeta. split; [conjs; reflexivity|].
  destruct (debug_mode_runs_in_foreground 0 [] 1 SIGINT []
              (start env_one settings_one [Connected] [] [])
              eq_refl eq_refl eq_refl eq_refl)
    as (w' & Hrun & _).
  exists w'. exact Hrun.
Defined.

(** ** Purging the exchanges *)

Lemma purge_queues_declined w ans more rest :
  attempts w = Connected :: rest ->
  stdin w = ans :: more ->
  confirms ans = false ->
  purge_queues w =
  (Ret tt,
   set_stdin more
     (set_broker
        (with_counters (S (next_conn (broker w))) (S (next_chan (broker w)))
           (next_tag (broker w)) (broker w))
        (set_attempts rest
           (set_trace
              (trace w
                 ++ [AmqpConnect (RABBIT_HOST (settings w))
                       (RABBIT_USERNAME (settings w))
                       (RABBIT_PASSWORD (settings w))
                       (RABBIT_VHOST (settings w));
                     OpenChannel (next_channel w);
                     Stdout ("Queues to be deleted:  "
                             +++ repr_list (QUEUES (settings w)));
                     RawInput "Are you sure (N/y):"]) w)))).
Proof.
  intros Ha Hs Hn. unfold purge_queues, get_connection.
  run_head ltac:(apply amqp_Connection_connected with (rest := rest);
                 exact Ha).
  run_head ltac:(apply conn_channel_runs).
  run_head reflexivity.
  unfold print at 1. run_head reflexivity.
  run_head ltac:(apply get_user_confirmation_runs; exact Hs).
  rewrite Hn. cbn [negb]. unfold ret. flatten.
  rewrite <- !app_assoc. reflexivity.
Qed.

Lemma delete_exchanges_accepted c : forall l w,
  is_closed c (broker w) = false ->
  (forall x, In x l -> exchange_delete_fault (env w) x = None) ->
  for_each l
    (fun exchange =>
       try_except (exchange_delete c exchange)
         (fun e => match e with
                   | AMQPChannelException code text =>
                       Some (print_reply code text)
                   | _ => None
                   end)) w =
  (Ret tt,
   set_broker (remove_exchanges l (broker w))
     (set_trace (trace w ++ map (ExchangeDelete c) l) w)).
Proof.
  induction l as [|x l IH]; intros w Ho Hf.
  - cbn. rewrite app_nil_r. now destruct w.
  - cbn [for_each].
    erewrite bind_Ret.
    2:{ unfold try_except, exchange_delete, use_channel. step.
        rewrite Ho. cbn. rewrite (Hf x) by now left. reflexivity. }
    rewrite IH.
    + flatten. rewrite <- !app_assoc. reflexivity.
    + exact Ho.
    + intros y Hy. apply Hf. now right.
Qed.

Lemma remove_exchanges_read : forall l b,
  (forall y, In y (exchanges (remove_exchanges l b)) <->
             In y (exchanges b) /\ ~ In y l) /\
  queues (remove_exchanges l b) = queues b /\
  (forall t, In t (bound (remove_exchanges l b)) <->
             In t (bound b) /\ ~ In (snd (fst t)) l) /\
  closed (remove_exchanges l b) = closed b /\
  closed_conns (remove_exchanges l b) = closed_conns b.
Proof.
  induction l as [|x l IH]; intros b.
  - cbn. conjs; try reflexivity; intros; tauto.
  - cbn [remove_exchanges fold_left].
    destruct (IH (remove_exchange x b)) as (H1 & H2 & H3 & H4 & H5).
    fold (remove_exchanges l (remove_exchange x b)).
    conjs.
    + intros y. rewrite H1. cbn. rewrite filter_In, negb_true_iff,
        String.eqb_neq. intuition congruence.
    + rewrite H2. reflexivity.
    + intros t. rewrite H3. cbn. rewrite filter_In, negb_true_iff,
        String.eqb_neq. intuition congruence.
    + rewrite H4. reflexivity.
    + rewrite H5. reflexivity.
Qed.

Lemma is_closed_remove_exchanges c l b :
  is_closed c (remove_exchanges l b) = is_closed c b.
Proof.
  destruct (remove_exchanges_read l b) as (_ & _ & _ & H4 & H5).
  unfold is_closed. now rewrite H4, H5.
Qed.

(** [purge_exchanges] asks for its own confirmation after
    [purge_queues] has returned: when the user declines the deletion
    of the queues and confirms the deletion of the exchanges, and the
    broker refuses none, every configured exchange is deleted, with
    the bindings to it, on one channel of a second connection; the
    queues and the other exchanges stay. *)
Theorem purge_exchanges_deletes_after_declined_queues :
  forall w a1 a2 more att,
    attempts w = Connected :: Connected :: att ->
    stdin w = a1 :: a2 :: more ->
    confirms a1 = false ->
    confirms a2 = true ->
    (forall x, In x (EXCHANGES (settings w)) ->
               exchange_delete_fault (env w) x = None) ->
    well_formed (broker w) = true ->
    exists w',
      purge_exchanges w = (Ret tt, w') /\
      trace w' =
        trace w
          ++ [AmqpConnect (RABBIT_HOST (settings w)) (RABBIT_USERNAME (settings w))
                (RABBIT_PASSWORD (settings w)) (RABBIT_VHOST (settings w));
              OpenChannel (next_channel w);
              Stdout ("Queues to be deleted:  "
                      +++ repr_list (QUEUES (settings w)));
              RawInput "Are you sure (N/y):";
              AmqpConnect (RABBIT_HOST (settings w)) (RABBIT_USERNAME (settings w))
                (RABBIT_PASSWORD (settings w)) (RABBIT_VHOST (settings w));
              OpenChannel
                (mkChannel (S (next_conn (broker w))) (S (next_chan (broker w))));
              Stdout ("Exchnages to be deleted:  "
                      +++ repr_list (EXCHANGES (settings w)));
              RawInput "Are you sure (N/y):"]
          ++ map (ExchangeDelete
                    (mkChannel (S (next_conn (broker w)))
                       (S (next_chan (broker w)))))
               (EXCHANGES (settings w))
          ++ [ConnectionClose (S (next_conn (broker w)))] /\
      (forall y, In y (exchanges (broker w')) <->
                 In y (exchanges (broker w)) /\
                 ~ In y (EXCHANGES (settings w))) /\
      queues (broker w') = queues (broker w) /\
      (forall t, In t (bound (broker w')) <->
                 In t (bound (broker w)) /\
                 ~ In (snd (fst t)) (EXCHANGES (settings w))).
Proof.
  intros w a1 a2 more att Ha Hs Hn Hy Hf Hwf.
  assert (Hwf1 : well_formed
                   (with_counters (S (next_conn (broker w)))
                      (S (next_chan (broker w))) (next_tag (broker w))
                      (broker w)) = true).
  { eapply well_formed_grows; [exact Hwf|reflexivity|reflexivity|cbn; lia ..]. }
  pose proof (new_channel_open _ Hwf1) as Ho. cbn [next_conn next_chan
    with_counters] in Ho.
  destruct (remove_exchanges_read (EXCHANGES (settings w))
              (with_counters (S (S (next_conn (broker w))))
                 (S (S (next_chan (broker w)))) (next_tag (broker w))
                 (broker w)))
    as (R1 & R2 & R3 & _ & _).
  eexists. split.
  - unfold purge_exchanges.
    run_head ltac:(apply purge_queues_declined
                     with (rest := Connected :: att) (ans := a1)
                          (more := a2 :: more);
                   [exact Ha|exact Hs|exact Hn]).
    unfold get_connection.
    run_head ltac:(apply amqp_Connection_connected with (rest := att);
                   reflexivity).
    run_head ltac:(apply conn_channel_runs).
    run_head reflexivity.
    unfold print at 1. run_head reflexivity.
    run_head ltac:(apply get_user_confirmation_runs
                     with (ans := a2) (more := more); reflexivity).
    rewrite Hy. cbn [negb].
    run_head ltac:(apply delete_exchanges_accepted; [exact Ho|exact Hf]).
    run_head ltac:(apply chan_connection_open;
                   cbn [broker set_broker set_trace];
                   rewrite is_closed_remove_exchanges; exact Ho).
    unfold connection_close. run_head reflexivity.
    reflexivity.
  - flatten. rewrite <- !app_assoc. cbn [app]. split; [reflexivity|].
    split; [exact R1|]. split; [exact R2|exact R3].
Qed.

Lemma purge_exchanges_deletes_after_declined_queues_witness :
  let w := set_broker broker_three_exchanges
             (start env_one settings_three_exchanges [Connected; Connected]
                ["n"; "y"]%string []) in
  (attempts w = Connected :: Connected :: [] /\
   stdin w = "n"%string :: "y"%string :: [] /\
   confirms "n" = false /\ confirms "y" = true /\
   (forall x, In x (EXCHANGES (settings w)) ->
              exchange_delete_fault (env w) x = None) /\
   well_formed (broker w) = true) /\
  exists w',
    purge_exchanges w = (Ret tt, w') /\
    queues (broker w') = ["q1"%string].
Proof.
  cbv zeta.
  assert (Hf : forall x, In x (EXCHANGES settings_three_exchanges) ->
                         exchange_delete_fault env_one x = None)
    by reflexivity.
  split; [conjs; try reflexivity; exact Hf|].
  destruct (purge_exchanges_deletes_after_declined_queues
              (set_broker broker_three_exchanges
                 (start env_one settings_three_exchanges
                    [Connected; Connected] ["n"; "y"]%string []))
              "n"%string "y"%string [] [] eq_refl eq_refl eq_refl eq_refl
              Hf eq_refl)
    as (w' & Hrun & _ & _ & Hq & _).
  exists w'. split; assumption.
Defined.

(** ** Connections that are not retried *)

Lemma amqp_Connection_refused w e rest :
  attempts w = Refused e :: rest ->
  amqp_Connection w =
  (Raise e,
   set_attempts rest
     (set_trace
        (trace w ++ [AmqpConnect (RABBIT_HOST (settings w))
                       (RABBIT_USERNAME (settings w))
                       (RABBIT_PASSWORD (settings w))
                       (RABBIT_VHOST (settings w))]) w)).
Proof.
  intros H. unfold amqp_Connection. step. rewrite H. reflexivity.
Qed.

(** The administrative commands connect through [get_connection],
    which does not try again: when the connection is refused,
    [purge_queues] and [purge_exchanges] end with the exception before
    they print or ask anything, and [drain_queue] ends with it right
    after the user has confirmed. *)
Theorem admin_commands_do_not_retry :
  (forall w e rest,
      attempts w = Refused e :: rest ->
      exists w',
        purge_queues w = (Raise e, w') /\
        purge_exchanges w = (Raise e, w') /\
        attempts w' = rest /\
        trace w' =
          trace w ++ [AmqpConnect (RABBIT_HOST (settings w))
                        (RABBIT_USERNAME (settings w))
                        (RABBIT_PASSWORD (settings w))
                        (RABBIT_VHOST (settings w))]) /\
  (forall queue incoming w e rest ans more,
      queue <> EmptyString ->
      mem queue (QUEUES (settings w)) = true ->
      stdin w = ans :: more ->
      confirms ans = true ->
      attempts w = Refused e :: rest ->
      exists w',
        drain_queue queue incoming w = (Raise e, w') /\
        attempts w' = rest /\
        trace w' =
          trace w ++ [Stdout ("Queue to be drained: " +++ queue);
                      RawInput "Are you sure (N/y):";
                      AmqpConnect (RABBIT_HOST (settings w))
                        (RABBIT_USERNAME (settings w))
                        (RABBIT_PASSWORD (settings w))
                        (RABBIT_VHOST (settings w))]).
Proof.
  split.
  - intros w e rest Ha. eexists. split; [|split].
    + unfold purge_queues, get_connection. apply bind_Raise.
      apply amqp_Connection_refused. exact Ha.
    + unfold purge_exchanges. apply bind_Raise.
      unfold purge_queues, get_connection. apply bind_Raise.
      apply amqp_Connection_refused. exact Ha.
    + split; reflexivity.
  - intros queue incoming w e rest ans more Hq Hm Hs Hy Ha.
    apply String.eqb_neq in Hq.
    eexists. split.
    + unfold drain_queue. rewrite Hq.
      run_head reflexivity. rewrite Hm. cbn [negb].
      unfold print at 1. run_head reflexivity.
      run_head ltac:(apply get_user_confirmation_runs
                       with (ans := ans) (more := more); exact Hs).
      rewrite Hy. cbn [negb]. unfold get_connection. apply bind_Raise.
      apply amqp_Connection_refused with (rest := rest). exact Ha.
    + flatten. rewrite <- !app_assoc. split; reflexivity.
Qed.

Lemma admin_commands_do_not_retry_witness :
  let w := purge_world env_refuses_A ["y"%string]
             [Refused SocketError; Connected] in
  attempts w = Refused SocketError :: [Connected] /\
  exists w',
    purge_queues w = (Raise SocketError, w') /\
    attempts w' = [Connected].
Proof.
  cbv zeta. split; [reflexivity|].
  destruct (proj1 admin_commands_do_not_retry
              (purge_world env_refuses_A ["y"%string]
                 [Refused SocketError; Connected])
              SocketError [Connected] eq_refl)
    as (w' & Hrun & _ & Ha & _).
  exists w'. split; assumption.
Defined.

(** [_init] tries again after [socket.error] only: any other exception
    of [amqp.Connection] leaves [_init] at once, after the refusals
    that came before it, and the channel of the dispatcher is what it
    was.  In the wait loop such an exception, raised while the worker
    reconnects, ends [wait] without a drain. *)
Theorem init_retries_socket_errors_only :
  (forall e k rest w,
      e <> SocketError ->
      attempts w = repeat (Refused SocketError) k ++ Refused e :: rest ->
      exists w',
        Dispatcher._init w = (Raise e, w') /\
        attempts w' = rest /\
        chan w' = chan w /\
        trace w' = trace w
                   ++ [Log INFO "Initializing"]
                   ++ concat (repeat (retry_events (settings w)) k)
                   ++ attempt_events (settings w)) /\
  (forall e k rest tail w c,
      e <> SocketError ->
      chan w = Some c ->
      is_closed c (broker w) = false ->
      attempts w = repeat (Refused SocketError) k ++ Refused e :: rest ->
      exists w',
        Dispatcher.wait (Raises SocketError :: tail) w = (Raise e, w') /\
        chan w' = Some c /\
        trace w' = trace w
                   ++ [ChanWait c;
                       Log ERROR "Server went away, reconnecting...";
                       Log INFO "Initializing"]
                   ++ concat (repeat (retry_events (settings w)) k)
                   ++ attempt_events (settings w)).
Proof.
  assert (Hinit : forall e k rest w,
    e <> SocketError ->
    attempts w = repeat (Refused SocketError) k ++ Refused e :: rest ->
    Dispatcher._init w =
    (Raise e,
     set_attempts rest
       (set_trace
          (trace w ++ [Log INFO "Initializing"]
                   ++ concat (repeat (retry_events (settings w)) k)
                   ++ attempt_events (settings w)) w))).
  { intros e k rest w He Ha. unfold Dispatcher._init.
    unfold log at 1. run_head reflexivity. run_head reflexivity.
    apply bind_Raise.
    rewrite (connect_after_refusals k _ _ (Refused e :: rest))
      by first [exact Ha | rewrite Ha, length_app, repeat_length; lia].
    flatten. rewrite Ha, length_app, repeat_length. cbn [List.length].
    replace (S (k + S (List.length rest)) - k)%nat
      with (S (S (List.length rest))) by lia.
    rewrite (connect_other _ _ rest e) by first [reflexivity | exact He].
    flatten. rewrite <- !app_assoc. reflexivity. }
  split.
  - intros e k rest w He Ha. rewrite (Hinit e k rest w He Ha).
    eexists. split; [reflexivity|]. conjs; reflexivity.
  - intros e k rest tail w c He Hc Ho Ha.
    eexists. split.
    + unfold Dispatcher.wait. apply bind_Raise.
      cbn [Dispatcher.wait_loop]. apply bind_Raise.
      unfold Dispatcher.wait_round, try_except.
      rewrite (bind_Ret _ _ _ _ _ (self_chan_some "wait" w c Hc)).
      unfold bind at 1. rewrite (chan_wait_open c _ w Ho).
      cbn [end_of_call raise].
      unfold log at 1. run_head reflexivity.
      apply bind_Raise.
      apply (Hinit e k rest); [exact He|exact Ha].
    + flatten. rewrite <- !app_assoc. split; [exact Hc|reflexivity].
Qed.

Lemma init_retries_socket_errors_only_witness :
  let w := start env_one settings_one
             [Refused SocketError; Refused AMQPConnectionException; Connected]
             [] [] in
  (AMQPConnectionException <> SocketError /\
   attempts w = repeat (Refused SocketError) 1
                ++ Refused AMQPConnectionException :: [Connected]) /\
  exists w',
    Dispatcher._init w = (Raise AMQPConnectionException, w') /\
    attempts w' = [Connected] /\ chan w' = None.
Proof.
  cbv zeta.
  assert (H : AMQPConnectionException <> SocketError) by discriminate.
  split; [split; [exact H|reflexivity]|].
  destruct (proj1 init_retries_socket_errors_only AMQPConnectionException
              1%nat [Connected]
              (start env_one settings_one
                 [Refused SocketError; Refused AMQPConnectionException;
                  Connected] [] []) H eq_refl)
    as (w' & Hrun & Ha & Hc & _).
  exists w'. conjs; assumption.
Defined.

(** ** The modes of [main] *)

Lemma parsed_purge_queues l : forall o,
  Opts.purge_queues (fold_left store l o) = true <->
  Opts.purge_queues o = true \/ In opt_purge_queues l.
Proof.
  induction l as [|g l IH]; intros o; cbn [fold_left In].
  - tauto.
  - rewrite IH. destruct g; cbn; intuition (discriminate || auto).
Qed.

Lemma parsed_purge_exchanges l : forall o,
  Opts.purge_exchanges (fold_left store l o) = true <->
  Opts.purge_exchanges o = true \/ In opt_purge_exchanges l.
Proof.
  induction l as [|g l IH]; intros o; cbn [fold_left In].
  - tauto.
  - rewrite IH. destruct g; cbn; intuition (discriminate || auto).
Qed.

Lemma parsed_debug l : forall o,
  Opts.debug (fold_left store l o) = true <->
  Opts.debug o = true \/ In opt_debug l.
Proof.
  induction l as [|g l IH]; intros o; cbn [fold_left In].
  - tauto.
  - rewrite IH. destruct g; cbn; intuition (discriminate || auto).
Qed.

Lemma parsed_drain_queue_kept l : forall o,
  (forall q, ~ In (opt_drain_queue q) l) ->
  Opts.drain_queue (fold_left store l o) = Opts.drain_queue o.
Proof.
  induction l as [|g l IH]; intros o H; cbn [fold_left].
  - reflexivity.
  - rewrite IH by (intros q Hq; apply (H q); right; exact Hq).
    destruct g; try reflexivity.
    exfalso. apply (H queue). left. reflexivity.
Qed.

Lemma parsed_drain_queue_last cwd pre q post :
  (forall q', ~ In (opt_drain_queue q') post) ->
  Opts.drain_queue (parse_arguments cwd (pre ++ opt_drain_queue q :: post))
  = Some q.
Proof.
  intros H. unfold parse_arguments. rewrite fold_left_app.
  cbn [fold_left]. rewrite parsed_drain_queue_kept by exact H. reflexivity.
Qed.

Lemma not_true_false (b : bool) : ~ (b = true) -> b = false.
Proof. destruct b; [intros H; exfalso; apply H; reflexivity | reflexivity]. Qed.

(** [main] runs one mode only, chosen in a fixed order whatever the
    order of the options on the command line: [--purge-queues] before
    [--purge-exchanges], then [--drain-queue] with the queue of its
    last occurrence, then [--debug].  A [--drain-queue] whose last
    value is the empty string selects nothing.  The option that is
    passed over is ignored without a message. *)
Theorem main_runs_first_requested_mode (cwd : string)
    (argv : list option_given) (incoming : list blocking) :
  (In opt_purge_queues argv ->
   main cwd argv incoming = purge_queues) /\
  (~ In opt_purge_queues argv ->
   In opt_purge_exchanges argv ->
   main cwd argv incoming = purge_exchanges) /\
  (forall pre q post,
     ~ In opt_purge_queues argv ->
     ~ In opt_purge_exchanges argv ->
     argv = pre ++ opt_drain_queue q :: post ->
     (forall q', ~ In (opt_drain_queue q') post) ->
     (q <> EmptyString ->
      main cwd argv incoming = drain_queue q incoming) /\
     (q = EmptyString ->
      In opt_debug argv ->
      main cwd argv incoming = debug_mode incoming)) /\
  (~ In opt_purge_queues argv ->
   ~ In opt_purge_exchanges argv ->
   (forall q, ~ In (opt_drain_queue q) argv) ->
   In opt_debug argv ->
   main cwd argv incoming = debug_mode incoming).
Proof.
  assert (Hpq : In opt_purge_queues argv ->
                Opts.purge_queues (parse_arguments cwd argv) = true).
  { intros H. apply parsed_purge_queues. right. exact H. }
  assert (Hnpq : ~ In opt_purge_queues argv ->
                 Opts.purge_queues (parse_arguments cwd argv) = false).
  { intros H. apply not_true_false. intros Ht.
    apply parsed_purge_queues in Ht. destruct Ht as [Ht|Ht];
      [discriminate Ht | exact (H Ht)]. }
  assert (Hpe : In opt_purge_exchanges argv ->
                Opts.purge_exchanges (parse_arguments cwd argv) = true).
  { intros H. apply parsed_purge_exchanges. right. exact H. }
  assert (Hnpe : ~ In opt_purge_exchanges argv ->
                 Opts.purge_exchanges (parse_arguments cwd argv) = false).
  { intros H. apply not_true_false. intros Ht.
    apply parsed_purge_exchanges in Ht. destruct Ht as [Ht|Ht];
      [discriminate Ht | exact (H Ht)]. }
  assert (Hd : In opt_debug argv ->
               Opts.debug (parse_arguments cwd argv) = true).
  { intros H. apply parsed_debug. right. exact H. }
  conjs.
  - intros H. unfold main. rewrite (Hpq H). reflexivity.
  - intros H1 H2. unfold main. rewrite (Hnpq H1), (Hpe H2). reflexivity.
  - intros pre q post H1 H2 Heq Hpost.
    assert (Hq : Opts.drain_queue (parse_arguments cwd argv) = Some q).
    { rewrite Heq. apply parsed_drain_queue_last. exact Hpost. }
    split.
    + intros Hne. unfold main. rewrite (Hnpq H1), (Hnpe H2), Hq.
      destruct q as [|a q]; [contradiction Hne; reflexivity | reflexivity].
    + intros He H3. unfold main. rewrite (Hnpq H1), (Hnpe H2), Hq, He, (Hd H3).
      reflexivity.
  - intros H1 H2 H3 H4. unfold main.
    rewrite (Hnpq H1), (Hnpe H2), (Hd H4).
    assert (Hq : Opts.drain_queue (parse_arguments cwd argv) = None).
    { unfold parse_arguments. rewrite parsed_drain_queue_kept by exact H3.
      reflexivity. }
    rewrite Hq. reflexivity.
Qed.

Lemma main_runs_first_requested_mode_witness :
  let argv := [opt_debug; opt_drain_queue "q1"; opt_purge_exchanges;
               opt_purge_queues; opt_workers 4] in
  In opt_purge_queues argv /\
  main "/srv" argv [] = purge_queues.
Proof.
  cbv zeta.
  assert (H : In opt_purge_queues
                [opt_debug; opt_drain_queue "q1"; opt_purge_exchanges;
                 opt_purge_queues; opt_workers 4]).
  { right. right. right. left. reflexivity. }
  split; [exact H|].
  exact (proj1 (main_runs_first_requested_mode "/srv"
                  [opt_debug; opt_drain_queue "q1"; opt_purge_exchanges;
                   opt_purge_queues; opt_workers 4] []) H).
Defined.

